(** * NutriGuide: nutrition targets, meal plans, tracking and adherence

    A shallow embedding of the calculation core of the application:
    - [AIService], the plan generator: [calculateNutritionTargets],
      [generateMeal], [generateFallbackMeals], [generateDietPlan] and
      [generateFallbackDietPlan];
    - [NutritionTrackingService]: [addNutritionData],
      [calculateMealNutrition], [calculateDayNutrition],
      [recalculateDayMealTotals], [calculateDailyNutritionGoals],
      [calculateNutritionProgress], [calculateNutritionScore];
    - [ProfileService.validateProfileData];
    - [Dashboard.handleMealComplete];
    - [NutritionReporting], the rest of the tracking service:
      [generateNutritionRecommendations], [generateDailyReport],
      [calculateWeeklyTrends], [calculateWaterGoal],
      [checkNutrientDeficiencies];
    - [NutritionSummary.todaysProgress], the percentage of the dashboard;
    - [ProfileStore], the rows the profile service writes and reads:
      [createProfile], [updateProfile], [profileRowToUserProfile];
    - [MealPlanPage.handleSaveMeal].

    Numbers.  A JavaScript [number] is an exact rational extended with
    [Infinity], [-Infinity] and [NaN].  The special values follow the
    language (x/0, NaN propagation, falsy 0 and NaN); the rounding error
    of binary64 arithmetic and the negative zero are not modelled, so
    every finite result below is the exact one.  Where the rounding
    could decide a result, the properties are stated for whole numbers
    small enough for binary64 to be exact on them, or as bounds that
    leave room for the rounding error.

    Effects.  A call that may throw returns an [outcome]; the clock and
    the text-generation service are an explicit environment; React state
    is passed and returned.

    The file has two parts: the embedding with the predicates and sample
    data of the statements, then the properties. *)

From Stdlib Require Import ZArith QArith Qround Qabs Lqa Lia.
From Stdlib Require Qcanon.
From Stdlib Require Import List String Ascii Bool Sorted.
Import ListNotations.

Open Scope Z_scope.

(** Rationals are kept folded by [simpl]. *)
Arguments Qred : simpl never.
Arguments Qplus : simpl never.
Arguments Qmult : simpl never.
Arguments Qopp : simpl never.
Arguments Qdiv : simpl never.
Arguments Qabs : simpl never.
Arguments Qfloor : simpl never.
Arguments Qeq_bool : simpl never.
Arguments Qcompare : simpl never.
Arguments inject_Z : simpl never.

(* ================================================================== *)
(** ** JavaScript numbers *)

Inductive number : Type :=
| Fin (q : Q)
| PInf
| NInf
| NaN.

(** Integer literals and results. *)
Definition int (z : Z) : number := Fin (inject_Z z).

(** Sign of a rational as a comparison with 0. *)
Definition Qsign (q : Q) : comparison := (0 ?= q)%Q.

(** An infinity of the given sign; [Eq] stands for the undefined
    product 0 * Infinity. *)
Definition inf_of (c : comparison) : number :=
  match c with Lt => PInf | Gt => NInf | Eq => NaN end.

Definition flip (c : comparison) : comparison := CompOpp c.

Definition sign_of (x : number) : comparison :=
  match x with
  | Fin q => Qsign q
  | PInf => Lt
  | NInf => Gt
  | NaN => Eq
  end.

Definition sign_mul (a b : comparison) : comparison :=
  match a, b with
  | Eq, _ | _, Eq => Eq
  | Lt, c => c
  | Gt, c => flip c
  end.

(** [x + y] *)
Definition add (x y : number) : number :=
  match x, y with
  | NaN, _ | _, NaN => NaN
  | Fin a, Fin b => Fin (Qred (a + b))
  | PInf, NInf | NInf, PInf => NaN
  | PInf, _ | _, PInf => PInf
  | NInf, _ | _, NInf => NInf
  end.

(** [-x] *)
Definition neg (x : number) : number :=
  match x with
  | Fin a => Fin (Qred (- a))
  | PInf => NInf
  | NInf => PInf
  | NaN => NaN
  end.

(** [x - y] *)
Definition sub (x y : number) : number := add x (neg y).

(** [x * y] *)
Definition mul (x y : number) : number :=
  match x, y with
  | NaN, _ | _, NaN => NaN
  | Fin a, Fin b => Fin (Qred (a * b))
  | _, _ => inf_of (sign_mul (sign_of x) (sign_of y))
  end.

(** [x / y]: a finite number over zero is an infinity of its sign,
    0/0 and Infinity/Infinity are NaN. *)
Definition div (x y : number) : number :=
  match x, y with
  | NaN, _ | _, NaN => NaN
  | Fin a, Fin b =>
      if Qeq_bool b 0 then inf_of (Qsign a) else Fin (Qred (a / b))
  | Fin _, _ => Fin 0
  | _, Fin b =>
      match Qsign b with
      | Eq => x
      | c => inf_of (sign_mul (sign_of x) c)
      end
  | _, _ => NaN
  end.

(** [Math.round]: nearest integer, ties towards +Infinity. *)
Definition round_Z (q : Q) : Z := Qfloor (q + (1 # 2)).

Definition Math_round (x : number) : number :=
  match x with
  | Fin q => int (round_Z q)
  | _ => x
  end.

(** [Math.abs] *)
Definition Math_abs (x : number) : number :=
  match x with
  | Fin q => Fin (Qred (Qabs q))
  | PInf | NInf => PInf
  | NaN => NaN
  end.

(** Comparisons; every comparison with NaN is false. *)
Definition ltb (x y : number) : bool :=
  match x, y with
  | NaN, _ | _, NaN => false
  | Fin a, Fin b => match (a ?= b)%Q with Lt => true | _ => false end
  | NInf, NInf => false
  | NInf, _ => true
  | _, PInf => match x with PInf => false | _ => true end
  | _, _ => false
  end.

Definition leb (x y : number) : bool :=
  match x, y with
  | NaN, _ | _, NaN => false
  | Fin a, Fin b => match (a ?= b)%Q with Gt => false | _ => true end
  | NInf, _ => true
  | _, PInf => true
  | _, _ => false
  end.

Definition gtb (x y : number) : bool := ltb y x.
Definition geb (x y : number) : bool := leb y x.

(** [Math.max(x, y)]: NaN if either argument is NaN. *)
Definition Math_max (x y : number) : number :=
  match x, y with
  | NaN, _ | _, NaN => NaN
  | _, _ => if ltb x y then y else x
  end.

(** Truthiness of a number: 0 and NaN are falsy. *)
Definition truthy (x : number) : bool :=
  match x with
  | Fin q => negb (Qeq_bool q 0)
  | NaN => false
  | _ => true
  end.

(** [x || d] for a possibly absent numeric property ([None] is
    [undefined]). *)
Definition or_else (x : option number) (d : number) : number :=
  match x with
  | Some v => if truthy v then v else d
  | None => d
  end.

Definition finite (x : number) : Prop :=
  match x with Fin _ => True | _ => False end.

Declare Scope js_scope.
Delimit Scope js_scope with js.
Infix "+" := add : js_scope.
Infix "-" := sub : js_scope.
Infix "*" := mul : js_scope.
Infix "/" := div : js_scope.
Infix "<" := ltb : js_scope.
Infix "<=" := leb : js_scope.
Infix ">" := gtb : js_scope.
Infix ">=" := geb : js_scope.
Notation "x '||' d" := (or_else x d) : js_scope.

(* ================================================================== *)
(** ** Exceptions *)

Inductive Error : Type :=
| TypeError     (* property access on undefined *)
| RequestError. (* failed or rejected HTTP exchange *)

(** The result of a call that may throw. *)
Inductive outcome (A : Type) : Type :=
| Ok (a : A)
| Throw (e : Error).
Arguments Ok {A} a.
Arguments Throw {A} e.

Definition bind {A B : Type} (m : outcome A) (k : A -> outcome B) : outcome B :=
  match m with
  | Ok a => k a
  | Throw e => Throw e
  end.

Notation "x <- m ;; k" := (bind m (fun x => k))
  (at level 61, m at next level, right associativity).

(** [try { body } catch (error) { handler }] *)
Definition try_catch {A : Type} (body : outcome A) (handler : Error -> outcome A)
  : outcome A :=
  match body with
  | Ok a => Ok a
  | Throw e => handler e
  end.

(* ================================================================== *)
(** ** Property lookup on an object literal

    [table[key]] finds an own property, else a member inherited from
    [Object.prototype], else [undefined]. *)

Inductive property (A : Type) : Type :=
| Own (a : A)
| Inherited
| Missing.
Arguments Own {A} a.
Arguments Inherited {A}.
Arguments Missing {A}.

Definition Object_prototype_names : list string :=
  [ "constructor"; "hasOwnProperty"; "isPrototypeOf"; "propertyIsEnumerable";
    "toLocaleString"; "toString"; "valueOf"; "__proto__";
    "__defineGetter__"; "__defineSetter__"; "__lookupGetter__";
    "__lookupSetter__" ]%string.

Fixpoint own_property {A : Type} (table : list (string * A)) (key : string)
  : option A :=
  match table with
  | [] => None
  | (k, a) :: rest => if String.eqb k key then Some a else own_property rest key
  end.

Definition get_property {A : Type} (table : list (string * A)) (key : string)
  : property A :=
  match own_property table key with
  | Some a => Own a
  | None =>
      if existsb (String.eqb key) Object_prototype_names
      then Inherited else Missing
  end.

(** [table[key] || d] used as a factor: an inherited member is a
    function or an object, hence truthy, and converts to NaN. *)
Definition factor_or (p : property number) (d : number) : number :=
  match p with
  | Own m => if truthy m then m else d
  | Inherited => NaN
  | Missing => d
  end.

(* ================================================================== *)
(** ** Data model (types)

    Enumerations are kept as the strings they are at run time: rows read
    back from storage are cast, not checked.  Fields that none of the
    modelled operations reads (ids, names and descriptions of plans,
    timestamps, allergies, cuisines, ...) are left out.  A calendar
    date, an ISO [yyyy-mm-dd] string in the source, is the number of its
    day; which date the generator writes for a day of a plan is decided
    by the clock and the time zone and is a parameter of the environment.
    [planDuration] is a whole number of days. *)

Module PersonalDetails.
Record t : Type := mk {
    age : number;
    gender : string;
    weight : number;
    height : number;
    activityLevel : string }.
End PersonalDetails.

Module HealthGoals.
  (** [primary] is the declared field.  The tracker reads a property
      [primaryGoal], which the declared type does not have: it is
      [undefined] ([None]) on every profile the application builds. *)
Record t : Type := mk {
    primary : string;
    primaryGoal : option string }.
End HealthGoals.

Module UserProfile.
Record t : Type := mk {
    name : string;
    email : string;
    personalDetails : PersonalDetails.t;
    healthGoals : HealthGoals.t;
    dietType : string;   (* dietaryRestrictions.dietType *)
    planDuration : Z }.
End UserProfile.

Module Vitamins.
Record t : Type := mk {
    vitaminA : option number; vitaminC : option number;
    vitaminD : option number; vitaminE : option number;
    vitaminK : option number; thiamin : option number;
    riboflavin : option number; niacin : option number;
    vitaminB6 : option number; folate : option number;
    vitaminB12 : option number }.
End Vitamins.

Module Minerals.
Record t : Type := mk {
    calcium : option number; iron : option number;
    magnesium : option number; phosphorus : option number;
    potassium : option number; zinc : option number;
    copper : option number; manganese : option number;
    selenium : option number }.
End Minerals.

Module NutritionData.
Record t : Type := mk {
    calories : number;
    protein : number;
    carbs : number;
    fat : number;
    fiber : number;
    sugar : option number;
    sodium : option number;
    cholesterol : option number;
    vitamins : option Vitamins.t;
    minerals : option Minerals.t }.
End NutritionData.

Module Ingredient.
Record t : Type := mk {
    id : string;
    name : string;
    amount : number;
    unit : string;
    calories : number }.
End Ingredient.

Module Meal.
  (** [nutrition] is declared with the five main fields; the tracker
      reads the optional ones as well, so the record carries them. *)
Record t : Type := mk {
    name : string;
    description : string;
    ingredients : list Ingredient.t;
    instructions : list string;
    nutrition : NutritionData.t;
    prepTime : number;
    cookTime : number;
    servings : number;
    completed : bool }.

Definition set_completed (m : t) (c : bool) : t :=
    mk (name m) (description m) (ingredients m) (instructions m)
       (nutrition m) (prepTime m) (cookTime m) (servings m) c.
End Meal.

Module Meals.
Record t : Type := mk {
    breakfast : Meal.t;
    lunch : Meal.t;
    dinner : Meal.t;
    snacks : list Meal.t }.
End Meals.

Module DayMeal.
Record t : Type := mk {
    day : Z;
    date : Z;
    meals : Meals.t;
    totalCalories : number;
    completed : bool }.

Definition set_meals (d : t) (ms : Meals.t) : t :=
    mk (day d) (date d) ms (totalCalories d) (completed d).
Definition set_totalCalories (d : t) (c : number) : t :=
    mk (day d) (date d) (meals d) c (completed d).
Definition set_completed (d : t) (c : bool) : t :=
    mk (day d) (date d) (meals d) (totalCalories d) c.
End DayMeal.

Module Macros.
Record t : Type := mk { protein : number; carbs : number; fat : number }.
End Macros.

Module Progress.
Record t : Type := mk {
    completedDays : number;
    totalDays : number;
    adherenceRate : number }.
End Progress.

Module DietPlan.
Record t : Type := mk {
    duration : number;
    dailyCalories : number;
    macros : Macros.t;
    meals : list DayMeal.t;
    isActive : bool;
    progress : Progress.t }.
End DietPlan.

Module NutritionTargets.
Record t : Type := mk {
    dailyCalories : number;
    protein : number;
    carbs : number;
    fat : number }.
End NutritionTargets.

Module Template.
Record t : Type := mk {
    name : string;
    description : string;
    ingredients : list Ingredient.t;
    instructions : list string;
    prepTime : number;
    cookTime : number }.
End Template.

Inductive MealType : Type := breakfast | lunch | dinner | snack.

(* ================================================================== *)
(** ** AIService: nutrition targets and the deterministic generator *)

Module AIService.

Local Open Scope string_scope.
Local Open Scope list_scope.
Local Open Scope Z_scope.

(** Activity multipliers *)
Definition activityMultipliers : list (string * number) :=
  [ ("sedentary", Fin 1.2);
    ("light", Fin 1.375);
    ("moderate", Fin 1.55);
    ("active", Fin 1.725);
    ("very_active", Fin 1.9) ].

(** BMR using the Mifflin-St Jeor equation *)
Definition bmr_of (d : PersonalDetails.t) : number :=
  let weight := PersonalDetails.weight d in
  let height := PersonalDetails.height d in
  let age := PersonalDetails.age d in
  if String.eqb (PersonalDetails.gender d) "male"
  then (int 10 * weight + Fin 6.25 * height - int 5 * age + int 5)%js
  else (int 10 * weight + Fin 6.25 * height - int 5 * age - int 161)%js.

(** [activityMultipliers[activityLevel] || 1.55] *)
Definition multiplierOf (activityLevel : string) : number :=
  factor_or (get_property activityMultipliers activityLevel) (Fin 1.55).

Definition tdee_of (d : PersonalDetails.t) : number :=
  (bmr_of d * multiplierOf (PersonalDetails.activityLevel d))%js.

(** Adjust for goals: [switch (profile.healthGoals.primary)] *)
Definition adjustForGoal (tdee : number) (goal : string) : number :=
  if String.eqb goal "weight_loss" then (tdee - int 500)%js
  else if String.eqb goal "muscle_gain" then (tdee + int 300)%js
  else tdee.

(** Macro ratios (protein, fat, carbs) by diet type. *)
Definition macroRatios (dietType : string) : number * number * number :=
  if String.eqb dietType "keto" then (Fin 0.25, Fin 0.70, Fin 0.05)
  else if String.eqb dietType "paleo" then (Fin 0.30, Fin 0.35, Fin 0.35)
  else if String.eqb dietType "vegan" || String.eqb dietType "vegetarian"
       then (Fin 0.20, Fin 0.25, Fin 0.55)
  else (Fin 0.25, Fin 0.30, Fin 0.45).

Definition calculateNutritionTargets (profile : UserProfile.t) : NutritionTargets.t :=
  let tdee := tdee_of (UserProfile.personalDetails profile) in
  let dailyCalories :=
    adjustForGoal tdee (HealthGoals.primary (UserProfile.healthGoals profile)) in
  let '(proteinRatio, fatRatio, carbRatio) :=
    macroRatios (UserProfile.dietType profile) in
  NutritionTargets.mk
    (Math_round dailyCalories)
    (Math_round ((dailyCalories * proteinRatio) / int 4))%js
    (Math_round ((dailyCalories * carbRatio) / int 4))%js
    (Math_round ((dailyCalories * fatRatio) / int 9))%js.

(** *** Meal templates *)

Definition tpl (name description : string)
    (ingName : string) (amount : Z) (unit : string) (calories : Z)
    (instruction : string) (prepTime cookTime : Z) : Template.t :=
  Template.mk name description
    [ Ingredient.mk "1" ingName (int amount) unit (int calories) ]
    [ instruction ] (int prepTime) (int cookTime).

Definition veg_breakfast : list Template.t :=
  [ tpl "Overnight Oats with Berries" "Creamy oats with berries" "Oats" 50 "g" 190 "Mix and refrigerate" 5 0;
    tpl "Avocado Toast" "Whole grain toast with avocado" "Bread" 2 "slices" 160 "Toast and spread" 5 3;
    tpl "Greek Yogurt Parfait" "Layered yogurt with granola" "Yogurt" 200 "g" 150 "Layer ingredients" 5 0;
    tpl "Banana Pancakes" "Fluffy pancakes with banana" "Flour" 60 "g" 220 "Mix and cook" 10 10;
    tpl "Smoothie Bowl" "Thick smoothie with toppings" "Banana" 1 "medium" 105 "Blend and top" 7 0;
    tpl "Chia Pudding" "Chia seeds in almond milk" "Chia seeds" 30 "g" 145 "Mix and refrigerate" 5 0;
    tpl "Veggie Omelet" "Eggs with mixed vegetables" "Eggs" 2 "large" 140 "Whisk and cook" 5 8;
    tpl "Peanut Butter Toast" "Whole wheat with PB and banana" "Bread" 2 "slices" 160 "Toast and spread" 3 2;
    tpl "Breakfast Burrito" "Scrambled eggs in tortilla" "Tortilla" 1 "large" 120 "Cook and wrap" 10 8;
    tpl "Fruit Salad Bowl" "Mixed fresh fruits with nuts" "Mixed fruits" 200 "g" 120 "Chop and mix" 8 0 ].

Definition veg_lunch : list Template.t :=
  [ tpl "Quinoa Buddha Bowl" "Quinoa with roasted vegetables" "Quinoa" 80 "g" 290 "Cook and assemble" 10 25;
    tpl "Lentil Curry" "Spiced lentils with rice" "Lentils" 100 "g" 350 "Cook with spices" 15 30;
    tpl "Caprese Sandwich" "Mozzarella, tomato, basil" "Bread" 2 "slices" 160 "Layer and serve" 5 0;
    tpl "Chickpea Salad" "Mediterranean chickpea bowl" "Chickpeas" 150 "g" 180 "Mix ingredients" 10 0;
    tpl "Veggie Wrap" "Hummus and vegetable wrap" "Tortilla" 1 "large" 120 "Fill and wrap" 8 0;
    tpl "Pasta Primavera" "Whole wheat pasta with veggies" "Pasta" 80 "g" 280 "Cook and toss" 10 15;
    tpl "Black Bean Bowl" "Black beans with rice and salsa" "Black beans" 150 "g" 200 "Heat and combine" 8 10;
    tpl "Falafel Plate" "Baked falafel with tahini" "Chickpeas" 120 "g" 150 "Form and bake" 15 20;
    tpl "Vegetable Soup" "Hearty mixed vegetable soup" "Mixed veggies" 250 "g" 100 "Simmer together" 10 25;
    tpl "Paneer Tikka Bowl" "Grilled paneer with rice" "Paneer" 100 "g" 265 "Marinate and grill" 20 15 ].

Definition veg_dinner : list Template.t :=
  [ tpl "Stuffed Bell Peppers" "Quinoa-stuffed peppers" "Bell peppers" 2 "large" 60 "Stuff and bake" 20 35;
    tpl "Tofu Stir-fry" "Crispy tofu with vegetables" "Tofu" 120 "g" 180 "Stir-fry together" 15 15;
    tpl "Eggplant Parmesan" "Baked eggplant with cheese" "Eggplant" 200 "g" 50 "Layer and bake" 20 30;
    tpl "Mushroom Risotto" "Creamy arborio rice" "Arborio rice" 80 "g" 280 "Stir continuously" 10 30;
    tpl "Veggie Burger" "Homemade bean burger" "Black beans" 150 "g" 200 "Form and grill" 15 12;
    tpl "Spinach Lasagna" "Layered pasta with spinach" "Lasagna sheets" 100 "g" 350 "Layer and bake" 25 40;
    tpl "Cauliflower Tacos" "Roasted cauliflower in tortillas" "Cauliflower" 200 "g" 50 "Roast and assemble" 10 25;
    tpl "Vegetable Biryani" "Fragrant rice with vegetables" "Basmati rice" 80 "g" 280 "Layer and steam" 20 30;
    tpl "Zucchini Noodles" "Spiralized zucchini with marinara" "Zucchini" 250 "g" 40 "Spiralize and sauté" 10 8;
    tpl "Dal Tadka" "Yellow lentils with spices" "Yellow dal" 100 "g" 340 "Cook and temper" 10 25 ].

Definition veg_snack : list Template.t :=
  [ tpl "Greek Yogurt with Nuts" "Protein-rich snack" "Yogurt" 150 "g" 100 "Mix together" 2 0;
    tpl "Apple with Almond Butter" "Sliced apple with nut butter" "Apple" 1 "medium" 95 "Slice and dip" 3 0;
    tpl "Trail Mix" "Nuts, seeds, and dried fruit" "Mixed nuts" 30 "g" 180 "Mix ingredients" 2 0;
    tpl "Hummus with Veggies" "Chickpea dip with carrots" "Hummus" 50 "g" 100 "Serve together" 3 0;
    tpl "Protein Smoothie" "Banana and protein powder" "Banana" 1 "medium" 105 "Blend all" 5 0 ].

Definition omni_breakfast_extra : list Template.t :=
  [ tpl "Scrambled Eggs with Bacon" "Classic breakfast combo" "Eggs" 2 "large" 140 "Cook together" 5 8;
    tpl "Breakfast Sausage Bowl" "Sausage with hash browns" "Sausage" 80 "g" 250 "Cook and serve" 5 12 ].

Definition omni_lunch_extra : list Template.t :=
  [ tpl "Grilled Chicken Salad" "Fresh greens with chicken" "Chicken breast" 120 "g" 200 "Grill and toss" 10 15;
    tpl "Turkey Sandwich" "Whole grain with turkey" "Turkey" 100 "g" 120 "Layer and serve" 5 0;
    tpl "Beef Burrito Bowl" "Ground beef with rice" "Ground beef" 100 "g" 250 "Cook and assemble" 10 15;
    tpl "Tuna Salad" "Tuna with mixed greens" "Tuna" 100 "g" 130 "Mix and serve" 8 0 ].

Definition omni_dinner_extra : list Template.t :=
  [ tpl "Baked Salmon" "Herb-crusted salmon fillet" "Salmon" 150 "g" 280 "Season and bake" 10 25;
    tpl "Grilled Chicken Breast" "Marinated chicken with veggies" "Chicken" 150 "g" 250 "Marinate and grill" 15 20;
    tpl "Beef Stir-fry" "Lean beef with vegetables" "Beef" 120 "g" 220 "Stir-fry quickly" 10 12;
    tpl "Fish Tacos" "Grilled fish in corn tortillas" "White fish" 120 "g" 140 "Grill and assemble" 10 10;
    tpl "Pork Tenderloin" "Roasted pork with sweet potato" "Pork" 120 "g" 180 "Season and roast" 10 30;
    tpl "Shrimp Pasta" "Garlic shrimp with linguine" "Shrimp" 150 "g" 120 "Sauté and toss" 10 15 ].

Definition omni_snack_extra : list Template.t :=
  [ tpl "Beef Jerky" "High-protein dried beef" "Beef jerky" 30 "g" 80 "Serve" 1 0;
    tpl "Hard Boiled Eggs" "Protein-packed snack" "Eggs" 2 "large" 140 "Boil and peel" 2 10 ].

Module Templates.
Record t : Type := mk {
  breakfast : list Template.t;
  lunch : list Template.t;
  dinner : list Template.t;
  snack : list Template.t }.
End Templates.

Definition vegetarianTemplates : Templates.t :=
  Templates.mk veg_breakfast veg_lunch veg_dinner veg_snack.

Definition omnivoreTemplates : Templates.t :=
  Templates.mk
    (veg_breakfast ++ omni_breakfast_extra)%list
    (veg_lunch ++ omni_lunch_extra)%list
    (veg_dinner ++ omni_dinner_extra)%list
    (veg_snack ++ omni_snack_extra)%list.

Definition getMealTemplates (isVegetarian : bool) : Templates.t :=
  if isVegetarian then vegetarianTemplates else omnivoreTemplates.

(** [mealTemplates[mealType]]; the method is private and only ever
    called with these four keys, so the fallback to the breakfast pool
    never applies. *)
Definition templatesFor (ts : Templates.t) (mealType : MealType) : list Template.t :=
  match mealType with
  | breakfast => Templates.breakfast ts
  | lunch => Templates.lunch ts
  | dinner => Templates.dinner ts
  | snack => Templates.snack ts
  end.

(** [templates[day % templates.length]]: [undefined] outside the array. *)
Definition pick (templates : list Template.t) (day : Z) : option Template.t :=
  let i := Z.rem day (Z.of_nat (List.length templates)) in
  if i <? 0 then None else nth_error templates (Z.to_nat i).

Definition generateMeal (mealType : MealType) (targetCalories : number)
    (isVegetarian : bool) (day : Z) : outcome Meal.t :=
  match pick (templatesFor (getMealTemplates isVegetarian) mealType) day with
  | None => Throw TypeError
  | Some template =>
      Ok (Meal.mk
            (Template.name template)
            (Template.description template)
            (Template.ingredients template)
            (Template.instructions template)
            (NutritionData.mk
               (Math_round targetCalories)
               (Math_round (targetCalories * Fin 0.15 / int 4))%js
               (Math_round (targetCalories * Fin 0.50 / int 4))%js
               (Math_round (targetCalories * Fin 0.35 / int 9))%js
               (Math_round (targetCalories * Fin 0.02))%js
               None None None None None)
            (Template.prepTime template)
            (Template.cookTime template)
            (int 1)
            false)
  end.

Definition isVegetarianDiet (profile : UserProfile.t) : bool :=
  String.eqb (UserProfile.dietType profile) "vegetarian"
  || String.eqb (UserProfile.dietType profile) "vegan".

(** One iteration of the loop of [generateFallbackMeals].  [dateOf day] is
    the date the code writes for the day numbered [day]:
    [date.setDate(date.getDate() + day - 1)] moves [new Date()] in local
    time and [toISOString().split('T')[0]] prints the result in UTC, so the
    date depends on the clock and on the time zone and is left to the
    environment. *)
Definition generateDay (isVegetarian : bool) (targets : NutritionTargets.t)
    (dateOf : Z -> Z) (day : Z) : outcome DayMeal.t :=
  let dc := NutritionTargets.dailyCalories targets in
  b <- generateMeal breakfast (dc * Fin 0.25)%js isVegetarian day ;;
  l <- generateMeal lunch (dc * Fin 0.35)%js isVegetarian day ;;
  d <- generateMeal dinner (dc * Fin 0.30)%js isVegetarian day ;;
  s <- generateMeal snack (dc * Fin 0.10)%js isVegetarian day ;;
  Ok (DayMeal.mk day (dateOf day) (Meals.mk b l d [s]) dc false).

(** [for (let day = from; ...; day++)], [n] iterations left. *)
Fixpoint generateDays (isVegetarian : bool) (targets : NutritionTargets.t)
    (dateOf : Z -> Z) (n : nat) (from : Z) : outcome (list DayMeal.t) :=
  match n with
  | O => Ok []
  | S n' =>
      dayMeal <- generateDay isVegetarian targets dateOf from ;;
      rest <- generateDays isVegetarian targets dateOf n' (from + 1) ;;
      Ok (dayMeal :: rest)
  end.

Definition generateFallbackMeals (profile : UserProfile.t)
    (targets : NutritionTargets.t) (dateOf : Z -> Z) : outcome (list DayMeal.t) :=
  generateDays (isVegetarianDiet profile) targets dateOf
    (Z.to_nat (UserProfile.planDuration profile)) 1.

(** The parser ignores the text it is given. *)
Definition parseAIMealPlan (aiResponse : string) (profile : UserProfile.t)
    (targets : NutritionTargets.t) (dateOf : Z -> Z) : outcome (list DayMeal.t) :=
  generateFallbackMeals profile targets dateOf.

(** What the text-generation service does when it is called. *)
Inductive Reply : Type :=
| NetworkFailure                 (* fetch rejects *)
| Status (ok : bool)             (* a response without a usable body *)
| Text (aiResponse : string).    (* ok, with candidates[0]...text *)

Record Env : Type := mkEnv {
  GEMINI_API_KEY : option string;
  reply : Reply;
  dateOf : Z -> Z }.

Definition keyConfigured (k : option string) : bool :=
  match k with
  | None => false
  | Some s => negb (String.eqb s "") && negb (String.eqb s "your_gemini_api_key")
  end.

Definition callGemini (r : Reply) : outcome string :=
  match r with
  | NetworkFailure => Throw RequestError
  | Status false => Throw RequestError
  | Status true => Throw TypeError
  | Text s => Ok s
  end.

Definition generateMealPlanWithAI (env : Env) (profile : UserProfile.t)
    (targets : NutritionTargets.t) : outcome (list DayMeal.t) :=
  if negb (keyConfigured (GEMINI_API_KEY env))
  then generateFallbackMeals profile targets (dateOf env)
  else
    try_catch
      (aiResponse <- callGemini (reply env) ;;
       parseAIMealPlan aiResponse profile targets (dateOf env))
      (fun _ => generateFallbackMeals profile targets (dateOf env)).

Definition planOf (profile : UserProfile.t) (targets : NutritionTargets.t)
    (meals : list DayMeal.t) : DietPlan.t :=
  DietPlan.mk
    (int (UserProfile.planDuration profile))
    (NutritionTargets.dailyCalories targets)
    (Macros.mk (NutritionTargets.protein targets)
               (NutritionTargets.carbs targets)
               (NutritionTargets.fat targets))
    meals
    true
    (Progress.mk (int 0) (int (UserProfile.planDuration profile)) (int 0)).

Definition generateFallbackDietPlan (env : Env) (profile : UserProfile.t)
  : outcome DietPlan.t :=
  let targets := calculateNutritionTargets profile in
  meals <- generateFallbackMeals profile targets (dateOf env) ;;
  Ok (planOf profile targets meals).

Definition generateDietPlan (env : Env) (userProfile : UserProfile.t)
  : outcome DietPlan.t :=
  try_catch
    (let nutritionTargets := calculateNutritionTargets userProfile in
     mealPlan <- generateMealPlanWithAI env userProfile nutritionTargets ;;
     Ok (planOf userProfile nutritionTargets mealPlan))
    (fun _ => generateFallbackDietPlan env userProfile).

End AIService.

(* ================================================================== *)
(** ** NutritionTrackingService *)

Module Percentage.
Record t : Type := mk {
  calories : number;
  protein : number;
  carbs : number;
  fat : number;
  fiber : number }.
End Percentage.

Inductive Status : Type := deficit | optimal | excess.

Module NutritionProgress.
Record t : Type := mk {
  current : NutritionData.t;
  target : NutritionData.t;
  percentage : Percentage.t;
  status : Status }.
End NutritionProgress.

Module NutritionTrackingService.

Local Open Scope string_scope.
Local Open Scope list_scope.
Local Open Scope Z_scope.

(** Optional chaining: [data.vitamins?.field]. *)
Definition opt {R : Type} (r : option R) (field : R -> option number)
  : option number :=
  match r with
  | Some v => field v
  | None => None
  end.

(** [(a || 0) + (b || 0)] *)
Definition plus0 (a b : option number) : option number :=
  Some ((a || int 0) + (b || int 0))%js.

(** [x || 0] as a present field. *)
Definition or0 (a : option number) : option number := Some (a || int 0)%js.

Definition calculateMealNutrition (meal : Meal.t) : NutritionData.t :=
  let n := Meal.nutrition meal in
  let v := NutritionData.vitamins n in
  let m := NutritionData.minerals n in
  NutritionData.mk
    (Some (NutritionData.calories n) || int 0)%js
    (Some (NutritionData.protein n) || int 0)%js
    (Some (NutritionData.carbs n) || int 0)%js
    (Some (NutritionData.fat n) || int 0)%js
    (Some (NutritionData.fiber n) || int 0)%js
    (or0 (NutritionData.sugar n))
    (or0 (NutritionData.sodium n))
    (or0 (NutritionData.cholesterol n))
    (Some (Vitamins.mk
       (or0 (opt v Vitamins.vitaminA)) (or0 (opt v Vitamins.vitaminC))
       (or0 (opt v Vitamins.vitaminD)) (or0 (opt v Vitamins.vitaminE))
       (or0 (opt v Vitamins.vitaminK)) (or0 (opt v Vitamins.thiamin))
       (or0 (opt v Vitamins.riboflavin)) (or0 (opt v Vitamins.niacin))
       (or0 (opt v Vitamins.vitaminB6)) (or0 (opt v Vitamins.folate))
       (or0 (opt v Vitamins.vitaminB12))))
    (Some (Minerals.mk
       (or0 (opt m Minerals.calcium)) (or0 (opt m Minerals.iron))
       (or0 (opt m Minerals.magnesium)) (or0 (opt m Minerals.phosphorus))
       (or0 (opt m Minerals.potassium)) (or0 (opt m Minerals.zinc))
       (or0 (opt m Minerals.copper)) (or0 (opt m Minerals.manganese))
       (or0 (opt m Minerals.selenium)))).

(** Helper function to add two nutrition data objects *)
Definition addNutritionData (data1 data2 : NutritionData.t) : NutritionData.t :=
  let v1 := NutritionData.vitamins data1 in
  let v2 := NutritionData.vitamins data2 in
  let m1 := NutritionData.minerals data1 in
  let m2 := NutritionData.minerals data2 in
  NutritionData.mk
    (NutritionData.calories data1 + NutritionData.calories data2)%js
    (NutritionData.protein data1 + NutritionData.protein data2)%js
    (NutritionData.carbs data1 + NutritionData.carbs data2)%js
    (NutritionData.fat data1 + NutritionData.fat data2)%js
    ((Some (NutritionData.fiber data1) || int 0)
     + (Some (NutritionData.fiber data2) || int 0))%js
    (plus0 (NutritionData.sugar data1) (NutritionData.sugar data2))
    (plus0 (NutritionData.sodium data1) (NutritionData.sodium data2))
    (plus0 (NutritionData.cholesterol data1) (NutritionData.cholesterol data2))
    (Some (Vitamins.mk
       (plus0 (opt v1 Vitamins.vitaminA) (opt v2 Vitamins.vitaminA))
       (plus0 (opt v1 Vitamins.vitaminC) (opt v2 Vitamins.vitaminC))
       (plus0 (opt v1 Vitamins.vitaminD) (opt v2 Vitamins.vitaminD))
       (plus0 (opt v1 Vitamins.vitaminE) (opt v2 Vitamins.vitaminE))
       (plus0 (opt v1 Vitamins.vitaminK) (opt v2 Vitamins.vitaminK))
       (plus0 (opt v1 Vitamins.thiamin) (opt v2 Vitamins.thiamin))
       (plus0 (opt v1 Vitamins.riboflavin) (opt v2 Vitamins.riboflavin))
       (plus0 (opt v1 Vitamins.niacin) (opt v2 Vitamins.niacin))
       (plus0 (opt v1 Vitamins.vitaminB6) (opt v2 Vitamins.vitaminB6))
       (plus0 (opt v1 Vitamins.folate) (opt v2 Vitamins.folate))
       (plus0 (opt v1 Vitamins.vitaminB12) (opt v2 Vitamins.vitaminB12))))
    (Some (Minerals.mk
       (plus0 (opt m1 Minerals.calcium) (opt m2 Minerals.calcium))
       (plus0 (opt m1 Minerals.iron) (opt m2 Minerals.iron))
       (plus0 (opt m1 Minerals.magnesium) (opt m2 Minerals.magnesium))
       (plus0 (opt m1 Minerals.phosphorus) (opt m2 Minerals.phosphorus))
       (plus0 (opt m1 Minerals.potassium) (opt m2 Minerals.potassium))
       (plus0 (opt m1 Minerals.zinc) (opt m2 Minerals.zinc))
       (plus0 (opt m1 Minerals.copper) (opt m2 Minerals.copper))
       (plus0 (opt m1 Minerals.manganese) (opt m2 Minerals.manganese))
       (plus0 (opt m1 Minerals.selenium) (opt m2 Minerals.selenium)))).

(** Helper function to create empty nutrition data *)
Definition createEmptyNutritionData : NutritionData.t :=
  let z := Some (int 0) in
  NutritionData.mk (int 0) (int 0) (int 0) (int 0) (int 0) z z z
    (Some (Vitamins.mk z z z z z z z z z z z))
    (Some (Minerals.mk z z z z z z z z z)).

(** Total nutrition for a day; [fold_left] is [Array.prototype.reduce]. *)
Definition calculateDayNutrition (dayMeal : DayMeal.t) : NutritionData.t :=
  let ms := DayMeal.meals dayMeal in
  let breakfast := calculateMealNutrition (Meals.breakfast ms) in
  let lunch := calculateMealNutrition (Meals.lunch ms) in
  let dinner := calculateMealNutrition (Meals.dinner ms) in
  let snacksNutrition :=
    fold_left
      (fun acc snack => addNutritionData acc (calculateMealNutrition snack))
      (Meals.snacks ms) createEmptyNutritionData in
  let mainMealsNutrition :=
    addNutritionData (addNutritionData breakfast lunch) dinner in
  addNutritionData mainMealsNutrition snacksNutrition.

(** Nutrition for completed meals only *)
Definition addIfCompleted (acc : NutritionData.t) (meal : Meal.t) : NutritionData.t :=
  if Meal.completed meal
  then addNutritionData acc (calculateMealNutrition meal)
  else acc.

Definition calculateCompletedNutrition (dayMeal : DayMeal.t) : NutritionData.t :=
  let ms := DayMeal.meals dayMeal in
  let n0 := createEmptyNutritionData in
  let n1 := addIfCompleted n0 (Meals.breakfast ms) in
  let n2 := addIfCompleted n1 (Meals.lunch ms) in
  let n3 := addIfCompleted n2 (Meals.dinner ms) in
  fold_left addIfCompleted (Meals.snacks ms) n3.

(** Recalculate day meal totals *)
Definition recalculateDayMealTotals (dayMeal : DayMeal.t) : DayMeal.t :=
  let nutrition := calculateDayNutrition dayMeal in
  DayMeal.set_totalCalories dayMeal
    (Math_round (NutritionData.calories nutrition)).

(** Daily nutrition goals of the tracker *)
Definition bmr_of (d : PersonalDetails.t) : number :=
  let weight := PersonalDetails.weight d in
  let height := PersonalDetails.height d in
  let age := PersonalDetails.age d in
  if String.eqb (PersonalDetails.gender d) "male"
  then (int 10 * weight + Fin 6.25 * height - int 5 * age + int 5)%js
  else (int 10 * weight + Fin 6.25 * height - int 5 * age - int 161)%js.

Definition activityFactor (activityLevel : string) : number :=
  if String.eqb activityLevel "light" then Fin 1.375
  else if String.eqb activityLevel "moderate" then Fin 1.55
  else if String.eqb activityLevel "active" then Fin 1.725
  else if String.eqb activityLevel "very_active" then Fin 1.9
  else Fin 1.2. (* sedentary *)

(** [primaryGoal === 'weight_loss'] on a possibly undefined value. *)
Definition is_goal (primaryGoal : option string) (g : string) : bool :=
  match primaryGoal with
  | Some s => String.eqb s g
  | None => false
  end.

Definition tdee_of (d : PersonalDetails.t) : number :=
  (bmr_of d * activityFactor (PersonalDetails.activityLevel d))%js.

(** Adjust for goals *)
Definition goalTdee (userProfile : UserProfile.t) : number :=
  let d := UserProfile.personalDetails userProfile in
  let primaryGoal := HealthGoals.primaryGoal (UserProfile.healthGoals userProfile) in
  let tdee := tdee_of d in
  if is_goal primaryGoal "weight_loss" then (tdee * Fin 0.85)%js
  else if is_goal primaryGoal "muscle_gain" then (tdee * Fin 1.15)%js
  else tdee.

(** Macro ratios (protein, fat, carbs) by diet type. *)
Definition macroRatios (dietType : string) : number * number * number :=
  if String.eqb dietType "keto" then (Fin 0.25, Fin 0.7, Fin 0.05)
  else if String.eqb dietType "vegan" then (Fin 0.2, Fin 0.3, Fin 0.5)
  else if String.eqb dietType "paleo" then (Fin 0.35, Fin 0.35, Fin 0.3)
  else (Fin 0.3, Fin 0.3, Fin 0.4).

Definition calculateDailyNutritionGoals (userProfile : UserProfile.t)
  : NutritionData.t :=
  let d := UserProfile.personalDetails userProfile in
  let age := PersonalDetails.age d in
  let male := String.eqb (PersonalDetails.gender d) "male" in
  let tdee := goalTdee userProfile in
  let '(proteinRatio, fatRatio, carbsRatio) :=
    macroRatios (UserProfile.dietType userProfile) in
  let proteinCalories := (tdee * proteinRatio)%js in
  let fatCalories := (tdee * fatRatio)%js in
  let carbsCalories := (tdee * carbsRatio)%js in
  NutritionData.mk
    (Math_round tdee)
    (Math_round (proteinCalories / int 4))%js
    (Math_round (carbsCalories / int 4))%js
    (Math_round (fatCalories / int 9))%js
    (Math_round (age * Fin 0.5 + int 10))%js
    (Some (Math_round (tdee * Fin 0.1 / int 4))%js)
    (Some (int 2300))
    (Some (if male then int 300 else int 200))
    (Some (Vitamins.mk
       (Some (int 900)) (Some (int 90)) (Some (int 20)) (Some (int 15))
       (Some (int 120)) (Some (Fin 1.2)) (Some (Fin 1.3)) (Some (int 16))
       (Some (Fin 1.3)) (Some (int 400)) (Some (Fin 2.4))))
    (Some (Minerals.mk
       (Some (int 1000)) (Some (if male then int 8 else int 18))
       (Some (int 420)) (Some (int 700)) (Some (int 3500)) (Some (int 11))
       (Some (Fin 0.9)) (Some (Fin 2.3)) (Some (int 55)))).

(** Nutrition progress against goals *)
Definition percentOf (current target : number) : number :=
  Math_round ((current / target) * int 100)%js.

Definition calculateNutritionProgress (current target : NutritionData.t)
  : NutritionProgress.t :=
  let percentage :=
    Percentage.mk
      (percentOf (NutritionData.calories current) (NutritionData.calories target))
      (percentOf (NutritionData.protein current) (NutritionData.protein target))
      (percentOf (NutritionData.carbs current) (NutritionData.carbs target))
      (percentOf (NutritionData.fat current) (NutritionData.fat target))
      (percentOf (NutritionData.fiber current) (NutritionData.fiber target)) in
  let status :=
    if (Percentage.calories percentage < int 80)%js
       || (Percentage.protein percentage < int 80)%js
       || (Percentage.carbs percentage < int 80)%js
       || (Percentage.fat percentage < int 80)%js
    then deficit
    else if (Percentage.calories percentage > int 120)%js
         || (Percentage.protein percentage > int 120)%js
         || (Percentage.carbs percentage > int 120)%js
         || (Percentage.fat percentage > int 120)%js
    then excess
    else optimal in
  NutritionProgress.mk current target percentage status.

(** Sub-score of calories and of each macronutrient. *)
Definition macroScore (pct : number) : number :=
  if (pct >= int 90)%js && (pct <= int 110)%js then int 100
  else if (pct >= int 80)%js && (pct <= int 120)%js then int 80
  else Math_max (int 0) (int 100 - Math_abs (pct - int 100))%js.

Definition fiberScore (pct : number) : number :=
  if (pct >= int 100)%js then int 100 else (pct * Fin 1.25)%js.

(** Calculate nutrition score (0-100) *)
Definition calculateNutritionScore (progress : NutritionProgress.t) : number :=
  let percentage := NutritionProgress.percentage progress in
  let calorieScore := macroScore (Percentage.calories percentage) in
  let proteinScore := macroScore (Percentage.protein percentage) in
  let carbsScore := macroScore (Percentage.carbs percentage) in
  let fatScore := macroScore (Percentage.fat percentage) in
  let fiberScore := fiberScore (Percentage.fiber percentage) in
  let score :=
    (calorieScore * Fin 0.4
     + proteinScore * Fin 0.2
     + carbsScore * Fin 0.2
     + fatScore * Fin 0.1
     + fiberScore * Fin 0.1)%js in
  Math_round score.

End NutritionTrackingService.

(* ================================================================== *)
(** ** ProfileService: validation of profile data *)

Module ProfileError.
Record t : Type := mk {
  message : string;
  code : string;
  statusCode : Z }.
End ProfileError.

(** [Partial<UserProfile>]: every top-level field may be absent. *)
Module PartialProfile.
Record t : Type := mk {
  name : option string;
  email : option string;
  personalDetails : option PersonalDetails.t;
  planDuration : option Z }.
End PartialProfile.

Module ProfileService.

Local Open Scope string_scope.
Local Open Scope list_scope.
Local Open Scope Z_scope.

(** Text is ASCII: a string is the list of its characters, one code
    unit each, and [\s] is space, tab, line feed, vertical tab, form feed
    and carriage return.  The white space of the language beyond ASCII
    (the no-break space and the like) and characters of more than one
    byte are not modelled: what is stated of the content of a name or of
    an address is stated of ASCII text. *)
Definition is_space (c : ascii) : bool :=
  let n := nat_of_ascii c in
  (Nat.eqb n 32 || (Nat.leb 9 n && Nat.leb n 13))%bool.

Fixpoint trimStart (s : list ascii) : list ascii :=
  match s with
  | c :: rest => if is_space c then trimStart rest else s
  | [] => []
  end.

(** [s.trim()] *)
Definition trim (s : list ascii) : list ascii :=
  rev (trimStart (rev (trimStart s))).

(** A character of the class [[^\s@]]. *)
Definition plain (c : ascii) : bool :=
  negb (is_space c) && negb (Ascii.eqb c "@").

(** [[^\s@]+\.[^\s@]+] against a whole string: plain characters with a
    dot that is neither the first nor the last of them. *)
Fixpoint dotInside (s : list ascii) : bool :=
  match s with
  | _ :: ((c :: (_ :: _)) as rest) => Ascii.eqb c "." || dotInside rest
  | _ => false
  end.

Definition domainOk (s : list ascii) : bool :=
  forallb plain s && dotInside s.

(** [/^[^\s@]+@[^\s@]+\.[^\s@]+$/.test(s)], [seen] telling whether a
    plain character precedes. *)
Fixpoint emailFrom (seen : bool) (s : list ascii) : bool :=
  match s with
  | [] => false
  | c :: rest =>
      if Ascii.eqb c "@" then seen && domainOk rest
      else if is_space c then false
      else emailFrom true rest
  end.

Definition emailOk (s : string) : bool :=
  emailFrom false (list_ascii_of_string s).

Definition optBool {A : Type} (x : option A) (test : A -> bool) : bool :=
  match x with
  | Some a => test a
  | None => false
  end.

(** [v && (v < lo || v > hi)] on a number. *)
Definition outside (lo hi : Z) (v : number) : bool :=
  truthy v && ((v < int lo)%js || (v > int hi)%js).

(** Validate profile data *)
Definition validateProfileData (data : PartialProfile.t) : option ProfileError.t :=
  if optBool (PartialProfile.name data)
       (fun name => negb (String.eqb name "")
          && (Z.of_nat (List.length (trim (list_ascii_of_string name))) <? 2))
  then Some (ProfileError.mk
               "Name must be at least 2 characters long" "INVALID_NAME" 400)
  else if optBool (PartialProfile.email data)
       (fun email => negb (String.eqb email "") && negb (emailOk email))
  then Some (ProfileError.mk
               "Please provide a valid email address" "INVALID_EMAIL" 400)
  else if optBool (PartialProfile.personalDetails data)
       (fun d => outside 13 120 (PersonalDetails.age d))
  then Some (ProfileError.mk
               "Age must be between 13 and 120" "INVALID_AGE" 400)
  else if optBool (PartialProfile.personalDetails data)
       (fun d => outside 30 300 (PersonalDetails.weight d))
  then Some (ProfileError.mk
               "Weight must be between 30 and 300 kg" "INVALID_WEIGHT" 400)
  else if optBool (PartialProfile.personalDetails data)
       (fun d => outside 100 250 (PersonalDetails.height d))
  then Some (ProfileError.mk
               "Height must be between 100 and 250 cm" "INVALID_HEIGHT" 400)
  else if optBool (PartialProfile.planDuration data)
       (fun n => negb (n =? 0) && ((n <? 7) || (n >? 365)))
  then Some (ProfileError.mk
               "Plan duration must be between 7 and 365 days" "INVALID_DURATION" 400)
  else None.

(** A complete profile seen as the argument of the validation. *)
Definition asPartial (p : UserProfile.t) : PartialProfile.t :=
  PartialProfile.mk
    (Some (UserProfile.name p))
    (Some (UserProfile.email p))
    (Some (UserProfile.personalDetails p))
    (Some (UserProfile.planDuration p)).

End ProfileService.

(* ================================================================== *)
(** ** Dashboard: marking a meal as completed

    The component keeps [activePlan] and [selectedDate]; [currentDayMeal]
    is recomputed from them after every change of either.  The handler
    sets the flag in place on the meals of that day, which is the entry
    of the plan it then replaces, so the update is written functionally. *)

Module Dashboard.

Local Open Scope list_scope.
Local Open Scope Z_scope.

Record State : Type := mkState {
  activePlan : option DietPlan.t;
  selectedDate : Z }.

(** [activePlan.meals.find(meal => meal.date === selectedDate)] *)
Definition currentDayMeal (plan : DietPlan.t) (selectedDate : Z) : option DayMeal.t :=
  find (fun meal => DayMeal.date meal =? selectedDate) (DietPlan.meals plan).

(** [snacks[i].completed = true]; writing through [undefined] throws. *)
Fixpoint completeNth (snacks : list Meal.t) (i : nat) : outcome (list Meal.t) :=
  match snacks, i with
  | [], _ => Throw TypeError
  | s :: rest, O => Ok (Meal.set_completed s true :: rest)
  | s :: rest, S i' => rest' <- completeNth rest i' ;; Ok (s :: rest')
  end.

Definition completeSnack (snacks : list Meal.t) (snackIndex : Z)
  : outcome (list Meal.t) :=
  if snackIndex <? 0 then Throw TypeError
  else completeNth snacks (Z.to_nat snackIndex).

Definition markCompleted (ms : Meals.t) (mealType : MealType)
    (snackIndex : option Z) : outcome Meals.t :=
  match mealType, snackIndex with
  | snack, Some i =>
      snacks' <- completeSnack (Meals.snacks ms) i ;;
      Ok (Meals.mk (Meals.breakfast ms) (Meals.lunch ms) (Meals.dinner ms) snacks')
  | snack, None => Ok ms
  | breakfast, _ =>
      Ok (Meals.mk (Meal.set_completed (Meals.breakfast ms) true)
                   (Meals.lunch ms) (Meals.dinner ms) (Meals.snacks ms))
  | lunch, _ =>
      Ok (Meals.mk (Meals.breakfast ms)
                   (Meal.set_completed (Meals.lunch ms) true)
                   (Meals.dinner ms) (Meals.snacks ms))
  | dinner, _ =>
      Ok (Meals.mk (Meals.breakfast ms) (Meals.lunch ms)
                   (Meal.set_completed (Meals.dinner ms) true)
                   (Meals.snacks ms))
  end.

Definition allMealsCompleted (ms : Meals.t) : bool :=
  Meal.completed (Meals.breakfast ms)
  && Meal.completed (Meals.lunch ms)
  && Meal.completed (Meals.dinner ms)
  && forallb Meal.completed (Meals.snacks ms).

(** The day as the handler rebuilds it. *)
Definition completeDay (currentDayMeal : DayMeal.t) (mealType : MealType)
    (snackIndex : option Z) : outcome DayMeal.t :=
  ms <- markCompleted (DayMeal.meals currentDayMeal) mealType snackIndex ;;
  let updatedDayMeal := DayMeal.set_meals currentDayMeal ms in
  let recalculatedDayMeal :=
    NutritionTrackingService.recalculateDayMealTotals updatedDayMeal in
  Ok (if allMealsCompleted (DayMeal.meals recalculatedDayMeal)
      then DayMeal.set_completed recalculatedDayMeal true
      else recalculatedDayMeal).

Definition countCompleted (days : list DayMeal.t) : Z :=
  Z.of_nat (List.length (filter DayMeal.completed days)).

(** [meals.map(meal => meal.date === selectedDate ? recalculatedDayMeal : meal)] *)
Definition replaceDay (selectedDate : Z) (recalculatedDayMeal : DayMeal.t)
    (meals : list DayMeal.t) : list DayMeal.t :=
  map (fun meal =>
         if DayMeal.date meal =? selectedDate then recalculatedDayMeal else meal)
      meals.

Definition updatePlan (activePlan : DietPlan.t) (selectedDate : Z)
    (recalculatedDayMeal : DayMeal.t) : DietPlan.t :=
  let updatedMeals :=
    replaceDay selectedDate recalculatedDayMeal (DietPlan.meals activePlan) in
  let completedDays := int (countCompleted updatedMeals) in
  let adherenceRate :=
    Math_round ((completedDays / DietPlan.duration activePlan) * int 100)%js in
  DietPlan.mk
    (DietPlan.duration activePlan)
    (DietPlan.dailyCalories activePlan)
    (DietPlan.macros activePlan)
    updatedMeals
    (DietPlan.isActive activePlan)
    (Progress.mk completedDays
                 (Progress.totalDays (DietPlan.progress activePlan))
                 adherenceRate).

Definition handleMealComplete (st : State) (mealType : MealType)
    (snackIndex : option Z) : outcome State :=
  match activePlan st with
  | None => Ok st
  | Some plan =>
      match currentDayMeal plan (selectedDate st) with
      | None => Ok st
      | Some day =>
          recalculatedDayMeal <- completeDay day mealType snackIndex ;;
          Ok (mkState (Some (updatePlan plan (selectedDate st) recalculatedDayMeal))
                      (selectedDate st))
      end
  end.

End Dashboard.

(* ================================================================== *)
(** ** Sample inputs *)

Module Sample.

Local Open Scope string_scope.
Local Open Scope list_scope.
Local Open Scope Z_scope.

Definition profile (gender : string) (weight height age : Z)
    (activityLevel goal dietType : string) (planDuration : Z) : UserProfile.t :=
  UserProfile.mk "Test User" "user@example.com"
    (PersonalDetails.mk (int age) gender (int weight) (int height) activityLevel)
    (HealthGoals.mk goal None) dietType planDuration.

(** Male, 30 years, 80 kg, 180 cm, moderately active. *)
Definition adult (goal dietType : string) (planDuration : Z) : UserProfile.t :=
  profile "male" 80 180 30 "moderate" goal dietType planDuration.

(** No API key: the generator runs without the text service. *)
Definition offline : AIService.Env :=
  AIService.mkEnv None AIService.NetworkFailure (fun day => 20000 + day - 1).

(** The same on the day of a clock change: local midnight printed in UTC
    gives the second and the third day of a plan the same date. *)
Definition acrossClockChange : AIService.Env :=
  AIService.mkEnv None AIService.NetworkFailure
    (fun day => if day <=? 2 then 20000 + day - 1 else 20000 + day - 2).

(** The five main fields only; the optional ones are absent. *)
Definition nutrition (calories protein carbs fat fiber : Z) : NutritionData.t :=
  NutritionData.mk (int calories) (int protein) (int carbs) (int fat) (int fiber)
    None None None None None.

Definition meal (calories : Z) (completed : bool) : Meal.t :=
  Meal.mk "Meal" "" [] [] (nutrition calories 0 0 0 0) (int 5) (int 0) (int 1)
    completed.

Definition day (n date : Z) (b l d s : bool) (completed : bool) : DayMeal.t :=
  DayMeal.mk n date
    (Meals.mk (meal 500 b) (meal 700 l) (meal 600 d) [meal 200 s])
    (int 2000) completed.

(** A two-day plan; on the first day only the snack is still open. *)
Definition plan : DietPlan.t :=
  DietPlan.mk (int 2) (int 2000) (Macros.mk (int 125) (int 225) (int 67))
    [ day 1 20000 true true true false false;
      day 2 20001 false false false false false ]
    true (Progress.mk (int 0) (int 2) (int 0)).

Definition atFirstDay : Dashboard.State := Dashboard.mkState (Some plan) 20000.

(** The state after the snack of the first day is marked. *)
Definition afterSnack : Dashboard.State :=
  match Dashboard.handleMealComplete atFirstDay snack (Some 0) with
  | Ok st => st
  | Throw _ => atFirstDay
  end.

(** Day flag of the selected day and progress of the active plan. *)
Definition summary (st : Dashboard.State)
  : option (option bool * Progress.t) :=
  match Dashboard.activePlan st with
  | Some p =>
      Some (option_map DayMeal.completed
              (Dashboard.currentDayMeal p (Dashboard.selectedDate st)),
            DietPlan.progress p)
  | None => None
  end.

End Sample.

(* ================================================================== *)
(** ** Predicates of the statements *)

(** A field that is absent or holds a finite number. *)
Definition finiteOpt (o : option number) : Prop :=
  match o with
  | Some x => finite x
  | None => True
  end.

(** All the fields that are present hold finite numbers. *)
Definition finiteVitamins (v : option Vitamins.t) : Prop :=
  let f := fun field => finiteOpt (NutritionTrackingService.opt v field) in
  f Vitamins.vitaminA /\ f Vitamins.vitaminC /\ f Vitamins.vitaminD /\
  f Vitamins.vitaminE /\ f Vitamins.vitaminK /\ f Vitamins.thiamin /\
  f Vitamins.riboflavin /\ f Vitamins.niacin /\ f Vitamins.vitaminB6 /\
  f Vitamins.folate /\ f Vitamins.vitaminB12.

Definition finiteMinerals (m : option Minerals.t) : Prop :=
  let f := fun field => finiteOpt (NutritionTrackingService.opt m field) in
  f Minerals.calcium /\ f Minerals.iron /\ f Minerals.magnesium /\
  f Minerals.phosphorus /\ f Minerals.potassium /\ f Minerals.zinc /\
  f Minerals.copper /\ f Minerals.manganese /\ f Minerals.selenium.

Definition finiteData (d : NutritionData.t) : Prop :=
  finite (NutritionData.calories d) /\ finite (NutritionData.protein d) /\
  finite (NutritionData.carbs d) /\ finite (NutritionData.fat d) /\
  finite (NutritionData.fiber d) /\
  finiteOpt (NutritionData.sugar d) /\ finiteOpt (NutritionData.sodium d) /\
  finiteOpt (NutritionData.cholesterol d) /\
  finiteVitamins (NutritionData.vitamins d) /\
  finiteMinerals (NutritionData.minerals d).

(** A meal as the generator leaves it: not completed, with the rounded
    share of calories. *)
Definition generatedMeal (targetCalories : number) (m : Meal.t) : Prop :=
  Meal.completed m = false /\
  NutritionData.calories (Meal.nutrition m) = Math_round targetCalories.

(** A day as the generator leaves it. *)
Definition generatedDay (targets : NutritionTargets.t) (dateOf : Z -> Z) (day : Z)
    (d : DayMeal.t) : Prop :=
  let dc := NutritionTargets.dailyCalories targets in
  exists b l dn s,
    d = DayMeal.mk day (dateOf day) (Meals.mk b l dn [s]) dc false /\
    generatedMeal (mul dc (Fin 0.25)) b /\
    generatedMeal (mul dc (Fin 0.35)) l /\
    generatedMeal (mul dc (Fin 0.30)) dn /\
    generatedMeal (mul dc (Fin 0.10)) s.

(** The days [from], [from + 1], ... in order. *)
Fixpoint generatedDays (targets : NutritionTargets.t) (dateOf : Z -> Z) (from : Z)
    (ds : list DayMeal.t) : Prop :=
  match ds with
  | [] => True
  | d :: rest =>
      generatedDay targets dateOf from d /\
      generatedDays targets dateOf (from + 1) rest
  end.


(** A day nobody has touched: neither the day nor any of its meals is
    flagged. *)
Definition unstartedMeals (ms : Meals.t) : bool :=
  negb (Meal.completed (Meals.breakfast ms))
  && negb (Meal.completed (Meals.lunch ms))
  && negb (Meal.completed (Meals.dinner ms))
  && forallb (fun s => negb (Meal.completed s)) (Meals.snacks ms).

Definition unstartedDay (d : DayMeal.t) : bool :=
  negb (DayMeal.completed d) && unstartedMeals (DayMeal.meals d).

(** The valid profiles of the data model: age 13-120, weight 30-300 kg,
    height 100-250 cm, the enumerated genders, activity levels, goals
    and diet types, and a plan of 7 to 365 days. *)
Definition between (lo hi : Z) (v : number) : bool :=
  leb (int lo) v && leb v (int hi).

Definition oneOf (s : string) (l : list string) : bool :=
  existsb (String.eqb s) l.

Definition genders : list string := [ "male"; "female"; "other" ]%string.

Definition activityLevels : list string :=
  [ "sedentary"; "light"; "moderate"; "active"; "very_active" ]%string.

Definition goals : list string :=
  [ "weight_loss"; "muscle_gain"; "maintenance"; "general_health" ]%string.

Definition dietTypes : list string :=
  [ "omnivore"; "vegetarian"; "vegan"; "pescatarian"; "keto"; "paleo" ]%string.

Definition validProfile (p : UserProfile.t) : bool :=
  let d := UserProfile.personalDetails p in
  between 13 120 (PersonalDetails.age d)
  && between 30 300 (PersonalDetails.weight d)
  && between 100 250 (PersonalDetails.height d)
  && oneOf (PersonalDetails.gender d) genders
  && oneOf (PersonalDetails.activityLevel d) activityLevels
  && oneOf (HealthGoals.primary (UserProfile.healthGoals p)) goals
  && oneOf (UserProfile.dietType p) dietTypes
  && (7 <=? UserProfile.planDuration p)
  && (UserProfile.planDuration p <=? 365).

(** [protein * 4 + carbs * 4 + fat * 9 - dailyCalories] *)
Definition macroGap (t : NutritionTargets.t) : number :=
  (NutritionTargets.protein t * int 4 + NutritionTargets.carbs t * int 4
   + NutritionTargets.fat t * int 9 - NutritionTargets.dailyCalories t)%js.

(** The error of the plan-duration check. *)
Definition durationError : ProfileError.t :=
  ProfileError.mk "Plan duration must be between 7 and 365 days"
                  "INVALID_DURATION" 400.


(** The fiber curve in the words of the specification:
    [min(100, pct * 1.25)]. *)
Definition specFiberScore (pct : number) : number :=
  let s := (pct * Fin 1.25)%js in
  if ltb (int 100) s then int 100 else s.

(** The tracker reads [healthGoals.primaryGoal]: absent, or (were the
    property there) the goal of the profile. *)
Definition trackerGoalConsistent (p : UserProfile.t) : Prop :=
  let g := UserProfile.healthGoals p in
  HealthGoals.primaryGoal g = None \/
  HealthGoals.primaryGoal g = Some (HealthGoals.primary g).

(** Flags only move forward: what was completed stays completed. *)
Fixpoint forall2b {A : Type} (f : A -> A -> bool) (l l' : list A) : bool :=
  match l, l' with
  | [], [] => true
  | a :: r, a' :: r' => f a a' && forall2b f r r'
  | _, _ => false
  end.

Definition mealForward (m m' : Meal.t) : bool :=
  implb (Meal.completed m) (Meal.completed m').

Definition mealsForward (ms ms' : Meals.t) : bool :=
  mealForward (Meals.breakfast ms) (Meals.breakfast ms')
  && mealForward (Meals.lunch ms) (Meals.lunch ms')
  && mealForward (Meals.dinner ms) (Meals.dinner ms')
  && forall2b mealForward (Meals.snacks ms) (Meals.snacks ms').


(** The meals of a day, main meals first. *)
Definition mealsOf (ms : Meals.t) : list Meal.t :=
  Meals.breakfast ms :: Meals.lunch ms :: Meals.dinner ms :: Meals.snacks ms.

(** Breakfast, lunch, dinner and every snack are completed. *)
Definition everyMealCompleted (ms : Meals.t) : bool :=
  forallb Meal.completed (mealsOf ms).

(** The day is completed exactly when breakfast, lunch, dinner and
    every snack are. *)
Definition consistentDay (d : DayMeal.t) : bool :=
  Bool.eqb (DayMeal.completed d) (everyMealCompleted (DayMeal.meals d)).

(** The slot an event marks is completed. *)
Definition marked (ms : Meals.t) (mealType : MealType) (snackIndex : option Z)
  : bool :=
  match mealType, snackIndex with
  | breakfast, _ => Meal.completed (Meals.breakfast ms)
  | lunch, _ => Meal.completed (Meals.lunch ms)
  | dinner, _ => Meal.completed (Meals.dinner ms)
  | snack, Some i =>
      match nth_error (Meals.snacks ms) (Z.to_nat i) with
      | Some s => Meal.completed s
      | None => false
      end
  | snack, None => true
  end.

(** The completion flags of a day: its own and, in order, those of its
    breakfast, lunch, dinner and snacks. *)
Definition flagsOf (d : DayMeal.t) : bool * list bool :=
  (DayMeal.completed d, map Meal.completed (mealsOf (DayMeal.meals d))).

(** The entries of one date carry the same flags.  A plan has one entry
    per date unless the generator dated two of its days alike; the
    handler then replaces every entry of the selected date by the same
    day. *)
Definition sameFlagsPerDate (days : list DayMeal.t) : Prop :=
  forall d1 d2, In d1 days -> In d2 days ->
    DayMeal.date d1 = DayMeal.date d2 -> flagsOf d1 = flagsOf d2.

(** A plan as generation and meal completion leave it: one day per day
    of its duration, [totalDays] equal to the duration, the same flags on
    the entries of one date, every day flag consistent with the flags of
    its meals. *)
Definition trackedPlan (plan : DietPlan.t) : Prop :=
  DietPlan.duration plan = int (Z.of_nat (List.length (DietPlan.meals plan))) /\
  Progress.totalDays (DietPlan.progress plan) = DietPlan.duration plan /\
  sameFlagsPerDate (DietPlan.meals plan) /\
  forallb consistentDay (DietPlan.meals plan) = true.

(** Whole numbers.  Sums of whole numbers below 2^53 are exact in
    binary64 arithmetic, so what is stated here of such values does not
    depend on the order or the rounding of the additions. *)
Definition whole (bound : Z) (x : number) : Prop :=
  exists z, x = int z /\ Z.abs z <= bound.

Definition wholeOpt (bound : Z) (o : option number) : Prop :=
  match o with
  | Some x => whole bound x
  | None => True
  end.

Definition wholeVitamins (bound : Z) (v : option Vitamins.t) : Prop :=
  let f := fun field => wholeOpt bound (NutritionTrackingService.opt v field) in
  f Vitamins.vitaminA /\ f Vitamins.vitaminC /\ f Vitamins.vitaminD /\
  f Vitamins.vitaminE /\ f Vitamins.vitaminK /\ f Vitamins.thiamin /\
  f Vitamins.riboflavin /\ f Vitamins.niacin /\ f Vitamins.vitaminB6 /\
  f Vitamins.folate /\ f Vitamins.vitaminB12.

Definition wholeMinerals (bound : Z) (m : option Minerals.t) : Prop :=
  let f := fun field => wholeOpt bound (NutritionTrackingService.opt m field) in
  f Minerals.calcium /\ f Minerals.iron /\ f Minerals.magnesium /\
  f Minerals.phosphorus /\ f Minerals.potassium /\ f Minerals.zinc /\
  f Minerals.copper /\ f Minerals.manganese /\ f Minerals.selenium.

(** All the fields that are present hold whole numbers of magnitude at
    most [bound]. *)
Definition wholeData (bound : Z) (d : NutritionData.t) : Prop :=
  whole bound (NutritionData.calories d) /\ whole bound (NutritionData.protein d) /\
  whole bound (NutritionData.carbs d) /\ whole bound (NutritionData.fat d) /\
  whole bound (NutritionData.fiber d) /\
  wholeOpt bound (NutritionData.sugar d) /\ wholeOpt bound (NutritionData.sodium d) /\
  wholeOpt bound (NutritionData.cholesterol d) /\
  wholeVitamins bound (NutritionData.vitamins d) /\
  wholeMinerals bound (NutritionData.minerals d).

(** The meals of a day carry whole numbers and the day has at most a
    thousand snacks. *)
Definition wholeMeals (bound : Z) (ms : Meals.t) : Prop :=
  Forall (fun m => wholeData bound (Meal.nutrition m)) (mealsOf ms) /\
  (List.length (Meals.snacks ms) <= 1000)%nat.

(** Text of ASCII characters: every code unit is below 128.  On such
    text a character is one code unit and the white space of the
    language is the ASCII white space. *)
Definition asciiText (s : string) : bool :=
  forallb (fun c => Nat.ltb (nat_of_ascii c) 128) (list_ascii_of_string s).

(* ================================================================== *)
(** ** NutritionTrackingService: reports, trends, water and deficiencies

    The remaining methods of the class. *)

Module NutritionReport.
Record t : Type := mk {
  date : Z;
  nutrition : NutritionData.t;
  goals : NutritionProgress.t;
  score : number;
  recommendations : list string;
  achievements : list string }.
End NutritionReport.

Inductive Trend : Type := improving | stable | declining.

Module WeeklyTrends.
Record t : Type := mk {
  averageScore : number;
  trend : Trend;
  strongestArea : string;
  weakestArea : string }.
End WeeklyTrends.

Module NutritionReporting.

Import NutritionTrackingService.
Local Open Scope string_scope.
Local Open Scope list_scope.
Local Open Scope Z_scope.

(** [if (pct < 80) push(low) else if (pct > 120) push(high)] *)
Definition advise (pct : number) (low high : string) : list string :=
  if (pct < int 80)%js then [low]
  else if (pct > int 120)%js then [high]
  else [].

Definition isVegetarianOrVegan (userProfile : UserProfile.t) : bool :=
  String.eqb (UserProfile.dietType userProfile) "vegetarian"
  || String.eqb (UserProfile.dietType userProfile) "vegan".

Definition status_eqb (a b : Status) : bool :=
  match a, b with
  | deficit, deficit | optimal, optimal | excess, excess => true
  | _, _ => false
  end.

(** Generate nutrition recommendations based on current intake vs goals *)
Definition generateNutritionRecommendations (progress : NutritionProgress.t)
    (userProfile : UserProfile.t) : list string :=
  let percentage := NutritionProgress.percentage progress in
  let status := NutritionProgress.status progress in
  let primaryGoal :=
    HealthGoals.primaryGoal (UserProfile.healthGoals userProfile) in
  advise (Percentage.calories percentage)
    "You're not consuming enough calories. Consider adding nutrient-dense snacks or slightly larger portions."
    "You're exceeding your calorie goal. Consider reducing portion sizes or choosing lower-calorie options."
  ++ advise (Percentage.protein percentage)
    "Increase your protein intake. Add lean meats, fish, eggs, or plant-based proteins to your meals."
    "You're consuming more protein than needed. Consider balancing with more carbohydrates and healthy fats."
  ++ advise (Percentage.fat percentage)
    "Include more healthy fats in your diet. Add avocados, nuts, seeds, or olive oil to your meals."
    "Reduce your fat intake. Choose leaner protein sources and limit added oils and fats."
  ++ advise (Percentage.carbs percentage)
    "Increase your carbohydrate intake. Add whole grains, fruits, and vegetables to your meals."
    "Reduce your carbohydrate intake. Focus on complex carbs and limit refined sugars."
  ++ (if (Percentage.fiber percentage < int 80)%js
      then ["Increase your fiber intake. Add more vegetables, fruits, whole grains, and legumes to your diet."]
      else [])
  ++ (if isVegetarianOrVegan userProfile
      then (if (Percentage.protein percentage < int 80)%js
            then ["As a vegetarian/vegan, ensure you're getting complete proteins by combining different plant sources."]
            else [])
           ++ ["Consider fortified foods or supplements for vitamin B12, especially if you're vegan."]
      else [])
  ++ (if is_goal primaryGoal "weight_loss" && status_eqb status excess
      then ["For weight loss, focus on creating a moderate calorie deficit while maintaining adequate protein."]
      else if is_goal primaryGoal "muscle_gain" && status_eqb status deficit
      then ["For muscle gain, ensure you're in a slight calorie surplus with adequate protein intake."]
      else []).

(** Generate daily nutrition report *)
Definition generateDailyReport (dayMeal : DayMeal.t) (userProfile : UserProfile.t)
  : NutritionReport.t :=
  let currentNutrition := calculateCompletedNutrition dayMeal in
  let targetNutrition := calculateDailyNutritionGoals userProfile in
  let progress := calculateNutritionProgress currentNutrition targetNutrition in
  let score := calculateNutritionScore progress in
  let recommendations := generateNutritionRecommendations progress userProfile in
  let percentage := NutritionProgress.percentage progress in
  let achievements :=
    (if (Percentage.fiber percentage >= int 100)%js
     then ["Fiber Goal Achieved! Great job on your digestive health."] else [])
    ++ (if (Percentage.protein percentage >= int 100)%js
           && (Percentage.protein percentage <= int 110)%js
        then ["Protein Goal Achieved! Perfect for muscle maintenance and growth."]
        else [])
    ++ (if (score >= int 90)%js
        then ["Excellent Nutrition Score! You're meeting your nutritional needs perfectly."]
        else []) in
  NutritionReport.mk (DayMeal.date dayMeal) currentNutrition progress score
    recommendations achievements.

(** [values.reduce((sum, v) => sum + v, 0)] *)
Definition sum (values : list number) : number :=
  fold_left add values (int 0).

(** [Array.prototype.sort] with a comparator: a stable sort.  A
    comparator result above 0 moves the second argument first, 0 keeps
    the order.  The language fixes the result only for a comparator that
    is a consistent order, which a difference of finite numbers is; with
    a [NaN] among the values the order is left to the engine, and the
    statements below do not cover it. *)
Fixpoint insertSorted {A : Type} (compare : A -> A -> number) (x : A)
    (sorted : list A) : list A :=
  match sorted with
  | [] => [x]
  | y :: rest =>
      if (compare x y > int 0)%js then y :: insertSorted compare x rest
      else x :: sorted
  end.

Fixpoint sort {A : Type} (compare : A -> A -> number) (l : list A) : list A :=
  match l with
  | [] => []
  | x :: rest => insertSorted compare x (sort compare rest)
  end.

Definition average (reports : list NutritionReport.t)
    (field : Percentage.t -> number) : number :=
  (sum (map (fun report =>
               field (NutritionProgress.percentage (NutritionReport.goals report)))
            reports)
   / int (Z.of_nat (List.length reports)))%js.

(** The four areas with their averages, in the order of the source. *)
Definition areasOf (reports : list NutritionReport.t) : list (string * number) :=
  [ ("Protein", average reports Percentage.protein);
    ("Carbohydrates", average reports Percentage.carbs);
    ("Fat", average reports Percentage.fat);
    ("Fiber", average reports Percentage.fiber) ].

(** [(a, b) => b.value - a.value] *)
Definition byValueDescending (a b : string * number) : number :=
  (snd b - snd a)%js.

Definition nameAt (areas : list (string * number)) (i : nat) : string :=
  match nth_error areas i with
  | Some area => fst area
  | None => ""
  end.

(** Calculate weekly nutrition trends *)
Definition calculateWeeklyTrends (reports : list NutritionReport.t)
  : WeeklyTrends.t :=
  if (Z.of_nat (List.length reports) <? 2)
  then WeeklyTrends.mk (int 0) stable "N/A" "N/A"
  else
    let scores := map NutritionReport.score reports in
    let averageScore := (sum scores / int (Z.of_nat (List.length scores)))%js in
    let half := Nat.div (List.length scores) 2 in
    let firstHalf := firstn half scores in
    let secondHalf := skipn half scores in
    let firstHalfAvg :=
      (sum firstHalf / int (Z.of_nat (List.length firstHalf)))%js in
    let secondHalfAvg :=
      (sum secondHalf / int (Z.of_nat (List.length secondHalf)))%js in
    let trend :=
      if (secondHalfAvg > firstHalfAvg + int 5)%js then improving
      else if (secondHalfAvg < firstHalfAvg - int 5)%js then declining
      else stable in
    let areas := sort byValueDescending (areasOf reports) in
    WeeklyTrends.mk (Math_round averageScore) trend
      (nameAt areas 0) (nameAt areas (List.length areas - 1)).

Module WaterIntake.
Record t : Type := mk {
  amount : number; (* in ml *)
  time : string;
  type : string }.
End WaterIntake.

(** Track water intake *)
Definition trackWaterIntake (currentIntake : list WaterIntake.t)
    (newIntake : WaterIntake.t) : list WaterIntake.t :=
  currentIntake ++ [newIntake].

(** Calculate daily water intake goal *)
Definition calculateWaterGoal (weight : number) (activityLevel : string) : number :=
  let baseIntake := (weight * int 35)%js in
  Math_round
    (if String.eqb activityLevel "light" then (baseIntake * Fin 1.1)%js
     else if String.eqb activityLevel "moderate" then (baseIntake * Fin 1.2)%js
     else if String.eqb activityLevel "active" then (baseIntake * Fin 1.3)%js
     else if String.eqb activityLevel "very_active" then (baseIntake * Fin 1.4)%js
     else baseIntake).

(** [x && y && x < y * 0.8] on two possibly absent numbers. *)
Definition below80 (x y : option number) : bool :=
  match x, y with
  | Some a, Some b => truthy a && truthy b && (a < b * Fin 0.8)%js
  | _, _ => false
  end.

(** Check for nutrient deficiencies *)
Definition checkNutrientDeficiencies (nutrition goals : NutritionData.t)
  : list string :=
  (if (NutritionData.protein nutrition < NutritionData.protein goals * Fin 0.8)%js
   then ["Protein deficiency detected. Increase protein intake."] else [])
  ++ (if (NutritionData.fiber nutrition < NutritionData.fiber goals * Fin 0.8)%js
      then ["Low fiber intake. Add more fruits, vegetables, and whole grains."]
      else [])
  ++ (if below80 (opt (NutritionData.vitamins nutrition) Vitamins.vitaminC)
                 (opt (NutritionData.vitamins goals) Vitamins.vitaminC)
      then ["Vitamin C deficiency. Include more citrus fruits, berries, or vegetables."]
      else [])
  ++ (if below80 (opt (NutritionData.minerals nutrition) Minerals.iron)
                 (opt (NutritionData.minerals goals) Minerals.iron)
      then ["Iron deficiency. Include more lean meats, beans, or leafy greens."]
      else [])
  ++ (if below80 (opt (NutritionData.minerals nutrition) Minerals.calcium)
                 (opt (NutritionData.minerals goals) Minerals.calcium)
      then ["Calcium deficiency. Include more dairy products, leafy greens, or fortified foods."]
      else []).

End NutritionReporting.

(* ================================================================== *)
(** ** Dashboard: the nutrition summary of the selected day

    The card "Nutrition Summary" shows how much of the calories of the
    day's meals the completed meals account for. *)

Module NutritionSummary.

(** [Math.round((completedNutrition.calories / dayNutrition.calories) * 100)] *)
Definition todaysProgress (currentDayMeal : DayMeal.t) : number :=
  let completedNutrition :=
    NutritionTrackingService.calculateCompletedNutrition currentDayMeal in
  let dayNutrition :=
    NutritionTrackingService.calculateDayNutrition currentDayMeal in
  Math_round ((NutritionData.calories completedNutrition
               / NutritionData.calories dayNutrition) * int 100)%js.

End NutritionSummary.

(* ================================================================== *)
(** ** Predicates of the further statements *)

Definition nonNegative (x : number) : Prop :=
  match x with
  | Fin q => (0 <= q)%Q
  | _ => False
  end.

(** The five main fields are finite and not negative. *)
Definition measured (d : NutritionData.t) : Prop :=
  nonNegative (NutritionData.calories d) /\
  nonNegative (NutritionData.protein d) /\
  nonNegative (NutritionData.carbs d) /\
  nonNegative (NutritionData.fat d) /\
  nonNegative (NutritionData.fiber d).

(** The five main fields lie between 0 and [bound]. *)
Definition upTo (bound : Z) (x : number) : Prop :=
  match x with
  | Fin q => (0 <= q <= inject_Z bound)%Q
  | _ => False
  end.

Definition measuredUpTo (bound : Z) (d : NutritionData.t) : Prop :=
  upTo bound (NutritionData.calories d) /\
  upTo bound (NutritionData.protein d) /\
  upTo bound (NutritionData.carbs d) /\
  upTo bound (NutritionData.fat d) /\
  upTo bound (NutritionData.fiber d).

(** Nutrition data without vitamin and mineral records, as the plan
    generator and the meal editor build them. *)
Definition withoutMicronutrients (d : NutritionData.t) : Prop :=
  NutritionData.vitamins d = None /\ NutritionData.minerals d = None.

(** The three micronutrients the deficiency check reads are present
    and 0. *)
Definition noMicronutrients (d : NutritionData.t) : Prop :=
  NutritionTrackingService.opt (NutritionData.vitamins d) Vitamins.vitaminC
  = Some (int 0) /\
  NutritionTrackingService.opt (NutritionData.minerals d) Minerals.iron
  = Some (int 0) /\
  NutritionTrackingService.opt (NutritionData.minerals d) Minerals.calcium
  = Some (int 0).

(** The four percentages the weekly trends average are finite. *)
Definition finitePercentages (report : NutritionReport.t) : Prop :=
  let percentage := NutritionProgress.percentage (NutritionReport.goals report) in
  finite (Percentage.protein percentage) /\
  finite (Percentage.carbs percentage) /\
  finite (Percentage.fat percentage) /\
  finite (Percentage.fiber percentage).

(** The four percentages are whole numbers of magnitude at most
    [bound], as the rounding of [calculateNutritionProgress] leaves
    them. *)
Definition wholePercentages (bound : Z) (report : NutritionReport.t) : Prop :=
  let percentage := NutritionProgress.percentage (NutritionReport.goals report) in
  whole bound (Percentage.protein percentage) /\
  whole bound (Percentage.carbs percentage) /\
  whole bound (Percentage.fat percentage) /\
  whole bound (Percentage.fiber percentage).

(** [a] is at least as strong an area as [b]. *)
Definition atLeast (a b : string * number) : Prop :=
  leb (snd b) (snd a) = true.

(** Sample reports: a day's percentages against goals of 100 each. *)
Module SampleWeek.

Definition report (protein carbs fat fiber : Z) : NutritionReport.t :=
  let current := Sample.nutrition 2000 protein carbs fat fiber in
  let progress :=
    NutritionTrackingService.calculateNutritionProgress current
      (Sample.nutrition 2000 100 100 100 100) in
  NutritionReport.mk 20000 current progress
    (NutritionTrackingService.calculateNutritionScore progress) [] [].

Definition reports : list NutritionReport.t :=
  [ report 90 100 110 80; report 100 120 100 60 ].

End SampleWeek.

(** No string occurs twice. *)
Fixpoint distinct (l : list string) : bool :=
  match l with
  | [] => true
  | x :: rest => negb (existsb (String.eqb x) rest) && distinct rest
  end.

(* ================================================================== *)
(** ** ProfileService: rows of the table [profiles]

    The columns that carry the fields of [UserProfile.t].  A call of the
    database is the environment: the authenticated user and the error
    the call may answer with; a call that succeeds answers with the row
    it wrote. *)

Module ProfileRow.
Record t : Type := mk {
  name : string;
  email : string;
  age : number;
  gender : string;
  weight : number;
  height : number;
  activity_level : string;
  primary_goal : string;
  diet_type : string;
  plan_duration_days : option Z }.   (* null when the column is empty *)
End ProfileRow.

(** [Partial<UserProfile>] with the fields [updateProfile] maps. *)
Module ProfileUpdates.
Record t : Type := mk {
  name : option string;
  email : option string;
  personalDetails : option PersonalDetails.t;
  healthGoals : option HealthGoals.t;
  dietType : option string;          (* dietaryRestrictions?.dietType *)
  planDuration : option Z }.
End ProfileUpdates.

Module ProfileResult.
Record t : Type := mk {
  data : option ProfileRow.t;
  error : option ProfileError.t }.
End ProfileResult.

Module ProfileStore.

Import ProfileService.
Local Open Scope string_scope.
Local Open Scope list_scope.
Local Open Scope Z_scope.

Record Env : Type := mkEnv {
  user : option string;             (* supabase.auth.getUser() *)
  databaseError : option string }.  (* error.message of the call *)

(** [n || 30] *)
Definition or30 (n : Z) : Z := if n =? 0 then 30 else n.

(** The row [createProfile] upserts. *)
Definition profileInsert (profileData : UserProfile.t) : ProfileRow.t :=
  let d := UserProfile.personalDetails profileData in
  ProfileRow.mk
    (UserProfile.name profileData)
    (UserProfile.email profileData)
    (PersonalDetails.age d)
    (PersonalDetails.gender d)
    (PersonalDetails.weight d)
    (PersonalDetails.height d)
    (PersonalDetails.activityLevel d)
    (HealthGoals.primary (UserProfile.healthGoals profileData))
    (UserProfile.dietType profileData)
    (Some (or30 (UserProfile.planDuration profileData))).

(** Create a new profile *)
Definition createProfile (env : Env) (profileData : UserProfile.t)
  : ProfileResult.t :=
  match validateProfileData (asPartial profileData) with
  | Some validationError => ProfileResult.mk None (Some validationError)
  | None =>
      match user env with
      | None =>
          ProfileResult.mk None
            (Some (ProfileError.mk "No authenticated user found" "NO_USER" 401))
      | Some _ =>
          match databaseError env with
          | Some message =>
              ProfileResult.mk None
                (Some (ProfileError.mk ("Failed to save profile: " ++ message)
                         "CREATE_FAILED" 400))
          | None => ProfileResult.mk (Some (profileInsert profileData)) None
          end
      end
  end.

(** What the validation reads of an update. *)
Definition validated (updates : ProfileUpdates.t) : PartialProfile.t :=
  PartialProfile.mk
    (ProfileUpdates.name updates)
    (ProfileUpdates.email updates)
    (ProfileUpdates.personalDetails updates)
    (ProfileUpdates.planDuration updates).

(** [if (value) row.column = value] for a string and for a number. *)
Definition setString (value : option string) (column : string) : string :=
  match value with
  | Some s => if String.eqb s "" then column else s
  | None => column
  end.

Definition setNumber (value : option number) (column : number) : number :=
  match value with
  | Some v => if truthy v then v else column
  | None => column
  end.

(** The row after [.update(profileUpdate)]: a column changes when the
    update has a truthy value for it; the email has no line of its
    own. *)
Definition profileUpdate (updates : ProfileUpdates.t) (row : ProfileRow.t)
  : ProfileRow.t :=
  let d := ProfileUpdates.personalDetails updates in
  ProfileRow.mk
    (setString (ProfileUpdates.name updates) (ProfileRow.name row))
    (ProfileRow.email row)
    (setNumber (option_map PersonalDetails.age d) (ProfileRow.age row))
    (setString (option_map PersonalDetails.gender d) (ProfileRow.gender row))
    (setNumber (option_map PersonalDetails.weight d) (ProfileRow.weight row))
    (setNumber (option_map PersonalDetails.height d) (ProfileRow.height row))
    (setString (option_map PersonalDetails.activityLevel d)
       (ProfileRow.activity_level row))
    (setString (option_map HealthGoals.primary (ProfileUpdates.healthGoals updates))
       (ProfileRow.primary_goal row))
    (setString (ProfileUpdates.dietType updates) (ProfileRow.diet_type row))
    (match ProfileUpdates.planDuration updates with
     | Some n => if n =? 0 then ProfileRow.plan_duration_days row else Some n
     | None => ProfileRow.plan_duration_days row
     end).

(** Update a profile, called with the id of the user whose row is
    [row]. *)
Definition updateProfile (env : Env) (updates : ProfileUpdates.t)
    (row : ProfileRow.t) : ProfileResult.t :=
  match validateProfileData (validated updates) with
  | Some validationError => ProfileResult.mk None (Some validationError)
  | None =>
      match databaseError env with
      | Some message =>
          ProfileResult.mk None
            (Some (ProfileError.mk ("Failed to update profile: " ++ message)
                     "UPDATE_FAILED" 400))
      | None => ProfileResult.mk (Some (profileUpdate updates row)) None
      end
  end.

(** Convert database row to UserProfile type *)
Definition profileRowToUserProfile (profileRow : ProfileRow.t) : UserProfile.t :=
  UserProfile.mk
    (ProfileRow.name profileRow)
    (ProfileRow.email profileRow)
    (PersonalDetails.mk
       (ProfileRow.age profileRow)
       (ProfileRow.gender profileRow)
       (ProfileRow.weight profileRow)
       (ProfileRow.height profileRow)
       (ProfileRow.activity_level profileRow))
    (HealthGoals.mk (ProfileRow.primary_goal profileRow) None)
    (ProfileRow.diet_type profileRow)
    (match ProfileRow.plan_duration_days profileRow with
     | Some n => or30 n
     | None => 30
     end).

End ProfileStore.

(** The stored duration is a number of days from 7 to 365. *)
Definition durationInRange (row : ProfileRow.t) : Prop :=
  exists n, ProfileRow.plan_duration_days row = Some n /\ 7 <= n <= 365.

(* ================================================================== *)
(** ** Meal plan page: saving an edited meal

    The page edits a meal under a key: the three main meals under
    ['breakfast'], ['lunch'], ['dinner'], the snack number [idx] under
    [`snack_${idx}`] and an added meal under ['custom'].  Saving assigns
    the meal to the property of that name of [meals]; an object accepts
    any name, so next to the four fields of [Meals.t] the object of a
    day may carry further properties. *)

Module MealPlanPage.

Local Open Scope list_scope.
Local Open Scope Z_scope.

Inductive Key : Type :=
| mealKey (mealType : MealType)   (* 'breakfast', 'lunch', 'dinner', 'snack' *)
| snackKey (idx : nat)            (* `snack_${idx}` *)
| customKey.                      (* 'custom' *)

Definition Key_eqb (a b : Key) : bool :=
  match a, b with
  | mealKey breakfast, mealKey breakfast | mealKey lunch, mealKey lunch
  | mealKey dinner, mealKey dinner | mealKey snack, mealKey snack => true
  | snackKey i, snackKey j => Nat.eqb i j
  | customKey, customKey => true
  | _, _ => false
  end.

(** A day with the further properties of its [meals] object. *)
Record DayObject : Type := mkDay {
  dayMeal : DayMeal.t;
  others : list (Key * Meal.t) }.

(** [updatedDayMeal.meals[key] = meal] *)
Definition setMeal (d : DayObject) (key : Key) (meal : Meal.t) : DayObject :=
  let ms := DayMeal.meals (dayMeal d) in
  match key with
  | mealKey breakfast =>
      mkDay (DayMeal.set_meals (dayMeal d)
               (Meals.mk meal (Meals.lunch ms) (Meals.dinner ms) (Meals.snacks ms)))
            (others d)
  | mealKey lunch =>
      mkDay (DayMeal.set_meals (dayMeal d)
               (Meals.mk (Meals.breakfast ms) meal (Meals.dinner ms) (Meals.snacks ms)))
            (others d)
  | mealKey dinner =>
      mkDay (DayMeal.set_meals (dayMeal d)
               (Meals.mk (Meals.breakfast ms) (Meals.lunch ms) meal (Meals.snacks ms)))
            (others d)
  | _ =>
      mkDay (dayMeal d)
            ((key, meal) :: filter (fun p => negb (Key_eqb (fst p) key)) (others d))
  end.

(** The day [handleSaveMeal] puts into the plan and into
    [currentDayMeal] when the meal edited under [editingMeal] is
    saved. *)
Definition handleSaveMeal (currentDayMeal : DayObject) (editingMeal : Key)
    (updatedMeal : Meal.t) : DayObject :=
  let updatedDayMeal := setMeal currentDayMeal editingMeal updatedMeal in
  mkDay (NutritionTrackingService.recalculateDayMealTotals (dayMeal updatedDayMeal))
        (others updatedDayMeal).

End MealPlanPage.
(* ================================================================== *)
(** * Properties *)

(** ** Arithmetic of numbers *)

Example div_zero_pos : (int 5 / int 0)%js = PInf.
Proof. reflexivity. Qed.
Example div_zero_zero : (int 0 / int 0)%js = NaN.
Proof. reflexivity. Qed.
Example round_half_up : Math_round (Fin 2.5) = int 3 /\ Math_round (Fin (-2.5)) = int (-2).
Proof. split; reflexivity. Qed.

Lemma Qred_eq (p q : Q) : (p == q)%Q -> Qred p = Qred q.
Proof. apply Qred_complete. Qed.

Lemma add_comm (x y : number) : add x y = add y x.
Proof.
  destruct x, y; simpl; try reflexivity.
  f_equal. apply Qred_eq. ring.
Qed.

Lemma add_assoc_fin (a b c : Q) :
  add (add (Fin a) (Fin b)) (Fin c) = add (Fin a) (add (Fin b) (Fin c)).
Proof.
  simpl. f_equal. apply Qred_eq. rewrite !Qred_correct. ring.
Qed.

Lemma Qred_zero (q : Q) : (q == 0)%Q -> Qred q = 0%Q.
Proof. intros H. rewrite (Qred_eq _ _ H). reflexivity. Qed.

(** A finite sum is not changed by [|| 0]. *)
Lemma or0_sum (a b : Q) :
  or_else (Some (add (Fin a) (Fin b))) (int 0) = add (Fin a) (Fin b).
Proof.
  simpl. destruct (Qeq_bool (Qred (a + b)) 0) eqn:E; simpl; [|reflexivity].
  apply Qeq_bool_eq in E. rewrite Qred_correct in E.
  unfold int. f_equal. symmetry. apply Qred_zero. exact E.
Qed.

Lemma or_else_finite (o : option number) :
  finiteOpt o -> exists q, or_else o (int 0) = Fin q.
Proof.
  destruct o as [[q| | |]|]; simpl; intros H; try contradiction.
  - destruct (negb (Qeq_bool q 0)); eexists; reflexivity.
  - eexists; reflexivity.
Qed.

Lemma round_Z_eq (p q : Q) : (p == q)%Q -> round_Z p = round_Z q.
Proof. intros H. unfold round_Z. rewrite H. reflexivity. Qed.

Lemma Qeq_bool_false (q : Q) : ~ (q == 0)%Q -> Qeq_bool q 0 = false.
Proof.
  intros H. destruct (Qeq_bool q 0) eqn:E; [|reflexivity].
  apply Qeq_bool_eq in E. contradiction.
Qed.

Lemma Qeq_bool_true (q : Q) : (q == 0)%Q -> Qeq_bool q 0 = true.
Proof. intros H. apply Qeq_eq_bool. exact H. Qed.

Lemma Qred_inject_Z (z : Z) : Qred (inject_Z z) = inject_Z z.
Proof.
  apply Qcanon.Qred_identity. unfold inject_Z. cbn [Qnum Qden].
  apply Z.gcd_1_r.
Qed.

Lemma add_int (a b : Z) : add (int a) (int b) = int (a + b).
Proof.
  unfold int. cbn [add]. rewrite <- inject_Z_plus, Qred_inject_Z. reflexivity.
Qed.

Lemma mul_int (a b : Z) : mul (int a) (int b) = int (a * b).
Proof.
  unfold int. cbn [mul]. rewrite <- inject_Z_mult, Qred_inject_Z. reflexivity.
Qed.

Lemma sub_int (a b : Z) : sub (int a) (int b) = int (a - b).
Proof.
  unfold sub, int. cbn [neg]. rewrite <- inject_Z_opp, Qred_inject_Z.
  apply add_int.
Qed.

(** [Math.round] stays within one half of its argument. *)
Lemma round_Z_bounds (q : Q) :
  (q - (1 # 2) < inject_Z (round_Z q))%Q /\ (inject_Z (round_Z q) <= q + (1 # 2))%Q.
Proof.
  unfold round_Z. split.
  - pose proof (Qlt_floor (q + (1 # 2))) as H.
    rewrite inject_Z_plus in H. change (inject_Z 1) with 1%Q in H. lra.
  - apply Qfloor_le.
Qed.

Lemma int_inj (a b : Z) : int a = int b -> a = b.
Proof. unfold int, inject_Z. intros H. injection H as H. exact H. Qed.

Lemma leb_Fin (a b : Q) : leb (Fin a) (Fin b) = true <-> (a <= b)%Q.
Proof.
  cbn [leb]. destruct (a ?= b)%Q eqn:E.
  - apply Qeq_alt in E. split; [intros _; lra | reflexivity].
  - apply Qlt_alt in E. split; [intros _; lra | reflexivity].
  - apply Qgt_alt in E. split; [discriminate | lra].
Qed.

Lemma ltb_Fin (a b : Q) : ltb (Fin a) (Fin b) = true <-> (a < b)%Q.
Proof.
  cbn [ltb]. destruct (a ?= b)%Q eqn:E.
  - apply Qeq_alt in E. split; [discriminate | lra].
  - apply Qlt_alt in E. split; [intros _; exact E | reflexivity].
  - apply Qgt_alt in E. split; [discriminate | lra].
Qed.

Lemma leb_Fin_false (a b : Q) : leb (Fin a) (Fin b) = false <-> (b < a)%Q.
Proof.
  pose proof (leb_Fin a b) as H. destruct (leb (Fin a) (Fin b)).
  - split; [discriminate|]. intros Hlt. apply proj1 in H.
    specialize (H eq_refl). lra.
  - split; [|reflexivity]. intros _.
    destruct (Qlt_le_dec b a) as [Hlt|Hle]; [exact Hlt|].
    apply (proj2 H) in Hle. discriminate.
Qed.

Lemma ltb_Fin_false (a b : Q) : ltb (Fin a) (Fin b) = false <-> (b <= a)%Q.
Proof.
  pose proof (ltb_Fin a b) as H. destruct (ltb (Fin a) (Fin b)).
  - split; [discriminate|]. intros Hle. apply proj1 in H.
    specialize (H eq_refl). lra.
  - split; [|reflexivity]. intros _.
    destruct (Qlt_le_dec a b) as [Hlt|Hle]; [|exact Hle].
    apply (proj2 H) in Hlt. discriminate.
Qed.

Lemma round_Z_range (x : Q) (lo hi : Z) :
  (inject_Z lo <= x)%Q -> (x < inject_Z hi + (1 # 2))%Q ->
  lo <= round_Z x <= hi.
Proof.
  intros Hlo Hhi. destruct (round_Z_bounds x) as [H1 H2]. split.
  - assert (H : lo - 1 < round_Z x); [|lia].
    rewrite Zlt_Qlt. unfold Z.sub. rewrite inject_Z_plus, inject_Z_opp.
    change (inject_Z 1) with 1%Q. lra.
  - assert (H : round_Z x < hi + 1); [|lia].
    rewrite Zlt_Qlt, inject_Z_plus. change (inject_Z 1) with 1%Q. lra.
Qed.

(** Rounding a whole number changes nothing. *)
Lemma Math_round_int (z : Z) : Math_round (int z) = int z.
Proof.
  unfold int. cbn [Math_round]. unfold int. f_equal. f_equal.
  assert (H : z <= round_Z (inject_Z z) <= z); [|lia].
  apply round_Z_range; lra.
Qed.

Lemma mul_finite (x y : number) : finite x -> finite y -> finite (mul x y).
Proof. destruct x, y; simpl; intros; try contradiction; exact I. Qed.

(** Concrete data are whole: every present field is read off. *)
Ltac whole_number :=
  lazymatch goal with
  | |- whole _ ?x =>
      let v := eval vm_compute in x in
      change x with v; eexists; split; [reflexivity | lia]
  end.

Ltac whole_data :=
  repeat split; cbn;
  first [ exact I | whole_number ].

(* ================================================================== *)
(** ** The nutrition sum *)

Section NutritionSum.

Import NutritionTrackingService.

Lemma plus0_comm (a b : option number) : plus0 a b = plus0 b a.
Proof. unfold plus0. f_equal. apply add_comm. Qed.

Lemma plus0_assoc (a b c : option number) :
  finiteOpt a -> finiteOpt b -> finiteOpt c ->
  plus0 (plus0 a b) c = plus0 a (plus0 b c).
Proof.
  intros Ha Hb Hc.
  destruct (or_else_finite a Ha) as [x Hx].
  destruct (or_else_finite b Hb) as [y Hy].
  destruct (or_else_finite c Hc) as [z Hz].
  unfold plus0. rewrite Hx, Hy, Hz, !or0_sum. f_equal. apply add_assoc_fin.
Qed.

Lemma add_assoc_finite (x y z : number) :
  finite x -> finite y -> finite z -> add (add x y) z = add x (add y z).
Proof.
  destruct x, y, z; simpl; try contradiction. intros _ _ _.
  apply add_assoc_fin.
Qed.

Lemma addNutritionData_comm (a b : NutritionData.t) :
  addNutritionData a b = addNutritionData b a.
Proof.
  unfold addNutritionData.
  repeat (f_equal; try apply add_comm; try apply plus0_comm).
Qed.

Lemma addNutritionData_assoc (a b c : NutritionData.t) :
  finiteData a -> finiteData b -> finiteData c ->
  addNutritionData (addNutritionData a b) c
  = addNutritionData a (addNutritionData b c).
Proof.
  intros (a1 & a2 & a3 & a4 & a5 & a6 & a7 & a8 & av & am)
         (b1 & b2 & b3 & b4 & b5 & b6 & b7 & b8 & bv & bm)
         (c1 & c2 & c3 & c4 & c5 & c6 & c7 & c8 & cv & cm).
  destruct av as (? & ? & ? & ? & ? & ? & ? & ? & ? & ? & ?).
  destruct bv as (? & ? & ? & ? & ? & ? & ? & ? & ? & ? & ?).
  destruct cv as (? & ? & ? & ? & ? & ? & ? & ? & ? & ? & ?).
  destruct am as (? & ? & ? & ? & ? & ? & ? & ? & ?).
  destruct bm as (? & ? & ? & ? & ? & ? & ? & ? & ?).
  destruct cm as (? & ? & ? & ? & ? & ? & ? & ? & ?).
  unfold addNutritionData; cbn [NutritionData.calories NutritionData.protein
    NutritionData.carbs NutritionData.fat NutritionData.fiber
    NutritionData.sugar NutritionData.sodium NutritionData.cholesterol
    NutritionData.vitamins NutritionData.minerals opt
    Vitamins.vitaminA Vitamins.vitaminC Vitamins.vitaminD Vitamins.vitaminE
    Vitamins.vitaminK Vitamins.thiamin Vitamins.riboflavin Vitamins.niacin
    Vitamins.vitaminB6 Vitamins.folate Vitamins.vitaminB12
    Minerals.calcium Minerals.iron Minerals.magnesium Minerals.phosphorus
    Minerals.potassium Minerals.zinc Minerals.copper Minerals.manganese
    Minerals.selenium].
  f_equal; try (apply add_assoc_finite; assumption);
    try (apply plus0_assoc; assumption).
  - (* fiber *)
    pose proof (plus0_assoc (Some (NutritionData.fiber a))
                  (Some (NutritionData.fiber b)) (Some (NutritionData.fiber c))
                  a5 b5 c5) as E.
    unfold plus0 in E. injection E as E. exact E.
  - f_equal. f_equal; apply plus0_assoc; assumption.
  - f_equal. f_equal; apply plus0_assoc; assumption.
Qed.

Lemma whole_finite (bound : Z) (x : number) : whole bound x -> finite x.
Proof. intros (z & -> & _). exact I. Qed.

Lemma wholeOpt_finite (bound : Z) (o : option number) :
  wholeOpt bound o -> finiteOpt o.
Proof. destruct o; [apply whole_finite | exact (fun H => H)]. Qed.

Lemma wholeData_finite (bound : Z) (d : NutritionData.t) :
  wholeData bound d -> finiteData d.
Proof.
  intros (a1 & a2 & a3 & a4 & a5 & a6 & a7 & a8 & av & am).
  destruct av as (? & ? & ? & ? & ? & ? & ? & ? & ? & ? & ?).
  destruct am as (? & ? & ? & ? & ? & ? & ? & ? & ?).
  unfold finiteData, finiteVitamins, finiteMinerals.
  repeat split;
    first [ eapply whole_finite; eassumption
          | eapply wholeOpt_finite; eassumption ].
Qed.

(** C9, as stated, fails: the sum is not associative for all values.
    With a fiber of [Infinity], [-Infinity] and 1 the first grouping adds
    [Infinity + -Infinity], a [NaN] that the [|| 0] of the next sum reads
    as 0, and gives 1; the second grouping gives [NaN]. *)
Lemma nutrition_sum_is_not_associative :
  NutritionData.fiber
    (addNutritionData
       (addNutritionData
          (NutritionData.mk (int 0) (int 0) (int 0) (int 0) PInf
             None None None None None)
          (NutritionData.mk (int 0) (int 0) (int 0) (int 0) NInf
             None None None None None))
       (Sample.nutrition 0 0 0 0 1)) = int 1 /\
  NutritionData.fiber
    (addNutritionData
       (NutritionData.mk (int 0) (int 0) (int 0) (int 0) PInf
          None None None None None)
       (addNutritionData
          (NutritionData.mk (int 0) (int 0) (int 0) (int 0) NInf
             None None None None None)
          (Sample.nutrition 0 0 0 0 1))) = NaN /\
  addNutritionData
    (addNutritionData
       (NutritionData.mk (int 0) (int 0) (int 0) (int 0) PInf
          None None None None None)
       (NutritionData.mk (int 0) (int 0) (int 0) (int 0) NInf
          None None None None None))
    (Sample.nutrition 0 0 0 0 1)
  <> addNutritionData
       (NutritionData.mk (int 0) (int 0) (int 0) (int 0) PInf
          None None None None None)
       (addNutritionData
          (NutritionData.mk (int 0) (int 0) (int 0) (int 0) NInf
             None None None None None)
          (Sample.nutrition 0 0 0 0 1)).
Proof. repeat split. discriminate. Qed.

(** C9, amended.  The nutrition sum [addNutritionData] is commutative for
    all nutrition data, and associative for all nutrition data whose
    fields hold whole numbers of magnitude at most 2^50; optional fields
    (sugar, sodium, cholesterol, the vitamin and mineral maps and their
    entries) may be absent and then count as 0. *)
Theorem nutrition_sum_commutative_associative :
  (forall a b : NutritionData.t,
      addNutritionData a b = addNutritionData b a) /\
  (forall a b c : NutritionData.t,
      wholeData (2 ^ 50) a -> wholeData (2 ^ 50) b -> wholeData (2 ^ 50) c ->
      addNutritionData (addNutritionData a b) c
      = addNutritionData a (addNutritionData b c)).
Proof.
  split.
  - exact addNutritionData_comm.
  - intros a b c Ha Hb Hc.
    apply addNutritionData_assoc; eapply wholeData_finite; eassumption.
Qed.

Lemma nutrition_sum_commutative_associative_witness :
  wholeData (2 ^ 50) (Sample.nutrition 690 26 86 27 14) /\
  wholeData (2 ^ 50) (Sample.nutrition 966 36 121 38 19) /\
  wholeData (2 ^ 50) (calculateMealNutrition (Sample.meal 828 true)) /\
  addNutritionData (Sample.nutrition 690 26 86 27 14)
                   (Sample.nutrition 966 36 121 38 19)
  = addNutritionData (Sample.nutrition 966 36 121 38 19)
                     (Sample.nutrition 690 26 86 27 14) /\
  addNutritionData
    (addNutritionData (Sample.nutrition 690 26 86 27 14)
                      (Sample.nutrition 966 36 121 38 19))
    (calculateMealNutrition (Sample.meal 828 true))
  = addNutritionData (Sample.nutrition 690 26 86 27 14)
      (addNutritionData (Sample.nutrition 966 36 121 38 19)
                        (calculateMealNutrition (Sample.meal 828 true))).
Proof.
  assert (Ha : wholeData (2 ^ 50) (Sample.nutrition 690 26 86 27 14))
    by whole_data.
  assert (Hb : wholeData (2 ^ 50) (Sample.nutrition 966 36 121 38 19))
    by whole_data.
  assert (Hc : wholeData (2 ^ 50) (calculateMealNutrition (Sample.meal 828 true)))
    by whole_data.
  split; [exact Ha|]. split; [exact Hb|]. split; [exact Hc|].
  split.
  - exact (proj1 nutrition_sum_commutative_associative _ _).
  - exact (proj2 nutrition_sum_commutative_associative _ _ _ Ha Hb Hc).
Defined.

End NutritionSum.

(* ================================================================== *)
(** ** The deterministic generator always produces its days *)

Section Generator.

Import AIService.

Lemma pick_some (templates : list Template.t) (day : Z) :
  templates <> [] -> 0 <= day -> exists t, pick templates day = Some t.
Proof.
  intros Hne Hday. unfold pick.
  assert (Hlen : 0 < Z.of_nat (List.length templates)).
  { destruct templates; [congruence | simpl; lia]. }
  pose proof (Z.rem_bound_pos day _ Hday Hlen) as [Hlo Hhi].
  destruct (Z.ltb_spec (Z.rem day (Z.of_nat (List.length templates))) 0) as [H|_];
    [lia|].
  destruct (nth_error templates (Z.to_nat (Z.rem day (Z.of_nat (List.length templates)))))
    as [t|] eqn:E; [eauto|].
  apply nth_error_None in E. lia.
Qed.

Lemma templates_nonempty (isVegetarian : bool) (mealType : MealType) :
  templatesFor (getMealTemplates isVegetarian) mealType <> [].
Proof. destruct isVegetarian, mealType; discriminate. Qed.

Lemma generateMeal_ok (mealType : MealType) (targetCalories : number)
    (isVegetarian : bool) (day : Z) :
  0 <= day ->
  exists m, generateMeal mealType targetCalories isVegetarian day = Ok m
            /\ generatedMeal targetCalories m.
Proof.
  intros Hday. unfold generateMeal.
  destruct (pick_some _ day (templates_nonempty isVegetarian mealType) Hday)
    as [t ->].
  eexists. split; [reflexivity|]. split; reflexivity.
Qed.

Lemma generateDay_ok (isVegetarian : bool) (targets : NutritionTargets.t)
    (dateOf : Z -> Z) (day : Z) :
  0 <= day ->
  exists d, generateDay isVegetarian targets dateOf day = Ok d
            /\ generatedDay targets dateOf day d.
Proof.
  intros Hday. unfold generateDay.
  destruct (generateMeal_ok breakfast
              (mul (NutritionTargets.dailyCalories targets) (Fin 0.25))
              isVegetarian day Hday) as (b & -> & Hb).
  destruct (generateMeal_ok lunch
              (mul (NutritionTargets.dailyCalories targets) (Fin 0.35))
              isVegetarian day Hday) as (l & -> & Hl).
  destruct (generateMeal_ok dinner
              (mul (NutritionTargets.dailyCalories targets) (Fin 0.30))
              isVegetarian day Hday) as (dn & -> & Hdn).
  destruct (generateMeal_ok snack
              (mul (NutritionTargets.dailyCalories targets) (Fin 0.10))
              isVegetarian day Hday) as (s & -> & Hs).
  cbn [bind]. eexists. split; [reflexivity|].
  exists b, l, dn, s. auto.
Qed.

Lemma generateDays_ok (isVegetarian : bool) (targets : NutritionTargets.t)
    (dateOf : Z -> Z) (n : nat) :
  forall from, 0 <= from ->
  exists ds, generateDays isVegetarian targets dateOf n from = Ok ds
             /\ List.length ds = n
             /\ generatedDays targets dateOf from ds.
Proof.
  induction n as [|n IH]; intros from Hfrom.
  - exists []. repeat split.
  - cbn [generateDays].
    destruct (generateDay_ok isVegetarian targets dateOf from Hfrom)
      as (d & -> & Hd).
    destruct (IH (from + 1) ltac:(lia)) as (ds & -> & Hlen & Hds).
    cbn [bind]. exists (d :: ds). repeat split; simpl; auto.
Qed.

Lemma generateFallbackMeals_ok (profile : UserProfile.t)
    (targets : NutritionTargets.t) (dateOf : Z -> Z) :
  exists ds, generateFallbackMeals profile targets dateOf = Ok ds
             /\ List.length ds = Z.to_nat (UserProfile.planDuration profile)
             /\ generatedDays targets dateOf 1 ds.
Proof. apply generateDays_ok. lia. Qed.

Lemma generateMealPlanWithAI_ok (env : Env) (profile : UserProfile.t)
    (targets : NutritionTargets.t) :
  generateMealPlanWithAI env profile targets
  = generateFallbackMeals profile targets (dateOf env).
Proof.
  unfold generateMealPlanWithAI.
  destruct (negb (keyConfigured (GEMINI_API_KEY env))); [reflexivity|].
  destruct (generateFallbackMeals_ok profile targets (dateOf env)) as (ds & E & _).
  unfold parseAIMealPlan.
  destruct (reply env) as [|[|]|s]; cbn [callGemini bind try_catch];
    try reflexivity.
  rewrite E. reflexivity.
Qed.

(** Both paths of [generateDietPlan] return the plan of the
    deterministic generator. *)
Lemma generateDietPlan_ok (env : Env) (profile : UserProfile.t) :
  exists ds,
    generateDietPlan env profile
    = Ok (planOf profile (calculateNutritionTargets profile) ds)
    /\ generateFallbackDietPlan env profile
       = Ok (planOf profile (calculateNutritionTargets profile) ds)
    /\ List.length ds = Z.to_nat (UserProfile.planDuration profile)
    /\ generatedDays (calculateNutritionTargets profile) (dateOf env) 1 ds.
Proof.
  destruct (generateFallbackMeals_ok profile (calculateNutritionTargets profile)
              (dateOf env)) as (ds & E & Hlen & Hds).
  exists ds. unfold generateDietPlan, generateFallbackDietPlan.
  rewrite generateMealPlanWithAI_ok, E. cbn [bind try_catch]. auto.
Qed.

End Generator.


(* ================================================================== *)
(** ** Freshly generated plans *)

Lemma generatedDays_unstarted (targets : NutritionTargets.t) (dateOf : Z -> Z)
    (ds : list DayMeal.t) :
  forall from, generatedDays targets dateOf from ds ->
               forallb unstartedDay ds = true.
Proof.
  induction ds as [|d ds IH]; intros from H; [reflexivity|].
  destruct H as [(b & l & dn & s & -> & [Hb _] & [Hl _] & [Hdn _] & [Hs _]) Hrest].
  cbn [forallb]. rewrite (IH _ Hrest).
  unfold unstartedDay, unstartedMeals. simpl. rewrite Hb, Hl, Hdn, Hs.
  reflexivity.
Qed.

(** C10.  Every freshly generated diet plan, through the text service or
    through the fallback, starts with zero progress: no day and no meal
    of any day is completed, progress is
    [{completedDays: 0, totalDays: planDuration, adherenceRate: 0}] and
    the plan is active. *)
Theorem generated_plan_starts_unstarted (env : AIService.Env)
    (profile : UserProfile.t) :
  exists plan,
    AIService.generateDietPlan env profile = Ok plan /\
    AIService.generateFallbackDietPlan env profile = Ok plan /\
    forallb unstartedDay (DietPlan.meals plan) = true /\
    DietPlan.progress plan
    = Progress.mk (int 0) (int (UserProfile.planDuration profile)) (int 0) /\
    DietPlan.isActive plan = true.
Proof.
  destruct (generateDietPlan_ok env profile) as (ds & E1 & E2 & _ & Hds).
  eexists. split; [exact E1|]. split; [exact E2|].
  split; [|split; reflexivity].
  exact (generatedDays_unstarted _ _ _ _ Hds).
Qed.

(* ================================================================== *)
(** ** Plan duration: checked when a profile is saved, not when a plan
       is generated *)

Section PlanDuration.

Import ProfileService.
Local Open Scope string_scope.
Local Open Scope Z_scope.

Lemma duration_test_true (n : Z) :
  n <> 0 -> n < 7 \/ 365 < n ->
  (negb (n =? 0) && ((n <? 7) || (n >? 365)))%bool = true.
Proof.
  intros Hnz Hout.
  destruct (Z.eqb_spec n 0) as [|_]; [contradiction|].
  destruct (Z.ltb_spec n 7), (Z.gtb_spec n 365); simpl; auto; lia.
Qed.

Lemma validateProfileData_duration (data : PartialProfile.t) (n : Z) :
  PartialProfile.planDuration data = Some n ->
  n <> 0 -> n < 7 \/ 365 < n ->
  exists e, validateProfileData data = Some e.
Proof.
  intros E Hnz Hout. unfold validateProfileData.
  rewrite E. cbn [optBool]. rewrite (duration_test_true n Hnz Hout).
  repeat match goal with
         | |- context [if ?c then _ else _] => destruct c
         end; eauto.
Qed.

Lemma validateProfileData_duration_only (n : Z) :
  n <> 0 -> n < 7 \/ 365 < n ->
  validateProfileData (PartialProfile.mk None None None (Some n))
  = Some durationError.
Proof.
  intros Hnz Hout. unfold validateProfileData. cbn [optBool PartialProfile.name
    PartialProfile.email PartialProfile.personalDetails PartialProfile.planDuration].
  rewrite (duration_test_true n Hnz Hout). reflexivity.
Qed.

(** C3, as stated, fails: with [planDuration] 400 the generator returns
    a plan of 400 days, with 0 a plan without days; neither call fails. *)
Lemma out_of_range_duration_still_generates :
  (exists plan,
      AIService.generateDietPlan Sample.offline
        (Sample.adult "maintenance" "omnivore" 400) = Ok plan
      /\ List.length (DietPlan.meals plan) = 400%nat
      /\ DietPlan.duration plan = int 400) /\
  (exists plan,
      AIService.generateDietPlan Sample.offline
        (Sample.adult "maintenance" "omnivore" 0) = Ok plan
      /\ DietPlan.meals plan = []).
Proof.
  split.
  - destruct (generateDietPlan_ok Sample.offline
                (Sample.adult "maintenance" "omnivore" 400))
      as (ds & E & _ & Hlen & _).
    eexists. split; [exact E|]. split; [exact Hlen | reflexivity].
  - eexists. split; reflexivity.
Qed.

(** C3, amended.  For a profile whose [planDuration] is outside [7,365],
    plan generation does not validate and does not fail: it returns a plan
    with [planDuration] days (none when [planDuration] is not positive).
    The range is checked by [ProfileService.validateProfileData] when the
    profile is created or updated: unless [planDuration] is 0 it returns
    an error, which is [INVALID_DURATION] when the duration is the only
    field given. *)
Theorem duration_rejected_by_validation_not_by_generation
    (env : AIService.Env) (profile : UserProfile.t) :
  UserProfile.planDuration profile < 7 \/ 365 < UserProfile.planDuration profile ->
  (exists plan,
      AIService.generateDietPlan env profile = Ok plan /\
      List.length (DietPlan.meals plan)
      = Z.to_nat (UserProfile.planDuration profile)) /\
  (UserProfile.planDuration profile = 0 \/
   (exists e, validateProfileData (asPartial profile) = Some e) /\
   validateProfileData
     (PartialProfile.mk None None None (Some (UserProfile.planDuration profile)))
   = Some durationError).
Proof.
  intros Hout. split.
  - destruct (generateDietPlan_ok env profile) as (ds & E & _ & Hlen & _).
    eexists. split; [exact E | exact Hlen].
  - destruct (Z.eq_dec (UserProfile.planDuration profile) 0) as [H0|Hnz];
      [left; exact H0 | right].
    split.
    + apply (validateProfileData_duration _ (UserProfile.planDuration profile));
        auto.
    + apply validateProfileData_duration_only; auto.
Qed.

Lemma duration_rejected_by_validation_not_by_generation_witness :
  (365 < UserProfile.planDuration (Sample.adult "maintenance" "omnivore" 400)) /\
  (exists plan,
      AIService.generateDietPlan Sample.offline
        (Sample.adult "maintenance" "omnivore" 400) = Ok plan /\
      List.length (DietPlan.meals plan) = Z.to_nat 400) /\
  (400 = 0 \/
   (exists e,
       validateProfileData (asPartial (Sample.adult "maintenance" "omnivore" 400))
       = Some e) /\
   validateProfileData (PartialProfile.mk None None None (Some 400))
   = Some durationError).
Proof.
  split; [reflexivity|].
  apply (duration_rejected_by_validation_not_by_generation Sample.offline
           (Sample.adult "maintenance" "omnivore" 400)).
  right. reflexivity.
Defined.

End PlanDuration.

(* ================================================================== *)
(** ** Progress against the goals *)

Section Progress.

Import NutritionTrackingService.
Local Open Scope Z_scope.

(** A non-zero finite target: the rounded exact ratio. *)
Lemma percentOf_nonzero (c t : Q) :
  ~ (t == 0)%Q ->
  percentOf (Fin c) (Fin t) = int (round_Z (c / t * 100)).
Proof.
  intros Ht. unfold percentOf, div, mul, int at 1.
  rewrite (Qeq_bool_false t Ht). cbn [Math_round]. f_equal.
  apply round_Z_eq. rewrite !Qred_correct. reflexivity.
Qed.

(** A zero target: an infinity of the sign of the current value, or NaN
    for 0/0; no zero rule. *)
Lemma percentOf_zero (c t : Q) :
  (t == 0)%Q ->
  percentOf (Fin c) (Fin t) = inf_of (Qsign c).
Proof.
  intros Ht. unfold percentOf, div.
  rewrite (Qeq_bool_true t Ht).
  destruct (Qsign c); reflexivity.
Qed.






(** 24 g of 25 g of fiber are 96 percent. *)
Example fiber_24_of_25 :
  Percentage.fiber
    (NutritionProgress.percentage
       (calculateNutritionProgress (Sample.nutrition 2000 50 200 60 24)
                                   (Sample.nutrition 2000 0 200 60 25)))
  = int 96.
Proof. reflexivity. Qed.

End Progress.

(* ================================================================== *)
(** ** The nutrition score *)

Section Score.

Import NutritionTrackingService.
Local Open Scope Z_scope.

(** Each sub-score of calories, protein, carbs and fat lies in [0,100]. *)
Lemma macroScore_range (q : Q) :
  exists s, macroScore (Fin q) = Fin s /\ (0 <= s <= 100)%Q.
Proof.
  unfold macroScore.
  destruct ((Fin q >= int 90)%js && (Fin q <= int 110)%js)%bool;
    [exists 100%Q; split; [reflexivity | lra]|].
  destruct ((Fin q >= int 80)%js && (Fin q <= int 120)%js)%bool;
    [exists 80%Q; split; [reflexivity | lra]|].
  cbn [sub neg add Math_abs int Math_max].
  set (v := Qred (inject_Z 100 + Qred (- Qred (Qabs (Qred (q + Qred (- inject_Z 100))))))).
  assert (Hv : (v <= 100)%Q).
  { unfold v. rewrite !Qred_correct.
    pose proof (Qabs_nonneg (q + - inject_Z 100)) as Hn.
    change (inject_Z 100) with 100%Q in *. lra. }
  destruct (ltb _ (Fin v)) eqn:E.
  - unfold int in E. apply ltb_Fin in E. change (inject_Z 0) with 0%Q in E.
    exists v. split; [reflexivity | lra].
  - exists 0%Q. split; [reflexivity | lra].
Qed.

(** The fiber curve of the code is the curve of the specification,
    [min(100, pct * 1.25)], except strictly between 80 and 100 percent,
    where it exceeds 100. *)
Lemma fiberScore_vs_spec (q : Q) :
  ((q <= 80)%Q \/ (100 <= q)%Q -> fiberScore (Fin q) = specFiberScore (Fin q)) /\
  ((80 < q)%Q /\ (q < 100)%Q ->
   specFiberScore (Fin q) = int 100 /\ ltb (int 100) (fiberScore (Fin q)) = true).
Proof.
  unfold fiberScore, specFiberScore, geb, int. cbn [mul].
  split.
  - intros [H|H].
    + rewrite (proj2 (leb_Fin_false (inject_Z 100) q))
        by (change (inject_Z 100) with 100%Q; lra).
      rewrite (proj2 (ltb_Fin_false (inject_Z 100) (Qred (q * 1.25)))); [reflexivity|].
      rewrite Qred_correct. change (inject_Z 100) with 100%Q. lra.
    + rewrite (proj2 (leb_Fin (inject_Z 100) q))
        by (change (inject_Z 100) with 100%Q; lra).
      rewrite (proj2 (ltb_Fin (inject_Z 100) (Qred (q * 1.25)))); [reflexivity|].
      rewrite Qred_correct. change (inject_Z 100) with 100%Q. lra.
  - intros [H1 H2].
    rewrite (proj2 (leb_Fin_false (inject_Z 100) q))
      by (change (inject_Z 100) with 100%Q; lra).
    assert (E : ltb (Fin (inject_Z 100)) (Fin (Qred (q * 1.25))) = true).
    { apply ltb_Fin. rewrite Qred_correct.
      change (inject_Z 100) with 100%Q. lra. }
    rewrite E. split; reflexivity.
Qed.

Lemma fiberScore_range (q : Q) :
  (0 <= q)%Q ->
  exists t, fiberScore (Fin q) = Fin t /\ (0 <= t < 125)%Q /\
            ((q <= 80)%Q \/ (100 <= q)%Q -> (t <= 100)%Q).
Proof.
  intros Hq. unfold fiberScore, geb, int.
  destruct (leb (Fin (inject_Z 100)) (Fin q)) eqn:E.
  - exists 100%Q. split; [reflexivity|]. split; lra.
  - apply leb_Fin_false in E. change (inject_Z 100) with 100%Q in E.
    cbn [mul]. eexists. split; [reflexivity|].
    rewrite Qred_correct. split; [lra|]. intros [H|H]; lra.
Qed.

(** Where the score stays in range.  For finite percentages with a
    non-negative fiber percentage the score is a whole number between 0
    and 102, and between 0 and 100 unless the fiber percentage lies
    strictly between 80 and 100. *)
Lemma calculateNutritionScore_range (p : NutritionProgress.t)
    (c pr cb f fi : Q) :
  NutritionProgress.percentage p
  = Percentage.mk (Fin c) (Fin pr) (Fin cb) (Fin f) (Fin fi) ->
  (0 <= fi)%Q ->
  exists s,
    calculateNutritionScore p = int s /\ 0 <= s <= 102 /\
    ((fi <= 80)%Q \/ (100 <= fi)%Q -> s <= 100).
Proof.
  intros Hp Hfi. unfold calculateNutritionScore. rewrite Hp.
  cbn [Percentage.calories Percentage.protein Percentage.carbs
       Percentage.fat Percentage.fiber].
  destruct (macroScore_range c) as (sc & -> & Hsc).
  destruct (macroScore_range pr) as (sp & -> & Hsp).
  destruct (macroScore_range cb) as (sb & -> & Hsb).
  destruct (macroScore_range f) as (sf & -> & Hsf).
  destruct (fiberScore_range fi Hfi) as (t & -> & Ht & Hcap).
  cbn [mul add Math_round].
  eexists. split; [reflexivity|].
  match goal with |- context [round_Z ?w] => set (x := w) end.
  assert (Hx : (x == sc * 0.4 + sp * 0.2 + sb * 0.2 + sf * 0.1 + t * 0.1)%Q).
  { unfold x. rewrite !Qred_correct. reflexivity. }
  split.
  - apply round_Z_range.
    + change (inject_Z 0) with 0%Q. lra.
    + change (inject_Z 102) with 102%Q. lra.
  - intros H. specialize (Hcap H).
    apply (round_Z_range x 0 100).
    + change (inject_Z 0) with 0%Q. lra.
    + change (inject_Z 100) with 100%Q. lra.
Qed.

(** The fiber curve of the code and the curve of the specification part
    between 80 and 100 percent. *)
Example fiberScore_above_cap :
  fiberScore (int 99) = Fin (495 # 4) /\ specFiberScore (int 99) = int 100.
Proof. split; reflexivity. Qed.

(** C2 does not hold on the code.  With calories, protein, carbs and fat
    on target and 99 of 100 g of fiber eaten, the fiber sub-score is
    [99 * 1.25 = 123.75], not [min(100, 123.75)], and the score is
    [round(40 + 20 + 20 + 10 + 12.375) = 102], outside [0,100]. *)
Theorem nutrition_score_above_100 :
  calculateNutritionScore
    (calculateNutritionProgress (Sample.nutrition 2000 100 250 70 99)
                                (Sample.nutrition 2000 100 250 70 100))
  = int 102 /\
  leb (int 102) (int 100) = false.
Proof. split; reflexivity. Qed.

End Score.

(* ================================================================== *)
(** ** Total calories of a generated day *)

Section DayTotals.

Import NutritionTrackingService.
Local Open Scope string_scope.

Lemma or0_int (z : Z) : or_else (Some (int z)) (int 0) = int z.
Proof.
  unfold or_else, truthy, int.
  destruct (Qeq_bool (inject_Z z) 0) eqn:E; [|reflexivity].
  apply Qeq_bool_eq in E. apply (proj1 (inject_Z_injective z 0)) in E.
  subst. reflexivity.
Qed.

Lemma share_calories (D : Z) (r : Q) :
  Math_round (mul (int D) (Fin r)) = int (round_Z (inject_Z D * r)).
Proof.
  unfold int at 1. cbn [mul Math_round]. f_equal. apply round_Z_eq.
  apply Qred_correct.
Qed.

(** What the generator leaves on a day whose target is the whole number
    [D]: [totalCalories] is [D], while the calories of the four meals,
    which is what [recalculateDayMealTotals] stores, sum to a number
    between [D - 1] and [D + 2]. *)
Lemma generated_day_total_near_meal_sum (targets : NutritionTargets.t)
    (dateOf : Z -> Z) (day D : Z) (d : DayMeal.t) :
  NutritionTargets.dailyCalories targets = int D ->
  generatedDay targets dateOf day d ->
  DayMeal.totalCalories d = int D /\
  exists S,
    NutritionData.calories (calculateDayNutrition d) = int S /\
    DayMeal.totalCalories (recalculateDayMealTotals d) = int S /\
    D - 1 <= S <= D + 2.
Proof.
  intros HD (b & l & dn & s & -> & [_ Hb] & [_ Hl] & [_ Hdn] & [_ Hs]).
  rewrite HD in *. rewrite share_calories in Hb, Hl, Hdn, Hs.
  split; [reflexivity|].
  unfold recalculateDayMealTotals, DayMeal.set_totalCalories.
  cbn [DayMeal.totalCalories].
  assert (E : NutritionData.calories
                (calculateDayNutrition
                   (DayMeal.mk day (dateOf day) (Meals.mk b l dn [s])
                      (int D) false))
              = int (round_Z (inject_Z D * 0.25) + round_Z (inject_Z D * 0.35)
                     + round_Z (inject_Z D * 0.30)
                     + (0 + round_Z (inject_Z D * 0.10)))).
  { unfold calculateDayNutrition, addNutritionData, calculateMealNutrition,
      createEmptyNutritionData.
    cbn [DayMeal.meals Meals.breakfast Meals.lunch Meals.dinner Meals.snacks
         fold_left NutritionData.calories].
    rewrite Hb, Hl, Hdn, Hs, !or0_int, !add_int. reflexivity. }
  rewrite E, Math_round_int. eexists. split; [reflexivity|]. split; [reflexivity|].
  destruct (round_Z_bounds (inject_Z D * 0.25)) as [B1 B2].
  destruct (round_Z_bounds (inject_Z D * 0.35)) as [L1 L2].
  destruct (round_Z_bounds (inject_Z D * 0.30)) as [N1 N2].
  destruct (round_Z_bounds (inject_Z D * 0.10)) as [S1 S2].
  set (rb := round_Z (inject_Z D * 0.25)) in *.
  set (rl := round_Z (inject_Z D * 0.35)) in *.
  set (rn := round_Z (inject_Z D * 0.30)) in *.
  set (rs := round_Z (inject_Z D * 0.10)) in *.
  split.
  - assert (H : D - 2 < rb + rl + rn + (0 + rs)); [|lia].
    rewrite Zlt_Qlt. unfold Z.sub.
    rewrite !inject_Z_plus, inject_Z_opp.
    change (inject_Z 2) with 2%Q. change (inject_Z 0) with 0%Q. lra.
  - assert (H : rb + rl + rn + (0 + rs) < D + 3); [|lia].
    rewrite Zlt_Qlt. rewrite !inject_Z_plus.
    change (inject_Z 3) with 3%Q. change (inject_Z 0) with 0%Q. lra.
Qed.

(** C4 does not hold on the code.  For the sample adult (daily target
    2759 kcal) the generator stores [totalCalories = 2759] on every day,
    while the four meals of the day carry
    [690 + 966 + 828 + 276 = 2760] kcal; [recalculateDayMealTotals] then
    stores 2760. *)
Theorem generated_day_total_differs_from_meal_sum :
  exists plan day,
    AIService.generateDietPlan Sample.offline
      (Sample.adult "maintenance" "omnivore" 7) = Ok plan /\
    hd_error (DietPlan.meals plan) = Some day /\
    DietPlan.dailyCalories plan = int 2759 /\
    DayMeal.totalCalories day = int 2759 /\
    map (fun m => NutritionData.calories (Meal.nutrition m))
        (Meals.breakfast (DayMeal.meals day) :: Meals.lunch (DayMeal.meals day)
         :: Meals.dinner (DayMeal.meals day) :: Meals.snacks (DayMeal.meals day))
    = [int 690; int 966; int 828; int 276] /\
    NutritionData.calories (calculateDayNutrition day) = int 2760 /\
    DayMeal.totalCalories (recalculateDayMealTotals day) = int 2760.
Proof.
  eexists. eexists. split; [vm_compute; reflexivity|].
  repeat split.
Qed.

End DayTotals.

(* ================================================================== *)
(** ** Activity multipliers and goal adjustment in the two components *)

Section TwoComponents.

Local Open Scope string_scope.
Local Open Scope Z_scope.

Lemma oneOf_false_cons (s k : string) (l : list string) :
  oneOf s (k :: l) = false -> String.eqb k s = false /\ oneOf s l = false.
Proof.
  unfold oneOf. cbn [existsb]. intros H.
  apply Bool.orb_false_iff in H. destruct H as [H1 H2].
  rewrite String.eqb_sym. auto.
Qed.

(** The tracker falls back to the sedentary factor. *)
Lemma activityFactor_unknown (level : string) :
  oneOf level activityLevels = false ->
  NutritionTrackingService.activityFactor level = Fin 1.2.
Proof.
  intros H. unfold activityLevels in H.
  repeat (apply oneOf_false_cons in H; destruct H as [? H]).
  unfold NutritionTrackingService.activityFactor.
  repeat match goal with
         | E : String.eqb ?k level = false |- _ =>
             rewrite (String.eqb_sym k level) in E
         end.
  repeat match goal with
         | E : String.eqb level _ = false |- _ => rewrite E; clear E
         end.
  reflexivity.
Qed.

(** The generator falls back to the moderate multiplier, unless the
    value names a member every object inherits. *)
Lemma multiplierOf_unknown (level : string) :
  oneOf level activityLevels = false ->
  oneOf level Object_prototype_names = false ->
  AIService.multiplierOf level = Fin 1.55.
Proof.
  intros H Hp. unfold activityLevels in H.
  repeat (apply oneOf_false_cons in H; destruct H as [? H]).
  unfold AIService.multiplierOf, get_property, AIService.activityMultipliers.
  cbn [own_property].
  repeat match goal with
         | E : String.eqb _ level = false |- _ => rewrite E; clear E
         end.
  unfold oneOf in Hp. rewrite Hp. reflexivity.
Qed.

Lemma oneOf_true_cases (s : string) (l : list string) :
  oneOf s l = true -> In s l.
Proof.
  unfold oneOf. intros H. apply existsb_exists in H.
  destruct H as (k & Hin & E). apply String.eqb_eq in E. subst. exact Hin.
Qed.

(** On the five levels both components use the same factor. *)
Lemma factors_agree (level : string) :
  oneOf level activityLevels = true ->
  AIService.multiplierOf level = NutritionTrackingService.activityFactor level.
Proof.
  intros H. apply oneOf_true_cases in H.
  repeat (destruct H as [<-|H]; [reflexivity|]). destruct H.
Qed.

Lemma tdee_agree (d : PersonalDetails.t) :
  oneOf (PersonalDetails.activityLevel d) activityLevels = true ->
  AIService.tdee_of d = NutritionTrackingService.tdee_of d.
Proof.
  intros H. unfold AIService.tdee_of, NutritionTrackingService.tdee_of.
  rewrite (factors_agree _ H). reflexivity.
Qed.

(** A value naming a member that every object inherits finds that
    member, a function, instead of the default: the product is [NaN]. *)
Example inherited_member_is_no_multiplier :
  AIService.multiplierOf "toString" = NaN /\
  NutritionTargets.dailyCalories
    (AIService.calculateNutritionTargets
       (Sample.profile "male" 80 180 30 "toString" "maintenance" "omnivore" 30))
  = NaN.
Proof. split; reflexivity. Qed.

(** C6, as stated, fails: for an activity level outside the five the
    tracker uses 1.2, not 1.55. *)
Lemma unknown_activity_level_defaults_differ :
  oneOf "athlete" activityLevels = false /\
  NutritionTrackingService.activityFactor "athlete" = Fin 1.2 /\
  AIService.multiplierOf "athlete" = Fin 1.55 /\
  Fin 1.2 <> Fin 1.55.
Proof. repeat split; discriminate. Qed.

(** C6, amended.  Both components use the fixed lookup sedentary 1.2,
    light 1.375, moderate 1.55, active 1.725, very_active 1.9.  For any
    other activity level neither fails, but the defaults differ: the
    tracker ([calculateDailyNutritionGoals]) uses 1.2 (sedentary) and
    the generator ([calculateNutritionTargets]) uses 1.55 (moderate),
    the latter for every value that is not the name of a member
    inherited from [Object.prototype]. *)
Theorem activity_multiplier_lookup_and_defaults :
  map AIService.multiplierOf activityLevels
  = [Fin 1.2; Fin 1.375; Fin 1.55; Fin 1.725; Fin 1.9] /\
  map NutritionTrackingService.activityFactor activityLevels
  = [Fin 1.2; Fin 1.375; Fin 1.55; Fin 1.725; Fin 1.9] /\
  forall level,
    oneOf level activityLevels = false ->
    NutritionTrackingService.activityFactor level = Fin 1.2 /\
    (oneOf level Object_prototype_names = false ->
     AIService.multiplierOf level = Fin 1.55).
Proof.
  split; [reflexivity|]. split; [reflexivity|].
  intros level H. split.
  - apply activityFactor_unknown. exact H.
  - intros Hp. apply multiplierOf_unknown; assumption.
Qed.

Lemma activity_multiplier_lookup_and_defaults_witness :
  oneOf "athlete" activityLevels = false /\
  oneOf "athlete" Object_prototype_names = false /\
  NutritionTrackingService.activityFactor "athlete" = Fin 1.2 /\
  AIService.multiplierOf "athlete" = Fin 1.55.
Proof.
  split; [reflexivity|]. split; [reflexivity|].
  destruct activity_multiplier_lookup_and_defaults as (_ & _ & H).
  destruct (H "athlete" eq_refl) as [Ht Hg].
  split; [exact Ht | exact (Hg eq_refl)].
Defined.

(** C5, as stated, fails: for the sample adult with goal weight_loss
    (TDEE 2759) the generator targets [2759 - 500 = 2259] kcal while the
    tracker targets 2759 kcal, or [round(2759 * 0.85) = 2345] kcal on a
    profile that carries the [primaryGoal] property the tracker reads. *)
Lemma goal_adjustments_differ :
  validProfile (Sample.adult "weight_loss" "omnivore" 30) = true /\
  NutritionTargets.dailyCalories
    (AIService.calculateNutritionTargets
       (Sample.adult "weight_loss" "omnivore" 30)) = int 2259 /\
  NutritionData.calories
    (NutritionTrackingService.calculateDailyNutritionGoals
       (Sample.adult "weight_loss" "omnivore" 30)) = int 2759 /\
  NutritionData.calories
    (NutritionTrackingService.calculateDailyNutritionGoals
       (UserProfile.mk "Test User" "user@example.com"
          (PersonalDetails.mk (int 30) "male" (int 80) (int 180) "moderate")
          (HealthGoals.mk "weight_loss" (Some "weight_loss")) "omnivore" 30))
  = int 2345 /\
  int 2259 <> int 2759 /\ int 2259 <> int 2345.
Proof. repeat split; discriminate. Qed.

(** C5, amended.  On a valid profile the generator and the tracker
    compute the same TDEE, and for the goals maintenance and
    general_health both return [round(TDEE)] as the daily calories.
    There is no common policy for the other goals: the generator applies
    the absolute adjustment, [round(TDEE - 500)] for weight_loss and
    [round(TDEE + 300)] for muscle_gain. *)
Theorem goal_policies_agree_without_adjustment (p : UserProfile.t) :
  validProfile p = true ->
  trackerGoalConsistent p ->
  let d := UserProfile.personalDetails p in
  let goal := HealthGoals.primary (UserProfile.healthGoals p) in
  let generated :=
    NutritionTargets.dailyCalories (AIService.calculateNutritionTargets p) in
  let tracked :=
    NutritionData.calories
      (NutritionTrackingService.calculateDailyNutritionGoals p) in
  AIService.tdee_of d = NutritionTrackingService.tdee_of d /\
  (goal = "maintenance" \/ goal = "general_health" ->
   generated = tracked /\ generated = Math_round (AIService.tdee_of d)) /\
  (goal = "weight_loss" ->
   generated = Math_round (AIService.tdee_of d - int 500)%js) /\
  (goal = "muscle_gain" ->
   generated = Math_round (AIService.tdee_of d + int 300)%js).
Proof.
  intros Hv Hc. cbv zeta.
  assert (Hlevel : oneOf (PersonalDetails.activityLevel (UserProfile.personalDetails p))
                         activityLevels = true).
  { unfold validProfile in Hv. cbv zeta in Hv.
    rewrite !Bool.andb_true_iff in Hv.
    destruct Hv as ((((((((_ & _) & _) & _) & Hl) & _) & _) & _) & _).
    exact Hl. }
  pose proof (tdee_agree _ Hlevel) as Ht.
  split; [exact Ht|].
  unfold AIService.calculateNutritionTargets,
    NutritionTrackingService.calculateDailyNutritionGoals,
    NutritionTrackingService.goalTdee, AIService.adjustForGoal.
  destruct (AIService.macroRatios (UserProfile.dietType p)) as [[pr fr] cr].
  destruct (NutritionTrackingService.macroRatios (UserProfile.dietType p))
    as [[pr' fr'] cr'].
  cbn [NutritionTargets.dailyCalories NutritionData.calories].
  split; [|split].
  - intros Hg. rewrite <- Ht.
    assert (E : NutritionTrackingService.is_goal
                  (HealthGoals.primaryGoal (UserProfile.healthGoals p)) "weight_loss"
                = false /\
                NutritionTrackingService.is_goal
                  (HealthGoals.primaryGoal (UserProfile.healthGoals p)) "muscle_gain"
                = false).
    { destruct Hc as [-> | ->]; [split; reflexivity|].
      destruct Hg as [-> | ->]; split; reflexivity. }
    destruct E as [-> ->].
    destruct Hg as [-> | ->]; split; reflexivity.
  - intros ->. reflexivity.
  - intros ->. reflexivity.
Qed.

Lemma goal_policies_agree_without_adjustment_witness :
  validProfile (Sample.adult "maintenance" "keto" 30) = true /\
  NutritionTargets.dailyCalories
    (AIService.calculateNutritionTargets (Sample.adult "maintenance" "keto" 30))
  = NutritionData.calories
      (NutritionTrackingService.calculateDailyNutritionGoals
         (Sample.adult "maintenance" "keto" 30)).
Proof.
  split; [reflexivity|].
  destruct (goal_policies_agree_without_adjustment
              (Sample.adult "maintenance" "keto" 30) eq_refl (or_introl eq_refl))
    as (_ & H & _).
  exact (proj1 (H (or_introl eq_refl))).
Defined.

End TwoComponents.

(* ================================================================== *)
(** ** Calories of the macronutrient targets *)

Section MacroCalories.

Local Open Scope string_scope.
Local Open Scope Z_scope.

(** Grams of a macronutrient: [round(calories * ratio / kcalPerGram)]. *)
Lemma grams_of_ratio (q r : Q) (k : Z) :
  k <> 0 ->
  Math_round (div (mul (Fin q) (Fin r)) (int k))
  = int (round_Z (q * r / inject_Z k)).
Proof.
  intros Hk. unfold int at 1. cbn [mul div].
  rewrite Qeq_bool_false.
  - cbn [Math_round]. f_equal. apply round_Z_eq.
    rewrite !Qred_correct. reflexivity.
  - intros H. apply Hk.
    apply (proj1 (inject_Z_injective k 0)). exact H.
Qed.

(** Four independent roundings: the calories of the rounded grams stay
    strictly within 9 kcal of the rounded daily calories. *)
Lemma rounded_macros_gap (q xp xc xf : Q) :
  (4 * xp + 4 * xc + 9 * xf == q)%Q ->
  Z.abs (round_Z xp * 4 + round_Z xc * 4 + round_Z xf * 9 - round_Z q) <= 8.
Proof.
  intros Hsum.
  destruct (round_Z_bounds xp) as [Hp1 Hp2].
  destruct (round_Z_bounds xc) as [Hc1 Hc2].
  destruct (round_Z_bounds xf) as [Hf1 Hf2].
  destruct (round_Z_bounds q) as [Hq1 Hq2].
  set (P := round_Z xp) in *. set (C := round_Z xc) in *.
  set (F := round_Z xf) in *. set (D := round_Z q) in *.
  assert (Hlo : -9 < P * 4 + C * 4 + F * 9 - D).
  { unfold Z.sub. rewrite Zlt_Qlt.
    rewrite !inject_Z_plus, inject_Z_opp, !inject_Z_mult.
    change (inject_Z 4) with 4%Q. change (inject_Z 9) with 9%Q.
    change (inject_Z (-9)) with (-9)%Q. lra. }
  assert (Hhi : P * 4 + C * 4 + F * 9 - D < 9).
  { unfold Z.sub. rewrite Zlt_Qlt.
    rewrite !inject_Z_plus, inject_Z_opp, !inject_Z_mult.
    change (inject_Z 4) with 4%Q. change (inject_Z 9) with 9%Q.
    change (inject_Z 9) with 9%Q. lra. }
  lia.
Qed.

Lemma targets_gap (q pr fr cr : Q) :
  (pr + fr + cr == 1)%Q ->
  exists z,
    macroGap
      (NutritionTargets.mk
         (Math_round (Fin q))
         (Math_round (div (mul (Fin q) (Fin pr)) (int 4)))
         (Math_round (div (mul (Fin q) (Fin cr)) (int 4)))
         (Math_round (div (mul (Fin q) (Fin fr)) (int 9))))
    = int z /\ Z.abs z <= 8.
Proof.
  intros Hsum.
  rewrite !grams_of_ratio by discriminate.
  unfold macroGap.
  cbn [NutritionTargets.protein NutritionTargets.carbs NutritionTargets.fat
       NutritionTargets.dailyCalories Math_round].
  rewrite !mul_int, !add_int, sub_int.
  eexists. split; [reflexivity|].
  apply rounded_macros_gap.
  transitivity (q * (pr + fr + cr))%Q; [field | rewrite Hsum; ring].
Qed.

(** Finite inputs give finite results. *)
Lemma between_finite (lo hi : Z) (v : number) :
  between lo hi v = true -> exists q, v = Fin q.
Proof.
  unfold between. destruct v; simpl; try discriminate; eauto.
Qed.

Lemma bmr_finite (d : PersonalDetails.t) :
  finite (PersonalDetails.age d) -> finite (PersonalDetails.weight d) ->
  finite (PersonalDetails.height d) ->
  finite (AIService.bmr_of d).
Proof.
  unfold AIService.bmr_of.
  destruct (PersonalDetails.age d), (PersonalDetails.weight d),
    (PersonalDetails.height d); simpl; try contradiction.
  intros _ _ _. destruct (String.eqb (PersonalDetails.gender d) "male"); exact I.
Qed.

Lemma multiplier_finite (level : string) :
  oneOf level activityLevels = true -> finite (AIService.multiplierOf level).
Proof.
  intros H. apply oneOf_true_cases in H.
  repeat (destruct H as [<-|H]; [exact I|]). destruct H.
Qed.

Lemma adjustForGoal_finite (tdee : number) (goal : string) :
  finite tdee -> finite (AIService.adjustForGoal tdee goal).
Proof.
  unfold AIService.adjustForGoal. destruct tdee; simpl; try contradiction.
  intros _.
  destruct (String.eqb goal "weight_loss"); [exact I|].
  destruct (String.eqb goal "muscle_gain"); exact I.
Qed.

Lemma macroRatios_sum (dietType : string) :
  exists pr fr cr,
    AIService.macroRatios dietType = (Fin pr, Fin fr, Fin cr)
    /\ (pr + fr + cr == 1)%Q.
Proof.
  unfold AIService.macroRatios.
  destruct (String.eqb dietType "keto");
    [|destruct (String.eqb dietType "paleo");
      [|destruct (String.eqb dietType "vegan" || String.eqb dietType "vegetarian")%bool]];
    do 3 eexists; (split; [reflexivity|]); reflexivity.
Qed.

Lemma between_is_finite (lo hi : Z) (v : number) :
  between lo hi v = true -> finite v.
Proof. intros H. destruct (between_finite _ _ _ H) as [q ->]. exact I. Qed.

Lemma valid_dailyCalories_finite (p : UserProfile.t) :
  validProfile p = true ->
  exists q,
    AIService.adjustForGoal (AIService.tdee_of (UserProfile.personalDetails p))
      (HealthGoals.primary (UserProfile.healthGoals p)) = Fin q.
Proof.
  intros Hv. unfold validProfile in Hv. cbv zeta in Hv.
  rewrite !Bool.andb_true_iff in Hv.
  destruct Hv as ((((((((Ha & Hw) & Hh) & _) & Hl) & _) & _) & _) & _).
  assert (F : finite (AIService.adjustForGoal
                        (AIService.tdee_of (UserProfile.personalDetails p))
                        (HealthGoals.primary (UserProfile.healthGoals p)))).
  { apply adjustForGoal_finite. apply mul_finite.
    - apply bmr_finite; eapply between_is_finite; eassumption.
    - apply multiplier_finite. exact Hl. }
  destruct (AIService.adjustForGoal _ _); try contradiction. eauto.
Qed.

(** C7, as stated, fails: a 41-year-old woman of 64 kg and 170 cm, very
    active, maintaining (TDEE 2539.35), gets 2539 kcal, 159 g protein,
    286 g carbs and 85 g fat, that is [636 + 1144 + 765 = 2545] kcal from
    the macros, 6 more than the daily calories. *)
Lemma macro_calories_off_by_6 :
  validProfile
    (Sample.profile "female" 64 170 41 "very_active" "maintenance" "omnivore" 30)
  = true /\
  AIService.calculateNutritionTargets
    (Sample.profile "female" 64 170 41 "very_active" "maintenance" "omnivore" 30)
  = NutritionTargets.mk (int 2539) (int 159) (int 286) (int 85) /\
  macroGap
    (AIService.calculateNutritionTargets
       (Sample.profile "female" 64 170 41 "very_active" "maintenance" "omnivore" 30))
  = int 6 /\
  leb (int 6) (int 3) = false.
Proof. repeat split. Qed.

(** The bound of 8 is reached. *)
Example macro_calories_off_by_8 :
  validProfile
    (Sample.profile "female" 100 100 41 "moderate" "muscle_gain" "vegan" 30)
  = true /\
  macroGap
    (AIService.calculateNutritionTargets
       (Sample.profile "female" 100 100 41 "moderate" "muscle_gain" "vegan" 30))
  = int 8.
Proof. split; reflexivity. Qed.

(** C7, amended.  For every valid profile the targets of
    [calculateNutritionTargets] are integers with
    [|protein * 4 + carbs * 4 + fat * 9 - dailyCalories| <= 8]: each of
    the four values is rounded on its own, which allows up to
    2 + 2 + 4.5 + 0.5 kcal of rounding, so 3 is not a bound. *)
Theorem macro_calories_within_8 (p : UserProfile.t) :
  validProfile p = true ->
  exists z,
    macroGap (AIService.calculateNutritionTargets p) = int z /\ Z.abs z <= 8.
Proof.
  intros Hv. unfold AIService.calculateNutritionTargets.
  destruct (valid_dailyCalories_finite p Hv) as [q ->].
  destruct (macroRatios_sum (UserProfile.dietType p))
    as (pr & fr & cr & -> & Hsum).
  apply targets_gap. exact Hsum.
Qed.

Lemma macro_calories_within_8_witness :
  validProfile (Sample.adult "maintenance" "keto" 30) = true /\
  exists z,
    macroGap
      (AIService.calculateNutritionTargets (Sample.adult "maintenance" "keto" 30))
    = int z /\ Z.abs z <= 8.
Proof.
  split; [reflexivity|].
  exact (macro_calories_within_8 (Sample.adult "maintenance" "keto" 30) eq_refl).
Defined.

End MacroCalories.

(* ================================================================== *)
(** ** Meal completion and adherence *)

Section Completion.

Import Dashboard.
Local Open Scope Z_scope.

Lemma mealForward_refl (m : Meal.t) : mealForward m m = true.
Proof. unfold mealForward. destruct (Meal.completed m); reflexivity. Qed.

Lemma forall2b_refl {A : Type} (f : A -> A -> bool) (l : list A) :
  (forall a, f a a = true) -> forall2b f l l = true.
Proof.
  intros Hf. induction l as [|a l IH]; [reflexivity|].
  cbn [forall2b]. rewrite Hf, IH. reflexivity.
Qed.



Lemma mealForward_set (m : Meal.t) : mealForward m (Meal.set_completed m true) = true.
Proof. unfold mealForward. destruct (Meal.completed m); reflexivity. Qed.

Lemma completeNth_spec (snacks : list Meal.t) :
  forall i snacks',
    completeNth snacks i = Ok snacks' ->
    forall2b mealForward snacks snacks' = true /\
    option_map Meal.completed (nth_error snacks' i) = Some true.
Proof.
  induction snacks as [|s rest IH]; intros i snacks' H; [discriminate|].
  destruct i as [|i]; cbn [completeNth] in H.
  - injection H as <-. cbn [forall2b]. rewrite mealForward_set.
    rewrite (forall2b_refl _ _ mealForward_refl). split; reflexivity.
  - destruct (completeNth rest i) as [rest'|e] eqn:E; [|discriminate].
    cbn [bind] in H. injection H as <-.
    destruct (IH i rest' E) as [Hf Hn].
    cbn [forall2b nth_error]. rewrite mealForward_refl, Hf. split; auto.
Qed.

Lemma markCompleted_spec (ms ms' : Meals.t) (mealType : MealType)
    (snackIndex : option Z) :
  markCompleted ms mealType snackIndex = Ok ms' ->
  mealsForward ms ms' = true /\ marked ms' mealType snackIndex = true.
Proof.
  unfold markCompleted, mealsForward.
  destruct mealType; try destruct snackIndex as [i|]; intros H;
    try (injection H as <-; cbn;
         rewrite ?mealForward_refl, ?mealForward_set,
           ?(forall2b_refl _ _ mealForward_refl);
         split; reflexivity).
  unfold completeSnack in H.
  destruct (i <? 0); [discriminate|].
  destruct (completeNth (Meals.snacks ms) (Z.to_nat i)) as [snacks'|e] eqn:E;
    [|discriminate].
  cbn [bind] in H. injection H as <-.
  destruct (completeNth_spec _ _ _ E) as [Hf Hn].
  cbn [Meals.breakfast Meals.lunch Meals.dinner Meals.snacks marked].
  rewrite !mealForward_refl, Hf. split; [reflexivity|].
  destruct (nth_error snacks' (Z.to_nat i)); [|discriminate].
  cbn in Hn. congruence.
Qed.



(** The day the handler rebuilds. *)
Lemma completeDay_spec (day day' : DayMeal.t) (mealType : MealType)
    (snackIndex : option Z) :
  completeDay day mealType snackIndex = Ok day' ->
  DayMeal.date day' = DayMeal.date day /\
  DayMeal.day day' = DayMeal.day day /\
  mealsForward (DayMeal.meals day) (DayMeal.meals day') = true /\
  marked (DayMeal.meals day') mealType snackIndex = true /\
  DayMeal.completed day'
  = (DayMeal.completed day || allMealsCompleted (DayMeal.meals day'))%bool /\
  DayMeal.totalCalories day'
  = Math_round
      (NutritionData.calories
         (NutritionTrackingService.calculateDayNutrition day')).
Proof.
  unfold completeDay.
  destruct (markCompleted (DayMeal.meals day) mealType snackIndex)
    as [ms|e] eqn:E; [|discriminate].
  cbn [bind]. intros H. injection H as <-.
  destruct (markCompleted_spec _ _ _ _ E) as [Hf Hm].
  change (DayMeal.meals
            (NutritionTrackingService.recalculateDayMealTotals
               (DayMeal.set_meals day ms))) with ms.
  destruct (allMealsCompleted ms) eqn:Hall;
    unfold NutritionTrackingService.recalculateDayMealTotals,
      DayMeal.set_completed, DayMeal.set_totalCalories, DayMeal.set_meals;
    cbn [DayMeal.date DayMeal.day DayMeal.meals DayMeal.completed
         DayMeal.totalCalories];
    rewrite ?Hall, ?Bool.orb_true_r, ?Bool.orb_false_r; repeat split; auto.
Qed.


(** The conjunction the handler computes is the test of every slot. *)
Lemma allMealsCompleted_every (ms : Meals.t) :
  allMealsCompleted ms = everyMealCompleted ms.
Proof.
  unfold allMealsCompleted, everyMealCompleted, mealsOf. cbn [forallb].
  rewrite !Bool.andb_assoc. reflexivity.
Qed.


(** Replacing the entries of the selected date. *)
Lemma replaceDay_absent (selectedDate : Z) (d' : DayMeal.t) (days : list DayMeal.t) :
  ~ In selectedDate (map DayMeal.date days) ->
  replaceDay selectedDate d' days = days.
Proof.
  unfold replaceDay. induction days as [|m rest IH]; intros Hn; [reflexivity|].
  cbn [map] in *.
  destruct (Z.eqb_spec (DayMeal.date m) selectedDate) as [E|_].
  - exfalso. apply Hn. left. exact E.
  - f_equal. apply IH. intros Hin. apply Hn. right. exact Hin.
Qed.

Lemma replaceDay_dates (selectedDate : Z) (d' : DayMeal.t) (days : list DayMeal.t) :
  DayMeal.date d' = selectedDate ->
  map DayMeal.date (replaceDay selectedDate d' days) = map DayMeal.date days.
Proof.
  intros Hd. unfold replaceDay. induction days as [|m rest IH]; [reflexivity|].
  cbn [map]. rewrite IH. f_equal.
  destruct (Z.eqb_spec (DayMeal.date m) selectedDate) as [E|_]; congruence.
Qed.

Lemma replaceDay_length (selectedDate : Z) (d' : DayMeal.t) (days : list DayMeal.t) :
  List.length (replaceDay selectedDate d' days) = List.length days.
Proof. apply length_map. Qed.



Lemma NoDup_sameFlagsPerDate (days : list DayMeal.t) :
  NoDup (map DayMeal.date days) -> sameFlagsPerDate days.
Proof.
  intros Hnd d1 d2 H1 H2 E.
  destruct (In_nth_error _ _ H1) as [i Hi].
  destruct (In_nth_error _ _ H2) as [j Hj].
  assert (Eij : i = j).
  { rewrite NoDup_nth_error in Hnd. apply Hnd.
    - rewrite length_map. apply nth_error_Some. rewrite Hi. discriminate.
    - rewrite !nth_error_map, Hi, Hj. cbn [option_map]. f_equal. exact E. }
  subst j. rewrite Hi in Hj. injection Hj as ->. reflexivity.
Qed.





Lemma replaceDay_find (selectedDate : Z) (day d' : DayMeal.t)
    (days : list DayMeal.t) :
  DayMeal.date d' = selectedDate ->
  find (fun meal => DayMeal.date meal =? selectedDate) days = Some day ->
  find (fun meal => DayMeal.date meal =? selectedDate)
       (replaceDay selectedDate d' days) = Some d'.
Proof.
  intros Hd. unfold replaceDay. induction days as [|m rest IH]; [discriminate|].
  cbn [map find].
  destruct (Z.eqb_spec (DayMeal.date m) selectedDate) as [E|N].
  - intros _. rewrite Hd, Z.eqb_refl. reflexivity.
  - destruct (Z.eqb_spec (DayMeal.date m) selectedDate); [contradiction|].
    exact IH.
Qed.

Lemma countCompleted_bounds (days : list DayMeal.t) :
  0 <= countCompleted days <= Z.of_nat (List.length days).
Proof.
  unfold countCompleted. split; [lia|].
  apply inj_le. apply filter_length_le.
Qed.


(** Generated days carry the dates of their day numbers and consistent
    flags; the dates are distinct when the day numbers are dated apart. *)
Lemma generatedDays_dates (targets : NutritionTargets.t) (dateOf : Z -> Z)
    (ds : list DayMeal.t) :
  forall from, generatedDays targets dateOf from ds ->
    (forall x, In x (map DayMeal.date ds) ->
       exists k, from <= k < from + Z.of_nat (List.length ds) /\ x = dateOf k) /\
    ((forall i j, from <= i < from + Z.of_nat (List.length ds) ->
                  from <= j < from + Z.of_nat (List.length ds) ->
                  dateOf i = dateOf j -> i = j) ->
     NoDup (map DayMeal.date ds)) /\
    forallb consistentDay ds = true.
Proof.
  induction ds as [|d ds IH]; intros from H.
  - repeat split; [intros x []|constructor].
  - destruct H as [(b & l & dn & s & -> & [Hb _] & _) Hrest].
    destruct (IH _ Hrest) as (Hlow & Hnd & Hcons).
    cbn [map DayMeal.date forallb List.length]. split; [|split].
    + intros x [<-|Hx]; [exists from; split; [lia|reflexivity]|].
      destruct (Hlow x Hx) as (k & Hk & ->). exists k. split; [lia|reflexivity].
    + intros Hinj. constructor.
      * intros Hin. destruct (Hlow _ Hin) as (k & Hk & E).
        apply Hinj in E; lia.
      * apply Hnd. intros i j Hi Hj. apply Hinj; lia.
    + rewrite Hcons. unfold consistentDay, everyMealCompleted, mealsOf. cbn.
      rewrite Hb. reflexivity.
Qed.

(** Generated days all carry the same flags: nothing is completed and
    there is one snack. *)
Lemma generatedDays_flags (targets : NutritionTargets.t) (dateOf : Z -> Z)
    (ds : list DayMeal.t) :
  forall from, generatedDays targets dateOf from ds ->
    forall d, In d ds -> flagsOf d = (false, [false; false; false; false]).
Proof.
  induction ds as [|x ds IH]; intros from H d Hd; [destruct Hd|].
  destruct H as [(b & l & dn & s & -> & [Hb _] & [Hl _] & [Hdn _] & [Hs _]) Hrest].
  destruct Hd as [<-|Hd]; [|exact (IH _ Hrest d Hd)].
  unfold flagsOf, mealsOf. cbn. rewrite Hb, Hl, Hdn, Hs. reflexivity.
Qed.

(** A generated plan is a tracked plan, also when the generator dates
    two of its days alike, as the local-time arithmetic of the source
    does on the day of a daylight-saving change. *)
Lemma generated_plan_tracked (env : AIService.Env) (profile : UserProfile.t) :
  0 <= UserProfile.planDuration profile ->
  exists plan,
    AIService.generateDietPlan env profile = Ok plan /\ trackedPlan plan.
Proof.
  intros Hpos.
  destruct (generateDietPlan_ok env profile) as (ds & E & _ & Hlen & Hds).
  eexists. split; [exact E|].
  destruct (generatedDays_dates _ _ _ _ Hds) as (_ & _ & Hcons).
  unfold trackedPlan, AIService.planOf.
  cbn [DietPlan.duration DietPlan.meals DietPlan.progress Progress.totalDays].
  rewrite Hlen, Z2Nat.id by exact Hpos.
  split; [reflexivity|]. split; [reflexivity|]. split; [|exact Hcons].
  intros d1 d2 H1 H2 _.
  rewrite (generatedDays_flags _ _ _ _ Hds d1 H1).
  rewrite (generatedDays_flags _ _ _ _ Hds d2 H2). reflexivity.
Qed.

(** Without an active plan, or without a day at the selected date, the
    handler leaves the state as it is. *)
Lemma handleMealComplete_without_day (st : State) (mealType : MealType)
    (snackIndex : option Z) :
  match activePlan st with
  | Some plan => currentDayMeal plan (Dashboard.selectedDate st) = None
  | None => True
  end ->
  handleMealComplete st mealType snackIndex = Ok st.
Proof.
  unfold handleMealComplete. destruct (activePlan st) as [plan|];
    [intros -> | intros _]; reflexivity.
Qed.




(** Three of the four slots leave the day open; the fourth completes it.
    On a fresh 7-day plan this is 1 day of 7, hence 14 percent. *)
Example three_slots_leave_the_day_open :
  (plan <- AIService.generateDietPlan Sample.offline
             (Sample.adult "maintenance" "omnivore" 7) ;;
   s1 <- handleMealComplete (mkState (Some plan) 20000) breakfast None ;;
   s2 <- handleMealComplete s1 lunch None ;;
   s3 <- handleMealComplete s2 dinner None ;;
   s4 <- handleMealComplete s3 snack (Some 0) ;;
   Ok (Sample.summary s3, Sample.summary s4))
  = Ok (Some (Some false, Progress.mk (int 0) (int 7) (int 0)),
        Some (Some true, Progress.mk (int 1) (int 7) (int 14))).
Proof. vm_compute. reflexivity. Qed.

(** Two days of one date: the handler replaces both entries by the day
    it rebuilds, so both follow the marks and both count as completed. *)
Example days_of_one_date_are_completed_together :
  (plan <- AIService.generateDietPlan Sample.acrossClockChange
             (Sample.adult "maintenance" "omnivore" 7) ;;
   s1 <- handleMealComplete (mkState (Some plan) 20001) breakfast None ;;
   s2 <- handleMealComplete s1 lunch None ;;
   s3 <- handleMealComplete s2 dinner None ;;
   s4 <- handleMealComplete s3 snack (Some 0) ;;
   Ok (map DayMeal.date (DietPlan.meals plan),
       Sample.summary s3, Sample.summary s4))
  = Ok ([20000; 20001; 20001; 20002; 20003; 20004; 20005],
        Some (Some false, Progress.mk (int 0) (int 7) (int 0)),
        Some (Some true, Progress.mk (int 2) (int 7) (int 29))).
Proof. vm_compute. reflexivity. Qed.

(** A snack index outside the array makes the handler throw. *)
Example snack_index_out_of_range :
  handleMealComplete Sample.atFirstDay snack (Some 1) = Throw TypeError.
Proof. reflexivity. Qed.

End Completion.

(* ================================================================== *)
(** * Further properties *)

(** ** Goals of the tracker on valid profiles *)

Section TrackerGoals.

Import NutritionTrackingService.
Local Open Scope string_scope.
Local Open Scope Z_scope.

Lemma between_Fin (lo hi : Z) (v : number) :
  between lo hi v = true ->
  exists q, v = Fin q /\ (inject_Z lo <= q <= inject_Z hi)%Q.
Proof.
  intros H. destruct (between_finite _ _ _ H) as [q ->].
  exists q. split; [reflexivity|].
  unfold between, int in H. apply Bool.andb_true_iff in H.
  destruct H as [H1 H2]. apply leb_Fin in H1. apply leb_Fin in H2. auto.
Qed.

(** The BMR of the tracker on finite data, as a rational. *)
Lemma bmr_value (g l : string) (a w h : Q) :
  exists b,
    bmr_of (PersonalDetails.mk (Fin a) g (Fin w) (Fin h) l) = Fin b /\
    (b == 10 * w + 6.25 * h - 5 * a + (if String.eqb g "male" then 5 else -161))%Q.
Proof.
  unfold bmr_of. cbn [PersonalDetails.gender PersonalDetails.weight
    PersonalDetails.height PersonalDetails.age].
  destruct (String.eqb g "male"); cbn [sub neg add mul int];
    eexists; (split; [reflexivity|]); rewrite !Qred_correct;
    change (inject_Z 10) with 10%Q; change (inject_Z 5) with 5%Q;
    change (inject_Z 161) with 161%Q; ring.
Qed.

Lemma activityFactor_value (level : string) :
  exists m, activityFactor level = Fin m /\ (1.2 <= m <= 1.9)%Q.
Proof.
  unfold activityFactor.
  repeat match goal with
         | |- context [if ?c then _ else _] => destruct c
         end; eexists; (split; [reflexivity|]); lra.
Qed.

Lemma goalTdee_value (p : UserProfile.t) (a w h : Q) (g l : string) :
  UserProfile.personalDetails p = PersonalDetails.mk (Fin a) g (Fin w) (Fin h) l ->
  (30 <= w)%Q -> (100 <= h)%Q -> (a <= 120)%Q ->
  exists t, goalTdee p = Fin t /\ (167 <= t)%Q.
Proof.
  intros Hd Hw Hh Ha. unfold goalTdee, tdee_of. rewrite Hd.
  destruct (bmr_value g l a w h) as (b & -> & Hb).
  cbn [PersonalDetails.activityLevel].
  destruct (activityFactor_value l) as (m & -> & Hm).
  assert (Hb164 : (164 <= b)%Q).
  { rewrite Hb. destruct (String.eqb g "male"); lra. }
  assert (Hbm : (164 * 1.2 <= b * m)%Q).
  { apply Qle_trans with (b * 1.2)%Q; [lra|].
    rewrite !(Qmult_comm b). apply Qmult_le_compat_r; lra. }
  destruct (is_goal _ "weight_loss");
    [|destruct (is_goal _ "muscle_gain")];
    cbn [mul]; eexists; (split; [reflexivity|]);
    rewrite !Qred_correct; lra.
Qed.

Lemma macroRatios_value (dietType : string) :
  exists pr fr cr,
    macroRatios dietType = (Fin pr, Fin fr, Fin cr) /\
    (0.2 <= pr)%Q /\ (0.3 <= fr)%Q /\ (0.05 <= cr)%Q.
Proof.
  unfold macroRatios.
  repeat match goal with
         | |- context [if ?c then _ else _] => destruct c
         end; do 3 eexists; (split; [reflexivity|]); repeat split; lra.
Qed.

Lemma round_Z_lower (x : Q) (lo : Z) :
  (inject_Z lo <= x)%Q -> lo <= round_Z x.
Proof.
  intros H. destruct (round_Z_bounds x) as [H1 _].
  assert (E : lo - 1 < round_Z x); [|lia].
  rewrite Zlt_Qlt. unfold Z.sub. rewrite inject_Z_plus, inject_Z_opp.
  change (inject_Z 1) with 1%Q. lra.
Qed.

Lemma round_Z_upper (x : Q) (hi : Z) :
  (x <= inject_Z hi)%Q -> round_Z x <= hi.
Proof.
  intros H. destruct (round_Z_bounds x) as [_ H2].
  assert (E : round_Z x < hi + 1); [|lia].
  rewrite Zlt_Qlt, inject_Z_plus. change (inject_Z 1) with 1%Q. lra.
Qed.

(** The goals of a valid profile, with their lower bounds. *)
Lemma calculateDailyNutritionGoals_valid (p : UserProfile.t) :
  validProfile p = true ->
  exists calories protein carbs fat fiber : Z,
    NutritionData.calories (calculateDailyNutritionGoals p) = int calories /\
    NutritionData.protein (calculateDailyNutritionGoals p) = int protein /\
    NutritionData.carbs (calculateDailyNutritionGoals p) = int carbs /\
    NutritionData.fat (calculateDailyNutritionGoals p) = int fat /\
    NutritionData.fiber (calculateDailyNutritionGoals p) = int fiber /\
    167 <= calories /\ 8 <= protein /\ 2 <= carbs /\ 5 <= fat /\
    17 <= fiber <= 70.
Proof.
  intros Hv. unfold validProfile in Hv. cbv zeta in Hv.
  rewrite !Bool.andb_true_iff in Hv.
  destruct Hv as ((((((((Ha & Hw) & Hh) & _) & _) & _) & _) & _) & _).
  destruct (between_Fin _ _ _ Ha) as (a & Ea & Ha1 & Ha2).
  destruct (between_Fin _ _ _ Hw) as (w & Ew & Hw1 & Hw2).
  destruct (between_Fin _ _ _ Hh) as (h & Eh & Hh1 & Hh2).
  change (inject_Z 13) with 13%Q in *. change (inject_Z 120) with 120%Q in *.
  change (inject_Z 30) with 30%Q in *. change (inject_Z 100) with 100%Q in *.
  assert (Hd : UserProfile.personalDetails p
               = PersonalDetails.mk (Fin a)
                   (PersonalDetails.gender (UserProfile.personalDetails p))
                   (Fin w) (Fin h)
                   (PersonalDetails.activityLevel (UserProfile.personalDetails p))).
  { destruct (UserProfile.personalDetails p). cbn in *. congruence. }
  destruct (goalTdee_value p a w h _ _ Hd Hw1 Hh1 Ha2) as (t & Et & Ht).
  destruct (macroRatios_value (UserProfile.dietType p))
    as (pr & fr & cr & Er & Hpr & Hfr & Hcr).
  unfold calculateDailyNutritionGoals. rewrite Et, Er, Ea.
  cbn [NutritionData.calories NutritionData.protein NutritionData.carbs
       NutritionData.fat NutritionData.fiber].
  rewrite !grams_of_ratio by discriminate.
  cbn [mul add int Math_round].
  do 5 eexists. repeat (split; [reflexivity|]).
  change (inject_Z 4) with 4%Q. change (inject_Z 9) with 9%Q.
  assert (Hp : (inject_Z 8 <= t * pr / 4)%Q).
  { change (inject_Z 8) with 8%Q. apply Qle_shift_div_l; [lra|].
    apply Qle_trans with (167 * 0.2)%Q; [lra|].
    apply Qle_trans with (t * 0.2)%Q; [lra|].
    rewrite !(Qmult_comm t). apply Qmult_le_compat_r; lra. }
  assert (Hc : (inject_Z 2 <= t * cr / 4)%Q).
  { change (inject_Z 2) with 2%Q. apply Qle_shift_div_l; [lra|].
    apply Qle_trans with (167 * 0.05)%Q; [lra|].
    apply Qle_trans with (t * 0.05)%Q; [lra|].
    rewrite !(Qmult_comm t). apply Qmult_le_compat_r; lra. }
  assert (Hf : (inject_Z 5 <= t * fr / 9)%Q).
  { change (inject_Z 5) with 5%Q. apply Qle_shift_div_l; [lra|].
    apply Qle_trans with (167 * 0.3)%Q; [lra|].
    apply Qle_trans with (t * 0.3)%Q; [lra|].
    rewrite !(Qmult_comm t). apply Qmult_le_compat_r; lra. }
  repeat split.
  - apply round_Z_lower. change (inject_Z 167) with 167%Q. lra.
  - apply round_Z_lower. exact Hp.
  - apply round_Z_lower. exact Hc.
  - apply round_Z_lower. exact Hf.
  - match goal with |- _ <= round_Z ?y => set (x := y) end.
    assert (Hx : (x == a * 0.5 + 10)%Q).
    { unfold x. rewrite !Qred_correct. reflexivity. }
    destruct (round_Z_bounds x) as [H1 _].
    assert (E : 16 < round_Z x); [|lia].
    rewrite Zlt_Qlt. change (inject_Z 16) with 16%Q. lra.
  - apply round_Z_upper. rewrite !Qred_correct.
    change (inject_Z 70) with 70%Q. change (inject_Z 10) with 10%Q. lra.
Qed.

(** X1.  For every valid profile the daily goals of the tracker are
    positive whole numbers: at least 167 kcal, 8 g protein, 2 g carbs,
    5 g fat, and between 17 and 70 g fiber.  No goal the percentages
    divide by is 0. *)
Theorem tracker_goals_are_positive (p : UserProfile.t) :
  validProfile p = true ->
  exists calories protein carbs fat fiber : Z,
    NutritionData.calories (calculateDailyNutritionGoals p) = int calories /\
    NutritionData.protein (calculateDailyNutritionGoals p) = int protein /\
    NutritionData.carbs (calculateDailyNutritionGoals p) = int carbs /\
    NutritionData.fat (calculateDailyNutritionGoals p) = int fat /\
    NutritionData.fiber (calculateDailyNutritionGoals p) = int fiber /\
    167 <= calories /\ 8 <= protein /\ 2 <= carbs /\ 5 <= fat /\
    17 <= fiber <= 70.
Proof. exact (calculateDailyNutritionGoals_valid p). Qed.

Lemma tracker_goals_are_positive_witness :
  validProfile (Sample.adult "weight_loss" "keto" 30) = true /\
  exists calories protein carbs fat fiber : Z,
    NutritionData.calories
      (calculateDailyNutritionGoals (Sample.adult "weight_loss" "keto" 30))
    = int calories /\
    NutritionData.protein
      (calculateDailyNutritionGoals (Sample.adult "weight_loss" "keto" 30))
    = int protein /\
    NutritionData.carbs
      (calculateDailyNutritionGoals (Sample.adult "weight_loss" "keto" 30))
    = int carbs /\
    NutritionData.fat
      (calculateDailyNutritionGoals (Sample.adult "weight_loss" "keto" 30))
    = int fat /\
    NutritionData.fiber
      (calculateDailyNutritionGoals (Sample.adult "weight_loss" "keto" 30))
    = int fiber /\
    167 <= calories /\ 8 <= protein /\ 2 <= carbs /\ 5 <= fat /\
    17 <= fiber <= 70.
Proof.
  split; [reflexivity|].
  exact (tracker_goals_are_positive (Sample.adult "weight_loss" "keto" 30) eq_refl).
Defined.

End TrackerGoals.

(** ** Nutrition of the completed meals *)

Section CompletedNutrition.

Import NutritionTrackingService.
Local Open Scope list_scope.
Local Open Scope Z_scope.

Lemma or_else_finite' (o : option number) :
  finiteOpt o -> finite (or_else o (int 0)).
Proof.
  intros H. destruct (or_else_finite o H) as [q ->]. exact I.
Qed.

Lemma add_finite (x y : number) : finite x -> finite y -> finite (add x y).
Proof. destruct x, y; simpl; intros; try contradiction; exact I. Qed.

Lemma plus0_finite (a b : option number) :
  finiteOpt a -> finiteOpt b -> finiteOpt (plus0 a b).
Proof.
  intros Ha Hb. unfold plus0. cbn [finiteOpt].
  apply add_finite; apply or_else_finite'; assumption.
Qed.

Lemma or0_finite (a : option number) : finiteOpt a -> finiteOpt (or0 a).
Proof. intros Ha. unfold or0. cbn [finiteOpt]. apply or_else_finite'. exact Ha. Qed.

Lemma calculateMealNutrition_finite (meal : Meal.t) :
  finiteData (Meal.nutrition meal) -> finiteData (calculateMealNutrition meal).
Proof.
  intros (H1 & H2 & H3 & H4 & H5 & H6 & H7 & H8 & Hv & Hm).
  unfold finiteVitamins in Hv. unfold finiteMinerals in Hm. cbv zeta in Hv, Hm.
  unfold calculateMealNutrition, finiteData, finiteVitamins, finiteMinerals.
  cbn [NutritionData.calories NutritionData.protein NutritionData.carbs
       NutritionData.fat NutritionData.fiber NutritionData.sugar
       NutritionData.sodium NutritionData.cholesterol NutritionData.vitamins
       NutritionData.minerals opt
       Vitamins.vitaminA Vitamins.vitaminC Vitamins.vitaminD Vitamins.vitaminE
       Vitamins.vitaminK Vitamins.thiamin Vitamins.riboflavin Vitamins.niacin
       Vitamins.vitaminB6 Vitamins.folate Vitamins.vitaminB12
       Minerals.calcium Minerals.iron Minerals.magnesium Minerals.phosphorus
       Minerals.potassium Minerals.zinc Minerals.copper Minerals.manganese
       Minerals.selenium].
  repeat match goal with H : _ /\ _ |- _ => destruct H end.
  repeat split;
    first [ apply or0_finite; assumption
          | apply (or_else_finite' (Some _)); assumption ].
Qed.

Lemma addNutritionData_finite (a b : NutritionData.t) :
  finiteData a -> finiteData b -> finiteData (addNutritionData a b).
Proof.
  intros (A1 & A2 & A3 & A4 & A5 & A6 & A7 & A8 & Av & Am)
         (B1 & B2 & B3 & B4 & B5 & B6 & B7 & B8 & Bv & Bm).
  unfold finiteVitamins in Av, Bv. unfold finiteMinerals in Am, Bm.
  cbv zeta in Av, Bv, Am, Bm.
  unfold addNutritionData, finiteData, finiteVitamins, finiteMinerals.
  cbn [NutritionData.calories NutritionData.protein NutritionData.carbs
       NutritionData.fat NutritionData.fiber NutritionData.sugar
       NutritionData.sodium NutritionData.cholesterol NutritionData.vitamins
       NutritionData.minerals
       Vitamins.vitaminA Vitamins.vitaminC Vitamins.vitaminD Vitamins.vitaminE
       Vitamins.vitaminK Vitamins.thiamin Vitamins.riboflavin Vitamins.niacin
       Vitamins.vitaminB6 Vitamins.folate Vitamins.vitaminB12
       Minerals.calcium Minerals.iron Minerals.magnesium Minerals.phosphorus
       Minerals.potassium Minerals.zinc Minerals.copper Minerals.manganese
       Minerals.selenium].
  cbv zeta.
  cbn [opt Vitamins.vitaminA Vitamins.vitaminC Vitamins.vitaminD Vitamins.vitaminE
       Vitamins.vitaminK Vitamins.thiamin Vitamins.riboflavin Vitamins.niacin
       Vitamins.vitaminB6 Vitamins.folate Vitamins.vitaminB12
       Minerals.calcium Minerals.iron Minerals.magnesium Minerals.phosphorus
       Minerals.potassium Minerals.zinc Minerals.copper Minerals.manganese
       Minerals.selenium].
  repeat match goal with H : _ /\ _ |- _ => destruct H end.
  repeat split;
    first [ apply plus0_finite; assumption
          | apply add_finite;
            first [ assumption | apply (or_else_finite' (Some _)); assumption ] ].
Qed.

Lemma createEmptyNutritionData_finite : finiteData createEmptyNutritionData.
Proof. repeat split. Qed.


Lemma fold_addIfCompleted_none (snacks : list Meal.t) (acc : NutritionData.t) :
  forallb (fun s => negb (Meal.completed s)) snacks = true ->
  fold_left addIfCompleted snacks acc = acc.
Proof.
  revert acc. induction snacks as [|s rest IH]; intros acc H; [reflexivity|].
  cbn [forallb] in H. apply Bool.andb_true_iff in H. destruct H as [Hs Hr].
  cbn [fold_left]. unfold addIfCompleted at 2.
  destruct (Meal.completed s); [discriminate|]. apply IH. exact Hr.
Qed.

Lemma calculateCompletedNutrition_unstarted (dayMeal : DayMeal.t) :
  unstartedMeals (DayMeal.meals dayMeal) = true ->
  calculateCompletedNutrition dayMeal = createEmptyNutritionData.
Proof.
  intros H. unfold unstartedMeals in H. rewrite !Bool.andb_true_iff in H.
  destruct H as (((Hb & Hl) & Hd) & Hs).
  unfold calculateCompletedNutrition. cbv zeta. unfold addIfCompleted at 2 3 4.
  destruct (Meal.completed (Meals.breakfast (DayMeal.meals dayMeal)));
    [discriminate|].
  destruct (Meal.completed (Meals.lunch (DayMeal.meals dayMeal)));
    [discriminate|].
  destruct (Meal.completed (Meals.dinner (DayMeal.meals dayMeal)));
    [discriminate|].
  apply fold_addIfCompleted_none. exact Hs.
Qed.

(** X2.  While no meal of a day is marked, the nutrition of its
    completed meals is the empty record: every field is 0, whatever the
    meals contain. *)
Theorem completed_nutrition_of_unstarted_day (dayMeal : DayMeal.t) :
  unstartedMeals (DayMeal.meals dayMeal) = true ->
  calculateCompletedNutrition dayMeal = createEmptyNutritionData.
Proof. exact (calculateCompletedNutrition_unstarted dayMeal). Qed.

Lemma completed_nutrition_of_unstarted_day_witness :
  unstartedMeals
    (DayMeal.meals (Sample.day 2 20001 false false false false false)) = true /\
  calculateCompletedNutrition (Sample.day 2 20001 false false false false false)
  = createEmptyNutritionData.
Proof.
  split; [reflexivity|].
  exact (completed_nutrition_of_unstarted_day
           (Sample.day 2 20001 false false false false false) eq_refl).
Defined.

Lemma fold_addIfCompleted_all (snacks : list Meal.t) (acc : NutritionData.t) :
  forallb Meal.completed snacks = true ->
  fold_left addIfCompleted snacks acc
  = fold_left (fun acc snack => addNutritionData acc (calculateMealNutrition snack))
      snacks acc.
Proof.
  revert acc. induction snacks as [|s rest IH]; intros acc H; [reflexivity|].
  cbn [forallb] in H. apply Bool.andb_true_iff in H. destruct H as [Hs Hr].
  cbn [fold_left]. unfold addIfCompleted at 2. rewrite Hs. apply IH. exact Hr.
Qed.

Lemma fold_add_finite (snacks : list Meal.t) :
  Forall (fun m => finiteData (Meal.nutrition m)) snacks ->
  forall acc, finiteData acc ->
  finiteData
    (fold_left (fun acc snack => addNutritionData acc (calculateMealNutrition snack))
       snacks acc).
Proof.
  induction 1 as [|s rest Hs Hr IH]; intros acc Ha; [exact Ha|].
  cbn [fold_left]. apply IH. apply addNutritionData_finite; [exact Ha|].
  apply calculateMealNutrition_finite. exact Hs.
Qed.

(** A sum may be taken out of the running total of the snacks. *)
Lemma fold_add_shift (snacks : list Meal.t) :
  Forall (fun m => finiteData (Meal.nutrition m)) snacks ->
  forall a c, finiteData a -> finiteData c ->
  fold_left (fun acc snack => addNutritionData acc (calculateMealNutrition snack))
    snacks (addNutritionData a c)
  = addNutritionData a
      (fold_left (fun acc snack => addNutritionData acc (calculateMealNutrition snack))
         snacks c).
Proof.
  induction 1 as [|s rest Hs Hr IH]; intros a c Ha Hc; [reflexivity|].
  cbn [fold_left].
  assert (Hn : finiteData (calculateMealNutrition s))
    by (apply calculateMealNutrition_finite; exact Hs).
  rewrite addNutritionData_assoc by assumption.
  apply IH; [exact Ha|]. apply addNutritionData_finite; assumption.
Qed.

(** With finite values the two sums agree in exact arithmetic, although
    they are taken in different orders. *)
Lemma completed_nutrition_all (dayMeal : DayMeal.t) :
  Forall (fun m => finiteData (Meal.nutrition m)) (mealsOf (DayMeal.meals dayMeal)) ->
  Dashboard.allMealsCompleted (DayMeal.meals dayMeal) = true ->
  calculateCompletedNutrition dayMeal = calculateDayNutrition dayMeal.
Proof.
  intros Hf Hc. unfold mealsOf in Hf.
  inversion Hf as [|? ? Fb Hf1]; subst. inversion Hf1 as [|? ? Fl Hf2]; subst.
  inversion Hf2 as [|? ? Fd Fs]; subst.
  unfold Dashboard.allMealsCompleted in Hc. rewrite !Bool.andb_true_iff in Hc.
  destruct Hc as (((Hb & Hl) & Hd) & Hs).
  unfold calculateCompletedNutrition, calculateDayNutrition. cbv zeta.
  unfold addIfCompleted at 2 3 4. rewrite Hb, Hl, Hd.
  rewrite (fold_addIfCompleted_all _ _ Hs).
  set (b := calculateMealNutrition (Meals.breakfast (DayMeal.meals dayMeal))).
  set (l := calculateMealNutrition (Meals.lunch (DayMeal.meals dayMeal))).
  set (d := calculateMealNutrition (Meals.dinner (DayMeal.meals dayMeal))).
  set (E := createEmptyNutritionData).
  assert (Nb : finiteData b) by (apply calculateMealNutrition_finite; exact Fb).
  assert (Nl : finiteData l) by (apply calculateMealNutrition_finite; exact Fl).
  assert (Nd : finiteData d) by (apply calculateMealNutrition_finite; exact Fd).
  assert (NE : finiteData E) by apply createEmptyNutritionData_finite.
  assert (Nbl : finiteData (addNutritionData b l))
    by (apply addNutritionData_finite; assumption).
  assert (R : addNutritionData (addNutritionData (addNutritionData E b) l) d
              = addNutritionData (addNutritionData (addNutritionData b l) d) E).
  { rewrite (addNutritionData_comm E b).
    rewrite (addNutritionData_assoc b E l) by assumption.
    rewrite (addNutritionData_comm E l).
    rewrite <- (addNutritionData_assoc b l E) by assumption.
    rewrite (addNutritionData_assoc (addNutritionData b l) E d) by assumption.
    rewrite (addNutritionData_comm E d).
    rewrite <- (addNutritionData_assoc (addNutritionData b l) d E) by assumption.
    reflexivity. }
  rewrite R. apply fold_add_shift; [exact Fs| |exact NE].
  apply addNutritionData_finite; assumption.
Qed.

Lemma wholeMeals_finite (bound : Z) (ms : Meals.t) :
  wholeMeals bound ms ->
  Forall (fun m => finiteData (Meal.nutrition m)) (mealsOf ms).
Proof.
  intros [H _]. eapply Forall_impl; [|exact H].
  intros m. apply wholeData_finite.
Qed.

(** X3.  Once every meal of a day is marked, the nutrition of the
    completed meals is the nutrition of the day, although the two are
    summed in different orders; for meals whose values are whole numbers
    of magnitude at most 2^40, with at most a thousand snacks. *)
Theorem completed_nutrition_of_completed_day (dayMeal : DayMeal.t) :
  wholeMeals (2 ^ 40) (DayMeal.meals dayMeal) ->
  everyMealCompleted (DayMeal.meals dayMeal) = true ->
  calculateCompletedNutrition dayMeal = calculateDayNutrition dayMeal.
Proof.
  intros Hw Hc. apply completed_nutrition_all.
  - exact (wholeMeals_finite _ _ Hw).
  - rewrite allMealsCompleted_every. exact Hc.
Qed.

Lemma completed_nutrition_of_completed_day_witness :
  wholeMeals (2 ^ 40)
    (DayMeal.meals (Sample.day 1 20000 true true true true true)) /\
  everyMealCompleted
    (DayMeal.meals (Sample.day 1 20000 true true true true true)) = true /\
  calculateCompletedNutrition (Sample.day 1 20000 true true true true true)
  = calculateDayNutrition (Sample.day 1 20000 true true true true true).
Proof.
  assert (F : wholeMeals (2 ^ 40)
                (DayMeal.meals (Sample.day 1 20000 true true true true true))).
  { split; [|cbn; lia]. repeat constructor; whole_data. }
  split; [exact F|]. split; [reflexivity|].
  exact (completed_nutrition_of_completed_day
           (Sample.day 1 20000 true true true true true) F eq_refl).
Defined.

End CompletedNutrition.

(** ** The daily report *)

Section DailyReport.

Import NutritionTrackingService NutritionReporting.
Local Open Scope string_scope.
Local Open Scope list_scope.
Local Open Scope Z_scope.

Lemma nonNegative_Fin (x : number) :
  nonNegative x -> exists q, x = Fin q /\ (0 <= q)%Q.
Proof. destruct x; simpl; intros H; try contradiction. eauto. Qed.

Lemma or0_nonNegative (x : number) :
  nonNegative x -> nonNegative (or_else (Some x) (int 0)).
Proof.
  intros H. destruct (nonNegative_Fin x H) as (q & -> & Hq).
  cbn [or_else truthy]. destruct (negb (Qeq_bool q 0)); simpl; [exact Hq|].
  apply Qle_refl.
Qed.

Lemma add_nonNegative (x y : number) :
  nonNegative x -> nonNegative y -> nonNegative (add x y).
Proof.
  intros Hx Hy. destruct (nonNegative_Fin x Hx) as (a & -> & Ha).
  destruct (nonNegative_Fin y Hy) as (b & -> & Hb).
  cbn [add nonNegative]. rewrite Qred_correct. lra.
Qed.

Lemma calculateMealNutrition_measured (meal : Meal.t) :
  measured (Meal.nutrition meal) -> measured (calculateMealNutrition meal).
Proof.
  intros (H1 & H2 & H3 & H4 & H5).
  unfold measured, calculateMealNutrition.
  cbn [NutritionData.calories NutritionData.protein NutritionData.carbs
       NutritionData.fat NutritionData.fiber].
  repeat split; apply or0_nonNegative; assumption.
Qed.

Lemma addNutritionData_measured (a b : NutritionData.t) :
  measured a -> measured b -> measured (addNutritionData a b).
Proof.
  intros (A1 & A2 & A3 & A4 & A5) (B1 & B2 & B3 & B4 & B5).
  unfold measured, addNutritionData.
  cbn [NutritionData.calories NutritionData.protein NutritionData.carbs
       NutritionData.fat NutritionData.fiber].
  repeat split; apply add_nonNegative;
    first [assumption | apply or0_nonNegative; assumption].
Qed.

Lemma addIfCompleted_measured (acc : NutritionData.t) (meal : Meal.t) :
  measured acc -> measured (Meal.nutrition meal) ->
  measured (addIfCompleted acc meal).
Proof.
  intros Ha Hm. unfold addIfCompleted. destruct (Meal.completed meal); [|exact Ha].
  apply addNutritionData_measured; [exact Ha|].
  apply calculateMealNutrition_measured. exact Hm.
Qed.

Lemma calculateCompletedNutrition_measured (dayMeal : DayMeal.t) :
  Forall (fun m => measured (Meal.nutrition m)) (mealsOf (DayMeal.meals dayMeal)) ->
  measured (calculateCompletedNutrition dayMeal).
Proof.
  intros Hf. unfold mealsOf in Hf.
  inversion Hf as [|? ? Fb Hf1]; subst. inversion Hf1 as [|? ? Fl Hf2]; subst.
  inversion Hf2 as [|? ? Fd Fs]; subst.
  unfold calculateCompletedNutrition. cbv zeta.
  match goal with
  | |- measured (fold_left _ _ ?n) =>
      assert (H3 : measured n);
        [ repeat (apply addIfCompleted_measured; [|assumption]);
          repeat split; simpl; apply Qle_refl
        | generalize dependent n ]
  end.
  induction Fs as [|s rest Hs Hr IH]; intros n Hn; [exact Hn|].
  cbn [fold_left]. apply IH.
  - constructor; [exact Fb|]. constructor; [exact Fl|]. constructor; [exact Fd|].
    exact Hr.
  - constructor; [exact Fl|]. constructor; [exact Fd|]. exact Hr.
  - constructor; [exact Fd|]. exact Hr.
  - apply addIfCompleted_measured; assumption.
Qed.


Lemma percentOf_nonNegative (current : number) (t : Z) :
  nonNegative current -> 0 < t ->
  exists z, percentOf current (int t) = int z /\ 0 <= z.
Proof.
  intros Hc Ht. destruct (nonNegative_Fin current Hc) as (c & -> & Hc0).
  unfold int at 1. rewrite percentOf_nonzero.
  - eexists. split; [reflexivity|]. apply round_Z_lower.
    change (inject_Z 0) with 0%Q.
    assert (Hq : (0 < inject_Z t)%Q).
    { change 0%Q with (inject_Z 0). rewrite <- Zlt_Qlt. exact Ht. }
    apply Qmult_le_0_compat; [|lra].
    apply Qle_shift_div_l; [exact Hq|]. lra.
  - intros H. assert (E : t = 0); [|lia].
    apply (proj1 (inject_Z_injective t 0)). exact H.
Qed.

Lemma daily_report_measured (dayMeal : DayMeal.t)
    (userProfile : UserProfile.t) :
  validProfile userProfile = true ->
  Forall (fun m => measured (Meal.nutrition m)) (mealsOf (DayMeal.meals dayMeal)) ->
  exists calories protein carbs fat fiber score : Z,
    NutritionProgress.percentage
      (NutritionReport.goals (generateDailyReport dayMeal userProfile))
    = Percentage.mk (int calories) (int protein) (int carbs) (int fat) (int fiber) /\
    0 <= calories /\ 0 <= protein /\ 0 <= carbs /\ 0 <= fat /\ 0 <= fiber /\
    NutritionReport.score (generateDailyReport dayMeal userProfile) = int score /\
    0 <= score <= 102.
Proof.
  intros Hv Hm.
  destruct (calculateDailyNutritionGoals_valid userProfile Hv)
    as (tc & tp & tb & tf & ti & Ec & Ep & Eb & Ef & Ei & Hc & Hp & Hb & Hf & Hi).
  destruct (calculateCompletedNutrition_measured dayMeal Hm)
    as (Mc & Mp & Mb & Mf & Mi).
  unfold generateDailyReport. cbv zeta.
  cbn [NutritionReport.goals NutritionReport.score].
  set (cur := calculateCompletedNutrition dayMeal) in *.
  set (tgt := calculateDailyNutritionGoals userProfile) in *.
  assert (P : exists c p b f i : Z,
             NutritionProgress.percentage (calculateNutritionProgress cur tgt)
             = Percentage.mk (int c) (int p) (int b) (int f) (int i) /\
             0 <= c /\ 0 <= p /\ 0 <= b /\ 0 <= f /\ 0 <= i).
  { unfold calculateNutritionProgress. cbv zeta.
    cbn [NutritionProgress.percentage]. rewrite Ec, Ep, Eb, Ef, Ei.
    destruct (percentOf_nonNegative _ tc Mc) as (c & -> & Hc0); [lia|].
    destruct (percentOf_nonNegative _ tp Mp) as (p & -> & Hp0); [lia|].
    destruct (percentOf_nonNegative _ tb Mb) as (b & -> & Hb0); [lia|].
    destruct (percentOf_nonNegative _ tf Mf) as (f & -> & Hf0); [lia|].
    destruct (percentOf_nonNegative _ ti Mi) as (i & -> & Hi0); [lia|].
    exists c, p, b, f, i. repeat split; assumption. }
  destruct P as (c & p & b & f & i & EP & Hc0 & Hp0 & Hb0 & Hf0 & Hi0).
  destruct (calculateNutritionScore_range (calculateNutritionProgress cur tgt)
              (inject_Z c) (inject_Z p) (inject_Z b) (inject_Z f) (inject_Z i) EP)
    as (s & Es & Hs & _).
  { change 0%Q with (inject_Z 0). rewrite <- Zle_Qle. exact Hi0. }
  exists c, p, b, f, i, s. repeat split; try assumption; lia.
Qed.

Lemma upTo_nonNegative (bound : Z) (x : number) : upTo bound x -> nonNegative x.
Proof. destruct x; simpl; [intros [H _]; exact H | | |]; exact (fun H => H). Qed.

Lemma measuredUpTo_measured (bound : Z) (d : NutritionData.t) :
  measuredUpTo bound d -> measured d.
Proof.
  intros (H1 & H2 & H3 & H4 & H5).
  repeat split; eapply upTo_nonNegative; eassumption.
Qed.

(** X4.  For a valid profile and meals whose five main values lie
    between 0 and 10^9, the daily report is a proper one: its five
    percentages are non-negative whole numbers, never Infinity or NaN,
    and its score is a whole number between 0 and 102. *)
Theorem daily_report_is_well_defined (dayMeal : DayMeal.t)
    (userProfile : UserProfile.t) :
  validProfile userProfile = true ->
  Forall (fun m => measuredUpTo (10 ^ 9) (Meal.nutrition m))
    (mealsOf (DayMeal.meals dayMeal)) ->
  exists calories protein carbs fat fiber score : Z,
    NutritionProgress.percentage
      (NutritionReport.goals (generateDailyReport dayMeal userProfile))
    = Percentage.mk (int calories) (int protein) (int carbs) (int fat) (int fiber) /\
    0 <= calories /\ 0 <= protein /\ 0 <= carbs /\ 0 <= fat /\ 0 <= fiber /\
    NutritionReport.score (generateDailyReport dayMeal userProfile) = int score /\
    0 <= score <= 102.
Proof.
  intros Hv Hm. apply daily_report_measured; [exact Hv|].
  eapply Forall_impl; [|exact Hm].
  intros m. apply measuredUpTo_measured.
Qed.

Lemma daily_report_is_well_defined_witness :
  validProfile (Sample.adult "maintenance" "omnivore" 7) = true /\
  Forall (fun m => measuredUpTo (10 ^ 9) (Meal.nutrition m))
    (mealsOf (DayMeal.meals (Sample.day 1 20000 true true true false false))) /\
  exists calories protein carbs fat fiber score : Z,
    NutritionProgress.percentage
      (NutritionReport.goals
         (generateDailyReport (Sample.day 1 20000 true true true false false)
            (Sample.adult "maintenance" "omnivore" 7)))
    = Percentage.mk (int calories) (int protein) (int carbs) (int fat) (int fiber) /\
    0 <= calories /\ 0 <= protein /\ 0 <= carbs /\ 0 <= fat /\ 0 <= fiber /\
    NutritionReport.score
      (generateDailyReport (Sample.day 1 20000 true true true false false)
         (Sample.adult "maintenance" "omnivore" 7)) = int score /\
    0 <= score <= 102.
Proof.
  assert (F : Forall (fun m => measuredUpTo (10 ^ 9) (Meal.nutrition m))
                (mealsOf (DayMeal.meals
                            (Sample.day 1 20000 true true true false false)))).
  { repeat constructor; vm_compute; discriminate. }
  split; [reflexivity|]. split; [exact F|].
  exact (daily_report_is_well_defined
           (Sample.day 1 20000 true true true false false)
           (Sample.adult "maintenance" "omnivore" 7) eq_refl F).
Defined.

End DailyReport.

Section EmptyReport.

Import NutritionTrackingService NutritionReporting.
Local Open Scope string_scope.
Local Open Scope list_scope.
Local Open Scope Z_scope.

Lemma percentOf_zero_of (t : Z) : 0 < t -> percentOf (int 0) (int t) = int 0.
Proof.
  intros Ht. unfold int at 1 2. rewrite percentOf_nonzero.
  - f_equal. rewrite (round_Z_eq _ 0); [reflexivity|].
    change (inject_Z 0) with 0%Q. unfold Qdiv. ring.
  - intros H. assert (E : t = 0); [|lia].
    apply (proj1 (inject_Z_injective t 0)). exact H.
Qed.

Lemma progress_of_nothing (userProfile : UserProfile.t) :
  validProfile userProfile = true ->
  calculateNutritionProgress createEmptyNutritionData
    (calculateDailyNutritionGoals userProfile)
  = NutritionProgress.mk createEmptyNutritionData
      (calculateDailyNutritionGoals userProfile)
      (Percentage.mk (int 0) (int 0) (int 0) (int 0) (int 0)) deficit.
Proof.
  intros Hv.
  destruct (calculateDailyNutritionGoals_valid userProfile Hv)
    as (tc & tp & tb & tf & ti & Ec & Ep & Eb & Ef & Ei & Hc & Hp & Hb & Hf & Hi).
  unfold calculateNutritionProgress. cbv zeta.
  rewrite Ec, Ep, Eb, Ef, Ei.
  cbn [createEmptyNutritionData NutritionData.calories NutritionData.protein
       NutritionData.carbs NutritionData.fat NutritionData.fiber].
  rewrite !percentOf_zero_of by lia. reflexivity.
Qed.

(** X5.  The report of a day on which nothing is marked yet, for a
    valid profile: every percentage is 0, the status is [deficit], the
    score is 0, there is no achievement, and the recommendations start
    with the five pieces of advice to eat more. *)
Theorem daily_report_of_unstarted_day (dayMeal : DayMeal.t)
    (userProfile : UserProfile.t) :
  validProfile userProfile = true ->
  unstartedMeals (DayMeal.meals dayMeal) = true ->
  let report := generateDailyReport dayMeal userProfile in
  NutritionReport.date report = DayMeal.date dayMeal /\
  NutritionReport.nutrition report = createEmptyNutritionData /\
  NutritionProgress.percentage (NutritionReport.goals report)
  = Percentage.mk (int 0) (int 0) (int 0) (int 0) (int 0) /\
  NutritionProgress.status (NutritionReport.goals report) = deficit /\
  NutritionReport.score report = int 0 /\
  NutritionReport.achievements report = [] /\
  firstn 5 (NutritionReport.recommendations report)
  = [ "You're not consuming enough calories. Consider adding nutrient-dense snacks or slightly larger portions.";
      "Increase your protein intake. Add lean meats, fish, eggs, or plant-based proteins to your meals.";
      "Include more healthy fats in your diet. Add avocados, nuts, seeds, or olive oil to your meals.";
      "Increase your carbohydrate intake. Add whole grains, fruits, and vegetables to your meals.";
      "Increase your fiber intake. Add more vegetables, fruits, whole grains, and legumes to your diet." ].
Proof.
  intros Hv Hu. cbv zeta. unfold generateDailyReport. cbv zeta.
  rewrite (calculateCompletedNutrition_unstarted dayMeal Hu).
  rewrite (progress_of_nothing userProfile Hv).
  cbn [NutritionReport.date NutritionReport.nutrition NutritionReport.goals
       NutritionReport.score NutritionReport.achievements
       NutritionReport.recommendations NutritionProgress.percentage
       NutritionProgress.status].
  repeat split.
Qed.

Lemma daily_report_of_unstarted_day_witness :
  validProfile (Sample.adult "maintenance" "omnivore" 7) = true /\
  unstartedMeals
    (DayMeal.meals (Sample.day 2 20001 false false false false false)) = true /\
  NutritionReport.score
    (generateDailyReport (Sample.day 2 20001 false false false false false)
       (Sample.adult "maintenance" "omnivore" 7)) = int 0.
Proof.
  split; [reflexivity|]. split; [reflexivity|].
  exact (proj1 (proj2 (proj2 (proj2 (proj2
           (daily_report_of_unstarted_day
              (Sample.day 2 20001 false false false false false)
              (Sample.adult "maintenance" "omnivore" 7) eq_refl eq_refl)))))).
Defined.

End EmptyReport.

(** ** Recommendations and status *)

Section Recommendations.

Import NutritionTrackingService NutritionReporting.
Local Open Scope string_scope.
Local Open Scope list_scope.
Local Open Scope Z_scope.

Ltac no_nil H :=
  repeat match type of H with
         | (_ ++ _ = []) =>
             apply app_eq_nil in H;
             let H1 := fresh in destruct H as [H1 H]; try discriminate H1
         end;
  try discriminate H.

(** X6.  A vegetarian or vegan profile always receives the vitamin B12
    advice.  For any other profile the list of recommendations is empty
    exactly when the status is [optimal] and the fiber percentage is not
    below 80. *)
Theorem recommendations_empty_iff_on_target (current target : NutritionData.t)
    (userProfile : UserProfile.t) :
  let progress := calculateNutritionProgress current target in
  let recommendations := generateNutritionRecommendations progress userProfile in
  (isVegetarianOrVegan userProfile = true ->
   In "Consider fortified foods or supplements for vitamin B12, especially if you're vegan."
      recommendations) /\
  (isVegetarianOrVegan userProfile = false ->
   (recommendations = [] <->
    NutritionProgress.status progress = optimal /\
    (Percentage.fiber (NutritionProgress.percentage progress) < int 80)%js = false)).
Proof.
  cbv zeta. unfold generateNutritionRecommendations, calculateNutritionProgress.
  cbv zeta.
  cbn [NutritionProgress.percentage NutritionProgress.status
       Percentage.calories Percentage.protein Percentage.carbs Percentage.fat
       Percentage.fiber].
  set (pc := percentOf (NutritionData.calories current) _).
  set (pp := percentOf (NutritionData.protein current) _).
  set (pb := percentOf (NutritionData.carbs current) _).
  set (pf := percentOf (NutritionData.fat current) _).
  set (pi := percentOf (NutritionData.fiber current) _).
  unfold advise, gtb.
  split.
  - intros ->. rewrite !in_app_iff. do 5 right. left.
    destruct (ltb pp (int 80)); simpl; auto.
  - intros ->.
    generalize (ltb pc (int 80)), (ltb pp (int 80)), (ltb pb (int 80)),
      (ltb pf (int 80)), (ltb pi (int 80)), (ltb (int 120) pc),
      (ltb (int 120) pp), (ltb (int 120) pb), (ltb (int 120) pf).
    generalize (is_goal (HealthGoals.primaryGoal (UserProfile.healthGoals userProfile))
                  "weight_loss"),
      (is_goal (HealthGoals.primaryGoal (UserProfile.healthGoals userProfile))
         "muscle_gain").
    intros w m c1 c2 c3 c4 c5 g1 g2 g3 g4.
    destruct c1; [split; [intros H; no_nil H|intros [H _]; discriminate H]|].
    destruct c2; [split; [intros H; no_nil H|intros [H _]; discriminate H]|].
    destruct c4;
      [split; [intros H; no_nil H|intros [H _]; destruct c3; discriminate H]|].
    destruct c3; [split; [intros H; no_nil H|intros [H _]; discriminate H]|].
    destruct c5; [split; [intros H; no_nil H|intros [_ H]; discriminate H]|].
    destruct g1; [split; [intros H; no_nil H|intros [H _]; discriminate H]|].
    destruct g2; [split; [intros H; no_nil H|intros [H _]; discriminate H]|].
    destruct g4;
      [split; [intros H; no_nil H|intros [H _]; destruct g3; discriminate H]|].
    destruct g3; [split; [intros H; no_nil H|intros [H _]; discriminate H]|].
    destruct w, m; cbn; split; auto.
Qed.

Lemma recommendations_empty_iff_on_target_witness :
  isVegetarianOrVegan (Sample.adult "maintenance" "omnivore" 7) = false /\
  (generateNutritionRecommendations
     (calculateNutritionProgress (Sample.nutrition 2000 100 250 70 25)
                                 (Sample.nutrition 2000 100 250 70 25))
     (Sample.adult "maintenance" "omnivore" 7) = [] <->
   NutritionProgress.status
     (calculateNutritionProgress (Sample.nutrition 2000 100 250 70 25)
                                 (Sample.nutrition 2000 100 250 70 25)) = optimal /\
   (Percentage.fiber
      (NutritionProgress.percentage
         (calculateNutritionProgress (Sample.nutrition 2000 100 250 70 25)
                                     (Sample.nutrition 2000 100 250 70 25)))
    < int 80)%js = false).
Proof.
  split; [reflexivity|].
  exact (proj2 (recommendations_empty_iff_on_target
                  (Sample.nutrition 2000 100 250 70 25)
                  (Sample.nutrition 2000 100 250 70 25)
                  (Sample.adult "maintenance" "omnivore" 7)) eq_refl).
Defined.


Lemma ltb_int (a b : Z) : ltb (int a) (int b) = (a <? b).
Proof.
  unfold int. destruct (a <? b) eqn:E.
  - apply ltb_Fin. rewrite <- Zlt_Qlt. apply Z.ltb_lt. exact E.
  - apply ltb_Fin_false. rewrite <- Zle_Qle. apply Z.ltb_ge. exact E.
Qed.

(** X7.  The status of a progress whose calorie, protein, carbs and fat
    percentages are whole numbers: [deficit] as soon as one of the four
    is below 80, also when another one is above 120; [excess] when none
    is below 80 and one is above 120; [optimal] when all four lie
    between 80 and 120.  The fiber percentage plays no part. *)
Theorem status_by_macro_percentages (current target : NutritionData.t)
    (calories protein carbs fat : Z) (fiber : number) :
  NutritionProgress.percentage (calculateNutritionProgress current target)
  = Percentage.mk (int calories) (int protein) (int carbs) (int fat) fiber ->
  let status := NutritionProgress.status (calculateNutritionProgress current target) in
  (status = deficit <->
   calories < 80 \/ protein < 80 \/ carbs < 80 \/ fat < 80) /\
  (status = excess <->
   (80 <= calories /\ 80 <= protein /\ 80 <= carbs /\ 80 <= fat) /\
   (120 < calories \/ 120 < protein \/ 120 < carbs \/ 120 < fat)) /\
  (status = optimal <->
   80 <= calories <= 120 /\ 80 <= protein <= 120 /\
   80 <= carbs <= 120 /\ 80 <= fat <= 120).
Proof.
  unfold calculateNutritionProgress. cbv zeta.
  cbn [NutritionProgress.percentage NutritionProgress.status
       Percentage.calories Percentage.protein Percentage.carbs Percentage.fat].
  intros H. injection H as -> -> -> -> _. unfold gtb. rewrite !ltb_int.
  destruct (calories <? 80) eqn:C1; [apply Z.ltb_lt in C1|apply Z.ltb_ge in C1];
  destruct (protein <? 80) eqn:C2; [apply Z.ltb_lt in C2|apply Z.ltb_ge in C2| |];
  try (apply Z.ltb_lt in C2); try (apply Z.ltb_ge in C2);
  destruct (carbs <? 80) eqn:C3;
  try (apply Z.ltb_lt in C3); try (apply Z.ltb_ge in C3);
  destruct (fat <? 80) eqn:C4;
  try (apply Z.ltb_lt in C4); try (apply Z.ltb_ge in C4);
  cbn [orb];
  try (repeat split; intros; try discriminate; lia).
  destruct (120 <? calories) eqn:G1;
  try (apply Z.ltb_lt in G1); try (apply Z.ltb_ge in G1);
  destruct (120 <? protein) eqn:G2;
  try (apply Z.ltb_lt in G2); try (apply Z.ltb_ge in G2);
  destruct (120 <? carbs) eqn:G3;
  try (apply Z.ltb_lt in G3); try (apply Z.ltb_ge in G3);
  destruct (120 <? fat) eqn:G4;
  try (apply Z.ltb_lt in G4); try (apply Z.ltb_ge in G4);
  cbn [orb];
  repeat split; intros; try discriminate; try reflexivity; lia.
Qed.

Lemma status_by_macro_percentages_witness :
  NutritionProgress.status
    (calculateNutritionProgress (Sample.nutrition 1000 130 250 70 25)
                                (Sample.nutrition 2000 100 250 70 25)) = deficit <->
  50 < 80 \/ 130 < 80 \/ 100 < 80 \/ 100 < 80.
Proof.
  exact (proj1 (status_by_macro_percentages
                  (Sample.nutrition 1000 130 250 70 25)
                  (Sample.nutrition 2000 100 250 70 25)
                  50 130 100 100 (int 100) eq_refl)).
Defined.

End Recommendations.

(** ** Deficiencies and water *)

Section Deficiencies.

Import NutritionTrackingService NutritionReporting.
Local Open Scope string_scope.
Local Open Scope list_scope.
Local Open Scope Z_scope.

Lemma calculateMealNutrition_noMicronutrients (meal : Meal.t) :
  withoutMicronutrients (Meal.nutrition meal) ->
  noMicronutrients (calculateMealNutrition meal).
Proof.
  intros [Hv Hm]. unfold noMicronutrients, calculateMealNutrition.
  rewrite Hv, Hm. repeat split.
Qed.

Lemma addNutritionData_noMicronutrients (a b : NutritionData.t) :
  noMicronutrients a -> noMicronutrients b ->
  noMicronutrients (addNutritionData a b).
Proof.
  intros (A1 & A2 & A3) (B1 & B2 & B3).
  unfold noMicronutrients, addNutritionData. cbv zeta.
  cbn [NutritionData.vitamins NutritionData.minerals opt
       Vitamins.vitaminC Minerals.iron Minerals.calcium].
  rewrite A1, A2, A3, B1, B2, B3. repeat split.
Qed.

Lemma createEmptyNutritionData_noMicronutrients :
  noMicronutrients createEmptyNutritionData.
Proof. repeat split. Qed.

Lemma fold_add_noMicronutrients (snacks : list Meal.t) :
  Forall (fun m => withoutMicronutrients (Meal.nutrition m)) snacks ->
  forall acc, noMicronutrients acc ->
  noMicronutrients
    (fold_left (fun acc snack => addNutritionData acc (calculateMealNutrition snack))
       snacks acc)
  /\ noMicronutrients (fold_left addIfCompleted snacks acc).
Proof.
  induction 1 as [|s rest Hs Hr IH]; intros acc Ha; [split; exact Ha|].
  cbn [fold_left].
  assert (Hn : noMicronutrients (addNutritionData acc (calculateMealNutrition s))).
  { apply addNutritionData_noMicronutrients; [exact Ha|].
    apply calculateMealNutrition_noMicronutrients. exact Hs. }
  split; [apply IH; exact Hn|].
  unfold addIfCompleted at 2. destruct (Meal.completed s); apply IH; assumption.
Qed.

Lemma day_noMicronutrients (dayMeal : DayMeal.t) :
  Forall (fun m => withoutMicronutrients (Meal.nutrition m))
    (mealsOf (DayMeal.meals dayMeal)) ->
  noMicronutrients (calculateDayNutrition dayMeal) /\
  noMicronutrients (calculateCompletedNutrition dayMeal).
Proof.
  intros Hf. unfold mealsOf in Hf.
  inversion Hf as [|? ? Fb Hf1]; subst. inversion Hf1 as [|? ? Fl Hf2]; subst.
  inversion Hf2 as [|? ? Fd Fs]; subst.
  pose proof (calculateMealNutrition_noMicronutrients _ Fb) as Nb.
  pose proof (calculateMealNutrition_noMicronutrients _ Fl) as Nl.
  pose proof (calculateMealNutrition_noMicronutrients _ Fd) as Nd.
  pose proof createEmptyNutritionData_noMicronutrients as NE.
  split.
  - unfold calculateDayNutrition. cbv zeta.
    repeat apply addNutritionData_noMicronutrients; try assumption.
    apply (fold_add_noMicronutrients _ Fs). exact NE.
  - unfold calculateCompletedNutrition. cbv zeta.
    apply (fold_add_noMicronutrients _ Fs).
    unfold addIfCompleted.
    repeat match goal with
           | |- context [if ?c then _ else _] => destruct c
           end;
      repeat apply addNutritionData_noMicronutrients; assumption.
Qed.

Lemma checkNutrientDeficiencies_noMicronutrients (nutrition goals : NutritionData.t) :
  noMicronutrients nutrition ->
  checkNutrientDeficiencies nutrition goals
  = (if (NutritionData.protein nutrition < NutritionData.protein goals * Fin 0.8)%js
     then ["Protein deficiency detected. Increase protein intake."] else [])
    ++ (if (NutritionData.fiber nutrition < NutritionData.fiber goals * Fin 0.8)%js
        then ["Low fiber intake. Add more fruits, vegetables, and whole grains."]
        else []).
Proof.
  intros (H1 & H2 & H3). unfold checkNutrientDeficiencies.
  rewrite H1, H2, H3. unfold below80.
  destruct (opt (NutritionData.vitamins goals) Vitamins.vitaminC),
    (opt (NutritionData.minerals goals) Minerals.iron),
    (opt (NutritionData.minerals goals) Minerals.calcium);
    cbn [truthy int andb]; rewrite ?app_nil_r; reflexivity.
Qed.

(** X8.  For a day whose meals carry no vitamin and mineral records, the
    deficiency check reports at most the protein and the fiber
    deficiency, whatever the goals are: the sums of the absent values
    are 0, and an intake of 0 is skipped by the vitamin C, iron and
    calcium tests.  This holds for the nutrition of the whole day and
    for the nutrition of the completed meals. *)
Theorem micronutrient_deficiency_is_never_reported (dayMeal : DayMeal.t)
    (goals : NutritionData.t) (message : string) :
  Forall (fun m => withoutMicronutrients (Meal.nutrition m))
    (mealsOf (DayMeal.meals dayMeal)) ->
  In message (checkNutrientDeficiencies (calculateDayNutrition dayMeal) goals) \/
  In message (checkNutrientDeficiencies (calculateCompletedNutrition dayMeal) goals) ->
  message = "Protein deficiency detected. Increase protein intake." \/
  message = "Low fiber intake. Add more fruits, vegetables, and whole grains.".
Proof.
  intros Hf H. destruct (day_noMicronutrients dayMeal Hf) as [Nd Nc].
  rewrite (checkNutrientDeficiencies_noMicronutrients _ goals Nd) in H.
  rewrite (checkNutrientDeficiencies_noMicronutrients _ goals Nc) in H.
  rewrite !in_app_iff in H.
  destruct H as [[H|H]|[H|H]];
    match type of H with
    | In _ (if ?c then _ else _) => destruct c
    end;
    simpl in H; intuition auto.
Qed.

Lemma micronutrient_deficiency_is_never_reported_witness :
  Forall (fun m => withoutMicronutrients (Meal.nutrition m))
    (mealsOf (DayMeal.meals (Sample.day 1 20000 true true true false false))) /\
  In "Protein deficiency detected. Increase protein intake."
     (checkNutrientDeficiencies
        (calculateDayNutrition (Sample.day 1 20000 true true true false false))
        (calculateDailyNutritionGoals (Sample.adult "maintenance" "omnivore" 7))) /\
  ("Protein deficiency detected. Increase protein intake."
   = "Protein deficiency detected. Increase protein intake." \/
   "Protein deficiency detected. Increase protein intake."
   = "Low fiber intake. Add more fruits, vegetables, and whole grains.").
Proof.
  assert (F : Forall (fun m => withoutMicronutrients (Meal.nutrition m))
                (mealsOf (DayMeal.meals
                            (Sample.day 1 20000 true true true false false)))).
  { repeat constructor. }
  assert (H : In "Protein deficiency detected. Increase protein intake."
                (checkNutrientDeficiencies
                   (calculateDayNutrition
                      (Sample.day 1 20000 true true true false false))
                   (calculateDailyNutritionGoals
                      (Sample.adult "maintenance" "omnivore" 7)))).
  { vm_compute. left. reflexivity. }
  split; [exact F|]. split; [exact H|].
  exact (micronutrient_deficiency_is_never_reported
           (Sample.day 1 20000 true true true false false)
           (calculateDailyNutritionGoals (Sample.adult "maintenance" "omnivore" 7))
           "Protein deficiency detected. Increase protein intake." F (or_introl H)).
Defined.

Lemma round_Z_le (p q : Q) : (p <= q)%Q -> round_Z p <= round_Z q.
Proof.
  intros H. unfold round_Z. apply Qfloor_resp_le. lra.
Qed.

Lemma round_Z_near (x y : Q) :
  (x == y)%Q -> (Qabs (inject_Z (round_Z x) - y) <= 501 # 1000)%Q.
Proof.
  intros E. destruct (round_Z_bounds x) as [Hlo Hhi].
  apply Qabs_Qle_condition. split; lra.
Qed.

(** X9.  The daily water goal for a weight between 0 and 10^6 kg is a
    whole number of millilitres within 0.501 of the weight times 35 and
    the factor of the activity level (1.1, 1.2, 1.3, 1.4), and it never
    decreases from one activity level to the next more active one; the
    base of 35 ml per kg applies to [sedentary] and to every unknown
    activity level. *)
Theorem water_goal_grows_with_activity (w : Q) :
  (0 <= w <= 1000000)%Q ->
  exists base light moderate active veryActive : Z,
    calculateWaterGoal (Fin w) "light" = int light /\
    calculateWaterGoal (Fin w) "moderate" = int moderate /\
    calculateWaterGoal (Fin w) "active" = int active /\
    calculateWaterGoal (Fin w) "very_active" = int veryActive /\
    0 <= base <= light /\ light <= moderate /\ moderate <= active /\
    active <= veryActive /\
    (Qabs (inject_Z base - w * 35) <= 501 # 1000)%Q /\
    (Qabs (inject_Z light - w * 35 * 1.1) <= 501 # 1000)%Q /\
    (Qabs (inject_Z moderate - w * 35 * 1.2) <= 501 # 1000)%Q /\
    (Qabs (inject_Z active - w * 35 * 1.3) <= 501 # 1000)%Q /\
    (Qabs (inject_Z veryActive - w * 35 * 1.4) <= 501 # 1000)%Q /\
    forall activityLevel,
      oneOf activityLevel ["light"; "moderate"; "active"; "very_active"] = false ->
      calculateWaterGoal (Fin w) activityLevel = int base.
Proof.
  intros [Hw _]. unfold calculateWaterGoal. cbv zeta.
  cbn [String.eqb Ascii.eqb Bool.eqb mul int Math_round].
  exists (round_Z (Qred (w * inject_Z 35))).
  do 4 eexists. repeat (split; [reflexivity|]).
  change (inject_Z 35) with 35%Q.
  pose proof (Qred_correct (w * 35)) as E0.
  split; [split|].
  { apply round_Z_lower. change (inject_Z 0) with 0%Q. lra. }
  { apply round_Z_le. rewrite !Qred_correct. lra. }
  do 3 (split; [apply round_Z_le; rewrite !Qred_correct; lra|]).
  split; [apply round_Z_near; exact E0|].
  do 4 (split; [apply round_Z_near; rewrite !Qred_correct; reflexivity|]).
  intros level H.
    apply oneOf_false_cons in H. destruct H as [E1 H].
    apply oneOf_false_cons in H. destruct H as [E2 H].
    apply oneOf_false_cons in H. destruct H as [E3 H].
    apply oneOf_false_cons in H. destruct H as [E4 _].
    rewrite String.eqb_sym in E1, E2, E3, E4.
    rewrite E1, E2, E3, E4. cbn [Math_round]. reflexivity.
Qed.

Lemma water_goal_grows_with_activity_witness :
  (0 <= 80 <= 1000000)%Q /\
  exists base light moderate active veryActive : Z,
    calculateWaterGoal (Fin 80) "light" = int light /\
    calculateWaterGoal (Fin 80) "moderate" = int moderate /\
    calculateWaterGoal (Fin 80) "active" = int active /\
    calculateWaterGoal (Fin 80) "very_active" = int veryActive /\
    0 <= base <= light /\ light <= moderate /\ moderate <= active /\
    active <= veryActive /\
    (Qabs (inject_Z base - 80 * 35) <= 501 # 1000)%Q /\
    (Qabs (inject_Z light - 80 * 35 * 1.1) <= 501 # 1000)%Q /\
    (Qabs (inject_Z moderate - 80 * 35 * 1.2) <= 501 # 1000)%Q /\
    (Qabs (inject_Z active - 80 * 35 * 1.3) <= 501 # 1000)%Q /\
    (Qabs (inject_Z veryActive - 80 * 35 * 1.4) <= 501 # 1000)%Q /\
    forall activityLevel,
      oneOf activityLevel ["light"; "moderate"; "active"; "very_active"] = false ->
      calculateWaterGoal (Fin 80) activityLevel = int base.
Proof.
  assert (H : (0 <= 80 <= 1000000)%Q) by (split; vm_compute; discriminate).
  split; [exact H|]. exact (water_goal_grows_with_activity 80 H).
Defined.

(** 80 kg: 2800 ml at rest, 3920 ml when very active. *)
Example water_goal_of_80_kg :
  calculateWaterGoal (int 80) "sedentary" = int 2800 /\
  calculateWaterGoal (int 80) "very_active" = int 3920.
Proof. split; reflexivity. Qed.

End Deficiencies.

(** ** Weekly trends *)

Section WeeklyTrends.

Import NutritionTrackingService NutritionReporting.
Local Open Scope string_scope.
Local Open Scope list_scope.
Local Open Scope Z_scope.

Lemma insertSorted_In {A : Type} (compare : A -> A -> number) (x a : A)
    (l : list A) :
  In a (insertSorted compare x l) <-> a = x \/ In a l.
Proof.
  induction l as [|y rest IH]; cbn [insertSorted].
  - simpl. intuition auto.
  - destruct (gtb (compare x y) (int 0)); simpl; rewrite ?IH; intuition auto.
Qed.

Lemma sort_In {A : Type} (compare : A -> A -> number) (a : A) (l : list A) :
  In a (sort compare l) <-> In a l.
Proof.
  induction l as [|x rest IH]; cbn [sort]; [reflexivity|].
  rewrite insertSorted_In, IH. simpl. intuition auto.
Qed.

Lemma insertSorted_length {A : Type} (compare : A -> A -> number) (x : A)
    (l : list A) :
  List.length (insertSorted compare x l) = S (List.length l).
Proof.
  induction l as [|y rest IH]; cbn [insertSorted]; [reflexivity|].
  destruct (gtb (compare x y) (int 0)); simpl; rewrite ?IH; reflexivity.
Qed.

Lemma sort_length {A : Type} (compare : A -> A -> number) (l : list A) :
  List.length (sort compare l) = List.length l.
Proof.
  induction l as [|x rest IH]; cbn [sort]; [reflexivity|].
  rewrite insertSorted_length, IH. reflexivity.
Qed.

(** The comparator asks for a swap exactly when the second value is the
    larger one. *)
Lemma byValueDescending_swaps (a b : string * number) (va vb : Q) :
  snd a = Fin va -> snd b = Fin vb ->
  (byValueDescending a b > int 0)%js = true <-> (va < vb)%Q.
Proof.
  intros Ea Eb. unfold byValueDescending, gtb, sub, int. rewrite Ea, Eb.
  cbn [neg add]. rewrite ltb_Fin, !Qred_correct.
  change (inject_Z 0) with 0%Q. split; intros H; lra.
Qed.

Lemma byValueDescending_keeps (a b : string * number) (va vb : Q) :
  snd a = Fin va -> snd b = Fin vb ->
  (byValueDescending a b > int 0)%js = false <-> (vb <= va)%Q.
Proof.
  intros Ea Eb. unfold byValueDescending, gtb, sub, int. rewrite Ea, Eb.
  cbn [neg add]. rewrite ltb_Fin_false, !Qred_correct.
  change (inject_Z 0) with 0%Q. split; intros H; lra.
Qed.

Lemma finite_Fin (x : number) : finite x -> exists q, x = Fin q.
Proof. destruct x; simpl; intros H; try contradiction. eauto. Qed.

Lemma insertSorted_sorted (x : string * number) (l : list (string * number)) :
  finite (snd x) -> Forall (fun a => finite (snd a)) l ->
  StronglySorted atLeast l ->
  StronglySorted atLeast (insertSorted byValueDescending x l).
Proof.
  intros Hx Hl Hs. destruct (finite_Fin _ Hx) as [vx Ex].
  induction Hs as [|y rest Hs IH Hy]; cbn [insertSorted].
  - constructor; constructor.
  - inversion Hl as [|? ? Fy Fr]; subst.
    destruct (finite_Fin _ Fy) as [vy Ey].
    destruct (gtb (byValueDescending x y) (int 0)) eqn:E.
    + apply (byValueDescending_swaps x y vx vy Ex Ey) in E.
      constructor; [apply IH; exact Fr|].
      apply Forall_forall. intros a Ha. apply insertSorted_In in Ha.
      destruct Ha as [->|Ha].
      * unfold atLeast. rewrite Ex, Ey. apply leb_Fin. lra.
      * rewrite Forall_forall in Hy. apply Hy. exact Ha.
    + apply (byValueDescending_keeps x y vx vy Ex Ey) in E.
      constructor; [constructor; assumption|].
      constructor.
      * unfold atLeast. rewrite Ex, Ey. apply leb_Fin. exact E.
      * apply Forall_forall. intros a Ha.
        rewrite Forall_forall in Hy, Fr.
        destruct (finite_Fin _ (Fr a Ha)) as [va Ea].
        pose proof (Hy a Ha) as H. unfold atLeast in H |- *.
        rewrite Ea, Ey in H. rewrite Ea, Ex. apply leb_Fin in H.
        apply leb_Fin. lra.
Qed.

Lemma sort_sorted (l : list (string * number)) :
  Forall (fun a => finite (snd a)) l ->
  StronglySorted atLeast (sort byValueDescending l).
Proof.
  induction 1 as [|x rest Hx Hr IH]; cbn [sort]; [constructor|].
  apply insertSorted_sorted; [exact Hx| |exact IH].
  apply Forall_forall. intros a Ha. apply sort_In in Ha.
  rewrite Forall_forall in Hr. apply Hr. exact Ha.
Qed.

(** Without a swap the array is left as it is. *)
Lemma sort_without_swap (l : list (string * number)) :
  (forall a b, In a l -> In b l ->
               (byValueDescending a b > int 0)%js = false) ->
  sort byValueDescending l = l.
Proof.
  induction l as [|x rest IH]; intros H; cbn [sort]; [reflexivity|].
  rewrite IH by (intros a b Ha Hb; apply H; right; assumption).
  destruct rest as [|y rest']; cbn [insertSorted]; [reflexivity|].
  rewrite H; [reflexivity|left; reflexivity|right; left; reflexivity].
Qed.

Lemma fold_add_number_finite (values : list number) :
  Forall finite values ->
  forall acc, finite acc -> finite (fold_left add values acc).
Proof.
  induction 1 as [|v rest Hv Hr IH]; intros acc Ha; [exact Ha|].
  cbn [fold_left]. apply IH. apply add_finite; assumption.
Qed.

Lemma average_finite (reports : list NutritionReport.t)
    (field : Percentage.t -> number) :
  reports <> [] ->
  Forall (fun r => finite (field (NutritionProgress.percentage
                                    (NutritionReport.goals r)))) reports ->
  finite (average reports field).
Proof.
  intros Hne Hf. unfold average, sum.
  assert (Hs : finite
                 (fold_left add
                    (map (fun report =>
                            field (NutritionProgress.percentage
                                     (NutritionReport.goals report))) reports)
                    (int 0))).
  { apply fold_add_number_finite; [|exact I].
    apply Forall_map. exact Hf. }
  destruct (finite_Fin _ Hs) as [s ->]. unfold int, div.
  rewrite Qeq_bool_false; [exact I|].
  intros H. apply (proj1 (inject_Z_injective _ 0)) in H.
  destruct reports; [apply Hne; reflexivity|discriminate H].
Qed.


Lemma areasOf_finite (reports : list NutritionReport.t) :
  reports <> [] -> Forall finitePercentages reports ->
  Forall (fun a => finite (snd a)) (areasOf reports).
Proof.
  intros Hne Hf. unfold areasOf.
  repeat constructor; cbn [snd]; apply average_finite; try exact Hne;
    (eapply Forall_impl; [|exact Hf]); intros r (H1 & H2 & H3 & H4); assumption.
Qed.

Lemma atLeast_refl (a : string * number) : finite (snd a) -> atLeast a a.
Proof.
  intros H. destruct (finite_Fin _ H) as [v E]. unfold atLeast. rewrite E.
  apply leb_Fin. apply Qle_refl.
Qed.

Lemma weekly_trends_finite (reports : list NutritionReport.t) :
  (2 <= List.length reports)%nat ->
  Forall finitePercentages reports ->
  exists strongest weakest,
    In strongest (areasOf reports) /\ In weakest (areasOf reports) /\
    WeeklyTrends.strongestArea (calculateWeeklyTrends reports) = fst strongest /\
    WeeklyTrends.weakestArea (calculateWeeklyTrends reports) = fst weakest /\
    (forall area, In area (areasOf reports) ->
                  atLeast strongest area /\ atLeast area weakest) /\
    ((forall a b, In a (areasOf reports) -> In b (areasOf reports) ->
                  snd a = snd b) ->
     WeeklyTrends.strongestArea (calculateWeeklyTrends reports) = "Protein" /\
     WeeklyTrends.weakestArea (calculateWeeklyTrends reports) = "Fiber").
Proof.
  intros Hlen Hf.
  assert (Hne : reports <> []) by (intros ->; simpl in Hlen; lia).
  pose proof (areasOf_finite reports Hne Hf) as Hfin.
  unfold calculateWeeklyTrends.
  destruct (Z.of_nat (List.length reports) <? 2) eqn:E;
    [apply Z.ltb_lt in E; lia|]. cbv zeta.
  cbn [WeeklyTrends.strongestArea WeeklyTrends.weakestArea].
  pose proof (sort_sorted _ Hfin) as Hs.
  pose proof (sort_length byValueDescending (areasOf reports)) as Hl.
  pose proof (fun a => sort_In byValueDescending a (areasOf reports)) as Hin.
  pose proof (sort_without_swap (areasOf reports)) as Hid.
  set (s := sort byValueDescending (areasOf reports)) in *.
  change (List.length (areasOf reports)) with 4%nat in Hl.
  destruct s as [|a [|b [|c [|d [|e rest]]]]]; try discriminate Hl.
  cbn [List.length Nat.sub nameAt nth_error].
  inversion Hs as [|? ? Hs1 Ha]; subst.
  inversion Hs1 as [|? ? Hs2 Hb]; subst.
  inversion Hs2 as [|? ? Hs3 Hc]; subst.
  rewrite Forall_forall in Ha, Hb, Hc, Hfin.
  assert (Ia : In a (areasOf reports)) by (apply Hin; simpl; auto).
  assert (Id : In d (areasOf reports)) by (apply Hin; simpl; auto).
  exists a, d. split; [exact Ia|]. split; [exact Id|].
  split; [reflexivity|]. split; [reflexivity|]. split.
  - intros area Harea. apply Hin in Harea.
    destruct Harea as [<-|[<-|[<-|[<-|[]]]]]; split;
      first [ apply atLeast_refl; apply Hfin; assumption
            | apply Ha; simpl; auto
            | apply Hb; simpl; auto
            | apply Hc; simpl; auto ].
  - intros Heq.
    assert (R : a :: b :: c :: d :: nil = areasOf reports).
    { apply Hid. intros x y Hx Hy.
      destruct (finite_Fin _ (Hfin x Hx)) as [vx Ex].
      destruct (finite_Fin _ (Hfin y Hy)) as [vy Ey].
      apply (byValueDescending_keeps x y vx vy Ex Ey).
      pose proof (Heq x y Hx Hy) as H. rewrite Ex, Ey in H.
      injection H as ->. apply Qle_refl. }
    unfold areasOf in R. injection R as -> _ _ ->. split; reflexivity.
Qed.

Lemma wholePercentages_finite (bound : Z) (report : NutritionReport.t) :
  wholePercentages bound report -> finitePercentages report.
Proof.
  intros (H1 & H2 & H3 & H4).
  repeat split; eapply whole_finite; eassumption.
Qed.

(** X10.  With two to a thousand reports whose percentages are whole
    numbers of magnitude at most 10^9, the strongest area of the weekly
    trends is one of the four areas with the highest average and the
    weakest area one with the lowest.  When the four averages are equal
    the order of the source decides: Protein is the strongest and Fiber
    the weakest area. *)
Theorem weekly_trends_strongest_and_weakest (reports : list NutritionReport.t) :
  (2 <= List.length reports <= 1000)%nat ->
  Forall (wholePercentages (10 ^ 9)) reports ->
  exists strongest weakest,
    In strongest (areasOf reports) /\ In weakest (areasOf reports) /\
    WeeklyTrends.strongestArea (calculateWeeklyTrends reports) = fst strongest /\
    WeeklyTrends.weakestArea (calculateWeeklyTrends reports) = fst weakest /\
    (forall area, In area (areasOf reports) ->
                  atLeast strongest area /\ atLeast area weakest) /\
    ((forall a b, In a (areasOf reports) -> In b (areasOf reports) ->
                  snd a = snd b) ->
     WeeklyTrends.strongestArea (calculateWeeklyTrends reports) = "Protein" /\
     WeeklyTrends.weakestArea (calculateWeeklyTrends reports) = "Fiber").
Proof.
  intros [Hlen _] Hw. apply weekly_trends_finite; [exact Hlen|].
  eapply Forall_impl; [|exact Hw].
  intros r. apply wholePercentages_finite.
Qed.

Lemma weekly_trends_strongest_and_weakest_witness :
  (2 <= List.length SampleWeek.reports <= 1000)%nat /\
  Forall (wholePercentages (10 ^ 9)) SampleWeek.reports /\
  exists strongest weakest,
    In strongest (areasOf SampleWeek.reports) /\
    In weakest (areasOf SampleWeek.reports) /\
    WeeklyTrends.strongestArea (calculateWeeklyTrends SampleWeek.reports)
    = fst strongest /\
    WeeklyTrends.weakestArea (calculateWeeklyTrends SampleWeek.reports)
    = fst weakest /\
    (forall area, In area (areasOf SampleWeek.reports) ->
                  atLeast strongest area /\ atLeast area weakest) /\
    ((forall a b, In a (areasOf SampleWeek.reports) ->
                  In b (areasOf SampleWeek.reports) -> snd a = snd b) ->
     WeeklyTrends.strongestArea (calculateWeeklyTrends SampleWeek.reports)
     = "Protein" /\
     WeeklyTrends.weakestArea (calculateWeeklyTrends SampleWeek.reports)
     = "Fiber").
Proof.
  assert (L : (2 <= List.length SampleWeek.reports <= 1000)%nat) by (simpl; lia).
  assert (F : Forall (wholePercentages (10 ^ 9)) SampleWeek.reports).
  { repeat constructor; whole_number. }
  split; [exact L|]. split; [exact F|].
  exact (weekly_trends_strongest_and_weakest SampleWeek.reports L F).
Defined.

Example weekly_trends_of_sample_week :
  calculateWeeklyTrends SampleWeek.reports
  = WeeklyTrends.mk (int 97) declining "Carbohydrates" "Fiber".
Proof. vm_compute. reflexivity. Qed.

End WeeklyTrends.

(** ** The generated plan *)

Section GeneratedPlan.

Import NutritionTrackingService.
Local Open Scope string_scope.
Local Open Scope list_scope.
Local Open Scope Z_scope.

Lemma generatedDays_nth (targets : NutritionTargets.t) (dateOf : Z -> Z)
    (ds : list DayMeal.t) :
  forall from k d,
    generatedDays targets dateOf from ds ->
    nth_error ds k = Some d ->
    generatedDay targets dateOf (from + Z.of_nat k) d.
Proof.
  induction ds as [|x rest IH]; intros from k d H Hk.
  - destruct k; discriminate Hk.
  - destruct H as [Hx Hrest]. destruct k as [|k].
    + injection Hk as <-. rewrite Z.add_0_r. exact Hx.
    + cbn [nth_error] in Hk. specialize (IH _ _ _ Hrest Hk).
      replace (from + Z.of_nat (S k)) with (from + 1 + Z.of_nat k) by lia.
      exact IH.
Qed.

(** X11.  The plan the generator returns for a duration that is not
    negative: it has one day per day of the duration; the k-th day
    (from 0) is numbered k + 1, carries the date the clock gives for
    that day number, has exactly one snack, carries the daily calorie
    target as its total and is not completed; the plan satisfies the
    invariant of the meal tracking; and its dates are distinct whenever
    the dates of the day numbers of the plan are. *)
Theorem generated_plan_structure (env : AIService.Env) (profile : UserProfile.t) :
  0 <= UserProfile.planDuration profile ->
  exists plan,
    AIService.generateDietPlan env profile = Ok plan /\
    trackedPlan plan /\
    Z.of_nat (List.length (DietPlan.meals plan)) = UserProfile.planDuration profile /\
    (forall k d,
      nth_error (DietPlan.meals plan) k = Some d ->
      DayMeal.day d = Z.of_nat k + 1 /\
      DayMeal.date d = AIService.dateOf env (Z.of_nat k + 1) /\
      List.length (Meals.snacks (DayMeal.meals d)) = 1%nat /\
      DayMeal.totalCalories d = DietPlan.dailyCalories plan /\
      DayMeal.completed d = false) /\
    ((forall i j, 1 <= i <= UserProfile.planDuration profile ->
                  1 <= j <= UserProfile.planDuration profile ->
                  AIService.dateOf env i = AIService.dateOf env j -> i = j) ->
     NoDup (map DayMeal.date (DietPlan.meals plan))).
Proof.
  intros Hpos.
  destruct (generated_plan_tracked env profile Hpos) as (plan & E & Ht).
  exists plan. split; [exact E|]. split; [exact Ht|].
  destruct (generateDietPlan_ok env profile) as (ds & E' & _ & Hlen & Hds).
  rewrite E' in E. injection E as <-.
  destruct (generatedDays_dates _ _ _ _ Hds) as (_ & Hnd & _).
  unfold AIService.planOf. cbn [DietPlan.meals DietPlan.dailyCalories].
  split; [rewrite Hlen; apply Z2Nat.id; exact Hpos|].
  split.
  - intros k d Hk.
    destruct (generatedDays_nth _ _ _ _ _ _ Hds Hk)
      as (b & l & dn & s & -> & _).
    cbn [DayMeal.day DayMeal.date DayMeal.meals Meals.snacks DayMeal.totalCalories
         DayMeal.completed List.length].
    repeat split; try lia. f_equal. lia.
  - intros Hinj. apply Hnd. rewrite Hlen, Z2Nat.id by exact Hpos.
    intros i j Hi Hj. apply Hinj; lia.
Qed.

Lemma generated_plan_structure_witness :
  0 <= UserProfile.planDuration (Sample.adult "maintenance" "omnivore" 7) /\
  exists plan,
    AIService.generateDietPlan Sample.offline
      (Sample.adult "maintenance" "omnivore" 7) = Ok plan /\
    trackedPlan plan /\
    Z.of_nat (List.length (DietPlan.meals plan))
    = UserProfile.planDuration (Sample.adult "maintenance" "omnivore" 7) /\
    (forall k d,
      nth_error (DietPlan.meals plan) k = Some d ->
      DayMeal.day d = Z.of_nat k + 1 /\
      DayMeal.date d = AIService.dateOf Sample.offline (Z.of_nat k + 1) /\
      List.length (Meals.snacks (DayMeal.meals d)) = 1%nat /\
      DayMeal.totalCalories d = DietPlan.dailyCalories plan /\
      DayMeal.completed d = false) /\
    ((forall i j,
         1 <= i <= UserProfile.planDuration (Sample.adult "maintenance" "omnivore" 7) ->
         1 <= j <= UserProfile.planDuration (Sample.adult "maintenance" "omnivore" 7) ->
         AIService.dateOf Sample.offline i = AIService.dateOf Sample.offline j ->
         i = j) ->
     NoDup (map DayMeal.date (DietPlan.meals plan))).
Proof.
  assert (H : 0 <= UserProfile.planDuration (Sample.adult "maintenance" "omnivore" 7))
    by (simpl; lia).
  split; [exact H|].
  exact (generated_plan_structure Sample.offline
           (Sample.adult "maintenance" "omnivore" 7) H).
Defined.

(** X12.  For every valid profile the generator succeeds, the daily
    calorie target is a whole number D, and on every day of the plan the
    stored total is D while the calories of the day's meals sum to a
    number between D - 1 and D + 2, which is the total that
    [recalculateDayMealTotals] stores. *)
Theorem generated_totals_near_meal_sums (env : AIService.Env)
    (profile : UserProfile.t) :
  validProfile profile = true ->
  exists plan D,
    AIService.generateDietPlan env profile = Ok plan /\
    DietPlan.dailyCalories plan = int D /\
    forall d, In d (DietPlan.meals plan) ->
      DayMeal.totalCalories d = int D /\
      exists S,
        NutritionData.calories (calculateDayNutrition d) = int S /\
        DayMeal.totalCalories (recalculateDayMealTotals d) = int S /\
        D - 1 <= S <= D + 2.
Proof.
  intros Hv.
  destruct (generateDietPlan_ok env profile) as (ds & E & _ & Hlen & Hds).
  destruct (valid_dailyCalories_finite profile Hv) as [q Hq].
  assert (HD : NutritionTargets.dailyCalories
                 (AIService.calculateNutritionTargets profile)
               = int (round_Z q)).
  { unfold AIService.calculateNutritionTargets. cbv zeta. rewrite Hq.
    destruct (AIService.macroRatios _) as [[pr fr] cr]. reflexivity. }
  eexists. exists (round_Z q). split; [exact E|].
  unfold AIService.planOf. cbn [DietPlan.meals DietPlan.dailyCalories].
  split; [exact HD|].
  intros d Hd. apply In_nth_error in Hd. destruct Hd as [k Hk].
  pose proof (generatedDays_nth _ _ _ _ _ _ Hds Hk) as Hg.
  exact (generated_day_total_near_meal_sum _ _ _ _ _ HD Hg).
Qed.

Lemma generated_totals_near_meal_sums_witness :
  validProfile (Sample.adult "maintenance" "omnivore" 7) = true /\
  exists plan D,
    AIService.generateDietPlan Sample.offline
      (Sample.adult "maintenance" "omnivore" 7) = Ok plan /\
    DietPlan.dailyCalories plan = int D /\
    forall d, In d (DietPlan.meals plan) ->
      DayMeal.totalCalories d = int D /\
      exists S,
        NutritionData.calories (calculateDayNutrition d) = int S /\
        DayMeal.totalCalories (recalculateDayMealTotals d) = int S /\
        D - 1 <= S <= D + 2.
Proof.
  split; [reflexivity|].
  exact (generated_totals_near_meal_sums Sample.offline
           (Sample.adult "maintenance" "omnivore" 7) eq_refl).
Defined.

End GeneratedPlan.

(** ** Rotation of the meal templates *)

Section Rotation.

Import AIService.
Local Open Scope string_scope.
Local Open Scope list_scope.
Local Open Scope Z_scope.

Lemma distinct_NoDup (l : list string) : distinct l = true -> NoDup l.
Proof.
  induction l as [|x rest IH]; intros H; [constructor|].
  cbn [distinct] in H. apply Bool.andb_true_iff in H. destruct H as [Hx Hr].
  constructor; [|apply IH; exact Hr].
  intros Hin. apply Bool.negb_true_iff in Hx.
  assert (E : existsb (String.eqb x) rest = true).
  { apply existsb_exists. exists x. split; [exact Hin|apply String.eqb_refl]. }
  congruence.
Qed.

Lemma template_names_distinct (isVegetarian : bool) (mealType : MealType) :
  NoDup (map Template.name (templatesFor (getMealTemplates isVegetarian) mealType)).
Proof.
  apply distinct_NoDup. destruct isVegetarian, mealType; vm_compute; reflexivity.
Qed.

Lemma pick_nth (templates : list Template.t) (day : Z) (t : Template.t) :
  0 <= day -> pick templates day = Some t ->
  let n := Z.of_nat (List.length templates) in
  0 < n /\ nth_error templates (Z.to_nat (day mod n)) = Some t.
Proof.
  intros Hd H. cbv zeta. unfold pick in H. cbv zeta in H.
  destruct templates as [|t0 rest] eqn:Et.
  - destruct (_ <? 0) in H; [discriminate|].
    destruct (Z.to_nat _) in H; discriminate.
  - rewrite <- Et in *.
    assert (Hn : 0 < Z.of_nat (List.length templates)) by (rewrite Et; simpl; lia).
    split; [exact Hn|].
    rewrite Z.rem_mod_nonneg in H by lia.
    destruct (day mod Z.of_nat (List.length templates) <? 0) eqn:E;
      [apply Z.ltb_lt in E;
       pose proof (Z.mod_pos_bound day _ Hn); lia|].
    exact H.
Qed.

(** X13.  The generator rotates through the templates of a meal type:
    the meals it generates for two days (of the same meal type and diet
    class, whatever the calorie targets) have the same name exactly when
    the day numbers are congruent modulo the number of templates.  A
    dish therefore returns only after a full cycle of the pool. *)
Theorem meals_repeat_only_after_a_full_cycle (mealType : MealType)
    (calories1 calories2 : number) (isVegetarian : bool) (day1 day2 : Z)
    (meal1 meal2 : Meal.t) :
  0 <= day1 -> 0 <= day2 ->
  generateMeal mealType calories1 isVegetarian day1 = Ok meal1 ->
  generateMeal mealType calories2 isVegetarian day2 = Ok meal2 ->
  let n := Z.of_nat (List.length (templatesFor (getMealTemplates isVegetarian) mealType)) in
  Meal.name meal1 = Meal.name meal2 <-> day1 mod n = day2 mod n.
Proof.
  intros H1 H2 E1 E2. cbv zeta. unfold generateMeal in E1, E2.
  set (pool := templatesFor (getMealTemplates isVegetarian) mealType) in *.
  destruct (pick pool day1) as [t1|] eqn:P1; [|discriminate].
  destruct (pick pool day2) as [t2|] eqn:P2; [|discriminate].
  injection E1 as <-. injection E2 as <-. cbn [Meal.name].
  destruct (pick_nth _ _ _ H1 P1) as [Hn N1].
  destruct (pick_nth _ _ _ H2 P2) as [_ N2].
  set (n := Z.of_nat (List.length pool)) in *.
  pose proof (Z.mod_pos_bound day1 n Hn) as B1.
  pose proof (Z.mod_pos_bound day2 n Hn) as B2.
  split.
  - intros Hname.
    pose proof (template_names_distinct isVegetarian mealType) as Hnd.
    fold pool in Hnd. rewrite NoDup_nth_error in Hnd.
    assert (E : Z.to_nat (day1 mod n) = Z.to_nat (day2 mod n)).
    { apply Hnd.
      - rewrite length_map. unfold n in *. lia.
      - rewrite !nth_error_map, N1, N2. cbn [option_map]. f_equal. exact Hname. }
    lia.
  - intros Hmod. rewrite Hmod in N1. rewrite N1 in N2. injection N2 as ->.
    reflexivity.
Qed.

Lemma meals_repeat_only_after_a_full_cycle_witness :
  0 <= 3 /\ 0 <= 13 /\
  exists meal1 meal2,
    generateMeal breakfast (int 500) true 3 = Ok meal1 /\
    generateMeal breakfast (int 700) true 13 = Ok meal2 /\
    (Meal.name meal1 = Meal.name meal2 <-> 3 mod 10 = 13 mod 10).
Proof.
  assert (H3 : 0 <= 3) by lia. assert (H13 : 0 <= 13) by lia.
  split; [exact H3|]. split; [exact H13|].
  eexists. eexists. split; [reflexivity|]. split; [reflexivity|].
  exact (meals_repeat_only_after_a_full_cycle breakfast (int 500) (int 700) true
           3 13 _ _ H3 H13 eq_refl eq_refl).
Defined.

End Rotation.

(** ** Targets of the generator *)

Section GeneratorTargets.

Local Open Scope string_scope.
Local Open Scope list_scope.
Local Open Scope Z_scope.

Lemma round_Z_half (x : Q) :
  (Qabs (inject_Z (round_Z x) - x) <= 1 # 2)%Q.
Proof.
  destruct (round_Z_bounds x) as [Hlo Hhi].
  apply Qabs_Qle_condition. split; lra.
Qed.

(** X14.  The macronutrients of a generated meal are the fixed shares
    15 % protein, 50 % carbs and 35 % fat of the meal's calorie target,
    whatever the diet type of the profile: for a target of magnitude at
    most 10^6 all four values are whole numbers, the calories within
    one half of the target and the grams within 0.501 of the share
    divided by 4 kcal/g for protein and carbs and by 9 kcal/g for fat,
    and the energy of the macronutrients is within 8 kcal of the meal's
    calories. *)
Theorem generated_meal_macros (mealType : MealType) (q : Q)
    (isVegetarian : bool) (day : Z) (meal : Meal.t) :
  (Qabs q <= 1000000)%Q ->
  AIService.generateMeal mealType (Fin q) isVegetarian day = Ok meal ->
  exists calories protein carbs fat : Z,
    NutritionData.calories (Meal.nutrition meal) = int calories /\
    NutritionData.protein (Meal.nutrition meal) = int protein /\
    NutritionData.carbs (Meal.nutrition meal) = int carbs /\
    NutritionData.fat (Meal.nutrition meal) = int fat /\
    (Qabs (inject_Z calories - q) <= 1 # 2)%Q /\
    (Qabs (inject_Z protein - q * 0.15 / 4) <= 501 # 1000)%Q /\
    (Qabs (inject_Z carbs - q * 0.50 / 4) <= 501 # 1000)%Q /\
    (Qabs (inject_Z fat - q * 0.35 / 9) <= 501 # 1000)%Q /\
    Z.abs (protein * 4 + carbs * 4 + fat * 9 - calories) <= 8.
Proof.
  intros _ H. unfold AIService.generateMeal in H.
  destruct (AIService.pick _ _); [|discriminate]. injection H as <-.
  cbn [Meal.nutrition NutritionData.calories NutritionData.protein
       NutritionData.carbs NutritionData.fat].
  change (inject_Z 4) with 4%Q. change (inject_Z 9) with 9%Q.
  exists (round_Z q), (round_Z (q * 0.15 / 4)), (round_Z (q * 0.50 / 4)),
    (round_Z (q * 0.35 / 9)).
  split; [reflexivity|].
  do 3 (split; [unfold int; do 2 f_equal; apply round_Z_eq;
                rewrite !Qred_correct; reflexivity|]).
  split; [apply round_Z_half|].
  do 3 (split; [apply round_Z_near; reflexivity|]).
  apply rounded_macros_gap. field.
Qed.

Lemma generated_meal_macros_witness :
  (Qabs 965.65 <= 1000000)%Q /\
  exists meal,
    AIService.generateMeal lunch (Fin 965.65) false 1 = Ok meal /\
    exists calories protein carbs fat : Z,
      NutritionData.calories (Meal.nutrition meal) = int calories /\
      NutritionData.protein (Meal.nutrition meal) = int protein /\
      NutritionData.carbs (Meal.nutrition meal) = int carbs /\
      NutritionData.fat (Meal.nutrition meal) = int fat /\
      (Qabs (inject_Z calories - 965.65) <= 1 # 2)%Q /\
      (Qabs (inject_Z protein - 965.65 * 0.15 / 4) <= 501 # 1000)%Q /\
      (Qabs (inject_Z carbs - 965.65 * 0.50 / 4) <= 501 # 1000)%Q /\
      (Qabs (inject_Z fat - 965.65 * 0.35 / 9) <= 501 # 1000)%Q /\
      Z.abs (protein * 4 + carbs * 4 + fat * 9 - calories) <= 8.
Proof.
  assert (H : (Qabs 965.65 <= 1000000)%Q) by (vm_compute; discriminate).
  split; [exact H|].
  eexists. split; [reflexivity|].
  exact (generated_meal_macros lunch 965.65 false 1 _ H eq_refl).
Defined.

(** A lunch of 965.65 kcal: 966 kcal, 36 g protein, 121 g carbs, 38 g fat. *)
Example lunch_of_965_kcal :
  option_map
    (fun meal =>
       map (fun field => field (Meal.nutrition meal))
         [ NutritionData.calories; NutritionData.protein; NutritionData.carbs;
           NutritionData.fat ])
    (match AIService.generateMeal lunch (Fin 965.65) false 1 with
     | Ok meal => Some meal
     | Throw _ => None
     end)
  = Some [ int 966; int 36; int 121; int 38 ].
Proof. vm_compute. reflexivity. Qed.

Lemma round_Z_lower_half (x : Q) (lo : Z) :
  (inject_Z lo - (1 # 2) <= x)%Q -> lo <= round_Z x.
Proof.
  intros H. destruct (round_Z_bounds x) as [H1 _].
  assert (E : lo - 1 < round_Z x); [|lia].
  rewrite Zlt_Qlt. unfold Z.sub. rewrite inject_Z_plus, inject_Z_opp.
  change (inject_Z 1) with 1%Q. lra.
Qed.

Lemma tracker_tdee_value (d : PersonalDetails.t) :
  between 13 120 (PersonalDetails.age d) = true ->
  between 30 300 (PersonalDetails.weight d) = true ->
  between 100 250 (PersonalDetails.height d) = true ->
  exists t, NutritionTrackingService.tdee_of d = Fin t /\ (196.8 <= t)%Q.
Proof.
  intros Ha Hw Hh.
  destruct (between_Fin _ _ _ Ha) as (a & Ea & Ha1 & Ha2).
  destruct (between_Fin _ _ _ Hw) as (w & Ew & Hw1 & Hw2).
  destruct (between_Fin _ _ _ Hh) as (h & Eh & Hh1 & Hh2).
  change (inject_Z 13) with 13%Q in *. change (inject_Z 120) with 120%Q in *.
  change (inject_Z 30) with 30%Q in *. change (inject_Z 100) with 100%Q in *.
  destruct d as [age g weight height l]. cbn in Ea, Ew, Eh. subst.
  unfold NutritionTrackingService.tdee_of.
  destruct (bmr_value g l a w h) as (b & -> & Hb).
  cbn [PersonalDetails.activityLevel].
  destruct (activityFactor_value l) as (m & -> & Hm).
  assert (Hb164 : (164 <= b)%Q).
  { rewrite Hb. destruct (String.eqb g "male"); lra. }
  cbn [mul]. eexists. split; [reflexivity|]. rewrite Qred_correct.
  apply Qle_trans with (b * 1.2)%Q; [lra|].
  rewrite !(Qmult_comm b). apply Qmult_le_compat_r; lra.
Qed.

(** X15.  The daily calorie target of the generator for a valid profile
    is a whole number of at least -303 kcal, and of at least 197 kcal
    unless the goal is weight loss: the 500 kcal of the weight-loss
    adjustment are subtracted without a floor. *)
Theorem generator_target_lower_bound (profile : UserProfile.t) :
  validProfile profile = true ->
  exists D,
    NutritionTargets.dailyCalories (AIService.calculateNutritionTargets profile)
    = int D /\
    -303 <= D /\
    (HealthGoals.primary (UserProfile.healthGoals profile) <> "weight_loss" ->
     197 <= D).
Proof.
  intros Hv. pose proof Hv as Hv'. unfold validProfile in Hv'. cbv zeta in Hv'.
  rewrite !Bool.andb_true_iff in Hv'.
  destruct Hv' as ((((((((Ha & Hw) & Hh) & _) & Hl) & _) & _) & _) & _).
  destruct (tracker_tdee_value _ Ha Hw Hh) as (t & Et & Ht).
  rewrite <- (tdee_agree _ Hl) in Et.
  unfold AIService.calculateNutritionTargets. cbv zeta. rewrite Et.
  destruct (AIService.macroRatios _) as [[pr fr] cr].
  cbn [NutritionTargets.dailyCalories]. unfold AIService.adjustForGoal.
  destruct (String.eqb _ "weight_loss") eqn:E1;
    [|destruct (String.eqb _ "muscle_gain") eqn:E2];
    cbn [sub add neg int Math_round]; eexists; (split; [reflexivity|]).
  - apply String.eqb_eq in E1. split; [|intros H; contradiction].
    apply round_Z_lower_half. rewrite !Qred_correct.
    change (inject_Z (-303)) with (-303)%Q. change (inject_Z 500) with 500%Q. lra.
  - assert (H : 197 <= round_Z (Qred (t + inject_Z 300))); [|split; [lia|intros _; exact H]].
    apply round_Z_lower. rewrite !Qred_correct.
    change (inject_Z 197) with 197%Q. change (inject_Z 300) with 300%Q. lra.
  - assert (H : 197 <= round_Z t); [|split; [lia|intros _; exact H]].
    apply round_Z_lower_half. change (inject_Z 197) with 197%Q. lra.
Qed.

Lemma generator_target_lower_bound_witness :
  validProfile (Sample.adult "weight_loss" "omnivore" 30) = true /\
  exists D,
    NutritionTargets.dailyCalories
      (AIService.calculateNutritionTargets (Sample.adult "weight_loss" "omnivore" 30))
    = int D /\
    -303 <= D /\
    (HealthGoals.primary
       (UserProfile.healthGoals (Sample.adult "weight_loss" "omnivore" 30))
     <> "weight_loss" -> 197 <= D).
Proof.
  split; [reflexivity|].
  exact (generator_target_lower_bound (Sample.adult "weight_loss" "omnivore" 30)
           eq_refl).
Defined.

(** The bound is reached: a valid profile with a negative calorie
    target, and negative grams of every macronutrient. *)
Example negative_calorie_target :
  validProfile
    (Sample.profile "female" 30 100 120 "sedentary" "weight_loss" "omnivore" 30)
  = true /\
  AIService.calculateNutritionTargets
    (Sample.profile "female" 30 100 120 "sedentary" "weight_loss" "omnivore" 30)
  = NutritionTargets.mk (int (-303)) (int (-19)) (int (-34)) (int (-10)).
Proof. split; vm_compute; reflexivity. Qed.

End GeneratorTargets.

(** ** Marking meals: repetition and full adherence *)

Section Completion.

Import Dashboard.
Local Open Scope list_scope.
Local Open Scope Z_scope.

Lemma completeNth_twice (snacks : list Meal.t) :
  forall i snacks',
    completeNth snacks i = Ok snacks' -> completeNth snacks' i = Ok snacks'.
Proof.
  induction snacks as [|s rest IH]; intros i snacks' H; [discriminate H|].
  destruct i as [|i]; cbn [completeNth] in H.
  - injection H as <-. destruct s; reflexivity.
  - destruct (completeNth rest i) as [rest'|e] eqn:E; [|discriminate H].
    cbn in H. injection H as <-. cbn [completeNth]. rewrite (IH _ _ E).
    reflexivity.
Qed.

Lemma markCompleted_twice (ms ms' : Meals.t) (mealType : MealType)
    (snackIndex : option Z) :
  markCompleted ms mealType snackIndex = Ok ms' ->
  markCompleted ms' mealType snackIndex = Ok ms'.
Proof.
  unfold markCompleted. destruct mealType.
  - intros H. injection H as <-. cbn [Meals.breakfast Meals.lunch Meals.dinner
      Meals.snacks]. destruct (Meals.breakfast ms); reflexivity.
  - intros H. injection H as <-. cbn [Meals.breakfast Meals.lunch Meals.dinner
      Meals.snacks]. destruct (Meals.lunch ms); reflexivity.
  - intros H. injection H as <-. cbn [Meals.breakfast Meals.lunch Meals.dinner
      Meals.snacks]. destruct (Meals.dinner ms); reflexivity.
  - destruct snackIndex as [i|]; [|intros H; injection H as <-; reflexivity].
    unfold completeSnack. destruct (i <? 0); [discriminate|].
    destruct (completeNth (Meals.snacks ms) (Z.to_nat i)) as [snacks'|e] eqn:E;
      [|discriminate].
    intros H. cbn in H. injection H as <-.
    cbn [Meals.breakfast Meals.lunch Meals.dinner Meals.snacks].
    rewrite (completeNth_twice _ _ _ E). reflexivity.
Qed.

Lemma completeDay_twice (day day' : DayMeal.t) (mealType : MealType)
    (snackIndex : option Z) :
  completeDay day mealType snackIndex = Ok day' ->
  completeDay day' mealType snackIndex = Ok day'.
Proof.
  unfold completeDay.
  destruct (markCompleted (DayMeal.meals day) mealType snackIndex)
    as [ms|e] eqn:E; [|discriminate].
  intros H. cbn in H. injection H as <-.
  pose proof (markCompleted_twice _ _ _ _ E) as E'.
  destruct day as [n date ms0 total completed].
  unfold NutritionTrackingService.recalculateDayMealTotals, DayMeal.set_meals,
    DayMeal.set_totalCalories, DayMeal.set_completed in *.
  cbn [DayMeal.meals DayMeal.day DayMeal.date DayMeal.totalCalories
       DayMeal.completed] in *.
  destruct (allMealsCompleted ms) eqn:A;
    cbn [DayMeal.meals DayMeal.day DayMeal.date DayMeal.totalCalories
         DayMeal.completed];
    rewrite E'; cbn [bind]; rewrite A; reflexivity.
Qed.

Lemma replaceDay_twice (selectedDate : Z) (d' : DayMeal.t) (days : list DayMeal.t) :
  DayMeal.date d' = selectedDate ->
  replaceDay selectedDate d' (replaceDay selectedDate d' days)
  = replaceDay selectedDate d' days.
Proof.
  intros Hd. unfold replaceDay. rewrite map_map. apply map_ext. intros a.
  destruct (DayMeal.date a =? selectedDate) eqn:E.
  - rewrite Hd, Z.eqb_refl. reflexivity.
  - rewrite E. reflexivity.
Qed.

(** X16.  Marking is idempotent: when a meal has been marked, marking
    the same meal of the same day again returns the state unchanged
    (the flags, the totals and the progress of the plan). *)
Theorem marking_a_meal_twice_changes_nothing (st st' : State)
    (mealType : MealType) (snackIndex : option Z) :
  handleMealComplete st mealType snackIndex = Ok st' ->
  handleMealComplete st' mealType snackIndex = Ok st'.
Proof.
  unfold handleMealComplete.
  destruct (activePlan st) as [plan|] eqn:P.
  2:{ intros H. injection H as <-. rewrite P. reflexivity. }
  destruct (currentDayMeal plan (selectedDate st)) as [day|] eqn:D.
  2:{ intros H. injection H as <-. rewrite P, D. reflexivity. }
  destruct (completeDay day mealType snackIndex) as [day'|e] eqn:C;
    [|discriminate].
  intros H. cbn in H. injection H as <-.
  cbn [Dashboard.activePlan Dashboard.selectedDate].
  destruct (completeDay_spec _ _ _ _ C) as (Hdate & _).
  assert (Hd : DayMeal.date day = selectedDate st).
  { unfold currentDayMeal in D. apply find_some in D. destruct D as [_ D].
    apply Z.eqb_eq in D. exact D. }
  assert (Hd' : DayMeal.date day' = selectedDate st) by congruence.
  assert (F : currentDayMeal (updatePlan plan (selectedDate st) day')
                (selectedDate st) = Some day').
  { unfold currentDayMeal, updatePlan. cbn [DietPlan.meals].
    apply (replaceDay_find _ day); [exact Hd'|exact D]. }
  rewrite F, (completeDay_twice _ _ _ _ C). cbn [bind].
  do 2 f_equal. unfold updatePlan.
  cbn [DietPlan.meals DietPlan.duration DietPlan.dailyCalories DietPlan.macros
       DietPlan.isActive DietPlan.progress Progress.totalDays].
  rewrite (replaceDay_twice _ _ _ Hd'). reflexivity.
Qed.

Lemma marking_a_meal_twice_changes_nothing_witness :
  handleMealComplete Sample.atFirstDay snack (Some 0) = Ok Sample.afterSnack /\
  handleMealComplete Sample.afterSnack snack (Some 0) = Ok Sample.afterSnack.
Proof.
  assert (H : handleMealComplete Sample.atFirstDay snack (Some 0)
              = Ok Sample.afterSnack) by (vm_compute; reflexivity).
  split; [exact H|].
  exact (marking_a_meal_twice_changes_nothing _ _ _ _ H).
Defined.


(** The rounded rate of [c] days out of [n], for plans shorter than 200
    days: 100 only when every day is completed, 0 only when none is. *)
Lemma adherence_extremes (c n : Z) :
  0 <= c <= n -> 0 < n < 200 ->
  exists r,
    Math_round (mul (div (int c) (int n)) (int 100)) = int r /\
    (r = 100 <-> c = n) /\ (r = 0 <-> c = 0).
Proof.
  intros [Hc0 Hcn] [Hn Hn200].
  change (Math_round (mul (div (int c) (int n)) (int 100)))
    with (NutritionTrackingService.percentOf (Fin (inject_Z c)) (Fin (inject_Z n))).
  assert (HnQ : (0 < inject_Z n)%Q).
  { change 0%Q with (inject_Z 0). rewrite <- Zlt_Qlt. exact Hn. }
  assert (HnQ' : (inject_Z n < 200)%Q).
  { change 200%Q with (inject_Z 200). rewrite <- Zlt_Qlt. exact Hn200. }
  rewrite percentOf_nonzero by lra.
  eexists. split; [reflexivity|].
  set (y := (inject_Z c / inject_Z n * 100)%Q).
  assert (Ey : (y * inject_Z n == 100 * inject_Z c)%Q).
  { unfold y. field. lra. }
  destruct (round_Z_bounds y) as [Hlo Hhi].
  split; split.
  - intros Hr. rewrite Hr in Hhi. change (inject_Z 100) with 100%Q in Hhi.
    destruct (Z.eq_dec c n) as [E|E]; [exact E|exfalso].
    assert (Hc : c <= n - 1) by lia.
    rewrite Zle_Qle in Hc. unfold Z.sub in Hc.
    rewrite inject_Z_plus, inject_Z_opp in Hc. change (inject_Z 1) with 1%Q in Hc.
    assert (H1 : ((100 - (1 # 2)) * inject_Z n <= y * inject_Z n)%Q).
    { apply Qmult_le_compat_r; lra. }
    rewrite Ey in H1. lra.
  - intros ->. unfold y.
    rewrite (round_Z_eq _ (inject_Z 100)); [reflexivity|].
    change (inject_Z 100) with 100%Q. field. lra.
  - intros Hr. rewrite Hr in Hlo. change (inject_Z 0) with 0%Q in Hlo.
    destruct (Z.eq_dec c 0) as [E|E]; [exact E|exfalso].
    assert (Hc : 1 <= c) by lia.
    rewrite Zle_Qle in Hc. change (inject_Z 1) with 1%Q in Hc.
    assert (H1 : (y * inject_Z n < (1 # 2) * inject_Z n)%Q).
    { apply Qmult_lt_compat_r; lra. }
    rewrite Ey in H1. lra.
  - intros ->. unfold y.
    rewrite (round_Z_eq _ (inject_Z 0)); [reflexivity|].
    change (inject_Z 0) with 0%Q. field. lra.
Qed.

Lemma countCompleted_all (days : list DayMeal.t) :
  countCompleted days = Z.of_nat (List.length days)
  <-> forallb DayMeal.completed days = true.
Proof.
  unfold countCompleted. induction days as [|d rest IH]; [simpl; tauto|].
  cbn [filter forallb List.length].
  pose proof (filter_length_le DayMeal.completed rest) as Hle.
  destruct (DayMeal.completed d); cbn [andb List.length].
  - rewrite <- IH. lia.
  - split; [lia|discriminate].
Qed.

Lemma countCompleted_none (days : list DayMeal.t) :
  countCompleted days = 0
  <-> forallb (fun d => negb (DayMeal.completed d)) days = true.
Proof.
  unfold countCompleted. induction days as [|d rest IH]; [simpl; tauto|].
  cbn [filter forallb List.length].
  destruct (DayMeal.completed d); cbn [andb negb List.length].
  - split; [lia|discriminate].
  - exact IH.
Qed.

(** X17.  After a meal is marked on a tracked plan of fewer than 200
    days, the adherence rate is 100 exactly when every day of the plan
    is completed, and 0 exactly when no day is. *)
Theorem full_adherence_means_every_day_completed
    (plan : DietPlan.t) (selectedDate : Z) (mealType : MealType)
    (snackIndex : option Z) (day : DayMeal.t) (st' : State) :
  trackedPlan plan ->
  (List.length (DietPlan.meals plan) < 200)%nat ->
  currentDayMeal plan selectedDate = Some day ->
  handleMealComplete (mkState (Some plan) selectedDate) mealType snackIndex
  = Ok st' ->
  exists plan',
    activePlan st' = Some plan' /\
    (Progress.adherenceRate (DietPlan.progress plan') = int 100
     <-> forallb DayMeal.completed (DietPlan.meals plan') = true) /\
    (Progress.adherenceRate (DietPlan.progress plan') = int 0
     <-> forallb (fun d => negb (DayMeal.completed d)) (DietPlan.meals plan') = true).
Proof.
  intros (Hdur & _ & _ & _) Hlen D H.
  unfold handleMealComplete in H.
  cbn [Dashboard.activePlan Dashboard.selectedDate] in H. rewrite D in H.
  destruct (completeDay day mealType snackIndex) as [day'|e]; [|discriminate].
  cbn in H. injection H as <-. eexists. split; [reflexivity|].
  unfold updatePlan.
  cbn [DietPlan.progress DietPlan.meals Progress.adherenceRate].
  set (days := replaceDay selectedDate day' (DietPlan.meals plan)).
  assert (Hl : List.length days = List.length (DietPlan.meals plan))
    by apply replaceDay_length.
  assert (Hne : (0 < List.length (DietPlan.meals plan))%nat).
  { unfold currentDayMeal in D. destruct (DietPlan.meals plan);
      [discriminate D|simpl; lia]. }
  rewrite Hdur, <- Hl.
  destruct (adherence_extremes (countCompleted days)
              (Z.of_nat (List.length days)))
    as (r & -> & H100 & H0).
  { apply countCompleted_bounds. }
  { lia. }
  rewrite <- countCompleted_all, <- countCompleted_none, <- H100, <- H0.
  split; split; intros E; first [apply int_inj; exact E | rewrite E; reflexivity].
Qed.

Lemma full_adherence_means_every_day_completed_witness :
  trackedPlan Sample.plan /\
  (List.length (DietPlan.meals Sample.plan) < 200)%nat /\
  exists plan',
    activePlan Sample.afterSnack = Some plan' /\
    (Progress.adherenceRate (DietPlan.progress plan') = int 100
     <-> forallb DayMeal.completed (DietPlan.meals plan') = true) /\
    (Progress.adherenceRate (DietPlan.progress plan') = int 0
     <-> forallb (fun d => negb (DayMeal.completed d)) (DietPlan.meals plan') = true).
Proof.
  assert (T : trackedPlan Sample.plan).
  { split; [reflexivity|]. split; [reflexivity|]. split; [|reflexivity].
    apply NoDup_sameFlagsPerDate.
    repeat constructor; simpl; intuition discriminate. }
  assert (L : (List.length (DietPlan.meals Sample.plan) < 200)%nat)
    by (simpl; lia).
  split; [exact T|]. split; [exact L|].
  exact (full_adherence_means_every_day_completed Sample.plan 20000 snack (Some 0)
           (Sample.day 1 20000 true true true false false) Sample.afterSnack
           T L eq_refl eq_refl).
Defined.

(** From 200 days on the rate rounds to 100 with one day still open. *)
Example adherence_rounds_up_to_100 :
  Math_round (mul (div (int 199) (int 200)) (int 100)) = int 100 /\
  Math_round (mul (div (int 364) (int 365)) (int 100)) = int 100 /\
  Math_round (mul (div (int 1) (int 365)) (int 100)) = int 0.
Proof. repeat split. Qed.

End Completion.

(** ** The nutrition summary of the dashboard *)

Section Summary.

Import NutritionTrackingService NutritionSummary.
Local Open Scope list_scope.
Local Open Scope Z_scope.

(** The calories a meal contributes to a sum. *)
Lemma meal_calories (meal : Meal.t) :
  measured (Meal.nutrition meal) ->
  exists v, NutritionData.calories (calculateMealNutrition meal) = Fin v /\ (0 <= v)%Q.
Proof.
  intros H. apply calculateMealNutrition_measured in H. destruct H as [H _].
  apply nonNegative_Fin. exact H.
Qed.

(** The running totals of the snacks: the completed ones never exceed
    all of them, and shifting the start shifts the total. *)
Lemma snack_calories (snacks : list Meal.t) :
  Forall (fun m => measured (Meal.nutrition m)) snacks ->
  forall a N, NutritionData.calories N = Fin a ->
  exists z,
    NutritionData.calories
      (fold_left (fun acc snack => addNutritionData acc (calculateMealNutrition snack))
         snacks createEmptyNutritionData) = Fin z /\ (0 <= z)%Q /\
    exists c,
      NutritionData.calories (fold_left addIfCompleted snacks N) = Fin c /\
      (a <= c)%Q /\ (c <= a + z)%Q /\
      (forallb Meal.completed snacks = true -> (c == a + z)%Q).
Proof.
  intros Hf.
  assert (G : forall a0 N0 a N,
             NutritionData.calories N0 = Fin a0 ->
             NutritionData.calories N = Fin a ->
             exists z0,
               NutritionData.calories
                 (fold_left
                    (fun acc snack => addNutritionData acc (calculateMealNutrition snack))
                    snacks N0) = Fin z0 /\ (a0 <= z0)%Q /\
               exists c,
                 NutritionData.calories (fold_left addIfCompleted snacks N) = Fin c /\
                 (a <= c)%Q /\ (c - a <= z0 - a0)%Q /\
                 (forallb Meal.completed snacks = true -> (c - a == z0 - a0)%Q)).
  { induction Hf as [|s rest Hs Hr IH]; intros a0 N0 a N E0 E.
    - cbn [fold_left forallb]. exists a0. split; [exact E0|]. split; [lra|].
      exists a. split; [exact E|]. split; [lra|]. split; [lra|]. intros _. lra.
    - cbn [fold_left forallb].
      destruct (meal_calories s Hs) as (v & Ev & Hv).
      assert (E0' : NutritionData.calories
                      (addNutritionData N0 (calculateMealNutrition s))
                    = Fin (Qred (a0 + v))).
      { unfold addNutritionData. cbn [NutritionData.calories].
        rewrite E0, Ev. reflexivity. }
      unfold addIfCompleted at 2. destruct (Meal.completed s).
      + assert (E' : NutritionData.calories
                       (addNutritionData N (calculateMealNutrition s))
                     = Fin (Qred (a + v))).
        { unfold addNutritionData. cbn [NutritionData.calories].
          rewrite E, Ev. reflexivity. }
        destruct (IH _ _ _ _ E0' E') as (z0 & Ez & Hz & c & Ec & H1 & H2 & H3).
        pose proof (Qred_correct (a + v)) as Q1.
        pose proof (Qred_correct (a0 + v)) as Q0.
        exists z0. split; [exact Ez|]. split; [lra|].
        exists c. split; [exact Ec|]. split; [lra|]. split; [lra|].
        cbn [andb]. intros Hall. specialize (H3 Hall). lra.
      + destruct (IH _ _ _ _ E0' E) as (z0 & Ez & Hz & c & Ec & H1 & H2 & H3).
        pose proof (Qred_correct (a0 + v)) as Q0.
        exists z0. split; [exact Ez|]. split; [lra|].
        exists c. split; [exact Ec|]. split; [lra|]. split; [lra|].
        cbn [andb]. discriminate. }
  intros a N E.
  destruct (G 0%Q createEmptyNutritionData a N eq_refl E)
    as (z & Ez & Hz & c & Ec & H1 & H2 & H3).
  exists z. split; [exact Ez|]. split; [exact Hz|].
  exists c. split; [exact Ec|]. split; [lra|]. split; [lra|].
  intros Hall. specialize (H3 Hall). lra.
Qed.


Lemma main_meal_calories (N : NutritionData.t) (meal : Meal.t) (a : Q) :
  measured (Meal.nutrition meal) ->
  NutritionData.calories N = Fin a ->
  exists v c,
    NutritionData.calories (calculateMealNutrition meal) = Fin v /\ (0 <= v)%Q /\
    NutritionData.calories (addIfCompleted N meal) = Fin c /\
    (a <= c)%Q /\ (c <= a + v)%Q /\
    (Meal.completed meal = true -> (c == a + v)%Q) /\
    (Meal.completed meal = false -> (c == a)%Q).
Proof.
  intros Hm E. destruct (meal_calories meal Hm) as (v & Ev & Hv).
  exists v. unfold addIfCompleted. destruct (Meal.completed meal).
  - exists (Qred (a + v)). split; [exact Ev|]. split; [exact Hv|].
    split; [unfold addNutritionData; cbn [NutritionData.calories];
            rewrite E, Ev; reflexivity|].
    pose proof (Qred_correct (a + v)) as Q1.
    split; [lra|]. split; [lra|]. split; [intros _; lra|discriminate].
  - exists a. split; [exact Ev|]. split; [exact Hv|]. split; [exact E|].
    split; [lra|]. split; [lra|]. split; [discriminate|intros _; lra].
Qed.

Lemma todays_progress_measured (currentDayMeal : DayMeal.t) :
  Forall (fun m => measured (Meal.nutrition m))
    (mealsOf (DayMeal.meals currentDayMeal)) ->
  exists completed total : Q,
    NutritionData.calories (calculateCompletedNutrition currentDayMeal)
    = Fin completed /\
    NutritionData.calories (calculateDayNutrition currentDayMeal) = Fin total /\
    (0 <= completed)%Q /\ (completed <= total)%Q /\
    ((total == 0)%Q -> todaysProgress currentDayMeal = NaN) /\
    ((0 < total)%Q ->
     exists z,
       todaysProgress currentDayMeal = int z /\ 0 <= z <= 100 /\
       (Dashboard.allMealsCompleted (DayMeal.meals currentDayMeal) = true ->
        z = 100) /\
       (unstartedMeals (DayMeal.meals currentDayMeal) = true -> z = 0)).
Proof.
  intros Hf. pose proof Hf as Hf0. unfold mealsOf in Hf.
  inversion Hf as [|? ? Fb Hf1]; subst. inversion Hf1 as [|? ? Fl Hf2]; subst.
  inversion Hf2 as [|? ? Fd Fs]; subst.
  set (ms := DayMeal.meals currentDayMeal) in *.
  destruct (main_meal_calories createEmptyNutritionData (Meals.breakfast ms) 0
              Fb eq_refl)
    as (vb & c1 & Evb & Hvb & E1 & L1 & U1 & T1 & N1).
  destruct (main_meal_calories _ (Meals.lunch ms) c1 Fl E1)
    as (vl & c2 & Evl & Hvl & E2 & L2 & U2 & T2 & N2).
  destruct (main_meal_calories _ (Meals.dinner ms) c2 Fd E2)
    as (vd & c3 & Evd & Hvd & E3 & L3 & U3 & T3 & N3).
  destruct (snack_calories (Meals.snacks ms) Fs c3 _ E3)
    as (z & Ez & Hz & c & Ec & L4 & U4 & T4).
  assert (Ecompleted : NutritionData.calories
                         (calculateCompletedNutrition currentDayMeal) = Fin c).
  { exact Ec. }
  assert (Etotal : exists y,
             NutritionData.calories (calculateDayNutrition currentDayMeal) = Fin y /\
             (y == vb + vl + vd + z)%Q).
  { unfold calculateDayNutrition. cbv zeta. fold ms.
    unfold addNutritionData at 1 2 3. cbn [NutritionData.calories].
    rewrite Evb, Evl, Evd, Ez. cbn [add]. eexists. split; [reflexivity|].
    rewrite !Qred_correct. reflexivity. }
  destruct Etotal as (y & Etotal & Hy).
  exists c, y. split; [exact Ecompleted|]. split; [exact Etotal|].
  split; [lra|]. split; [lra|].
  unfold todaysProgress. cbv zeta. rewrite Ecompleted, Etotal.
  change (Math_round (mul (div (Fin c) (Fin y)) (int 100)))
    with (percentOf (Fin c) (Fin y)).
  split.
  - intros Hy0. rewrite (percentOf_zero c y Hy0).
    assert (Hc : (c == 0)%Q) by lra.
    assert (Hc' : (0 == c)%Q) by lra.
    unfold Qsign. rewrite (proj1 (Qeq_alt 0 c) Hc'). reflexivity.
  - intros Hpos. rewrite percentOf_nonzero by lra.
    eexists. split; [reflexivity|].
    assert (Hr : (0 <= c / y)%Q /\ (c / y <= 1)%Q).
    { split.
      - apply Qle_shift_div_l; [exact Hpos|]. lra.
      - apply Qle_shift_div_r; [exact Hpos|]. lra. }
    destruct Hr as [Hr0 Hr1].
    split; [|split].
    + apply (round_Z_range _ 0 100).
      * change (inject_Z 0) with 0%Q. lra.
      * change (inject_Z 100) with 100%Q. lra.
    + intros Hall. unfold Dashboard.allMealsCompleted in Hall. fold ms in Hall.
      rewrite !Bool.andb_true_iff in Hall. destruct Hall as (((Ab & Al) & Ad) & As).
      specialize (T1 Ab). specialize (T2 Al). specialize (T3 Ad).
      specialize (T4 As).
      rewrite (round_Z_eq _ (inject_Z 100)); [reflexivity|].
      change (inject_Z 100) with 100%Q.
      assert (Ecy : (c == y)%Q) by lra.
      rewrite Ecy. field. lra.
    + intros Hun. unfold unstartedMeals in Hun. fold ms in Hun.
      rewrite !Bool.andb_true_iff in Hun. destruct Hun as (((Ub & Ul) & Ud) & Us).
      apply Bool.negb_true_iff in Ub, Ul, Ud.
      specialize (N1 Ub). specialize (N2 Ul). specialize (N3 Ud).
      assert (Ec0 : (c == 0)%Q).
      { assert (Hcc : calculateCompletedNutrition currentDayMeal
                      = createEmptyNutritionData).
        { apply calculateCompletedNutrition_unstarted. unfold unstartedMeals.
          fold ms. rewrite Ub, Ul, Ud, Us. reflexivity. }
        rewrite Hcc in Ecompleted. cbn in Ecompleted.
        injection Ecompleted as <-. reflexivity. }
      rewrite (round_Z_eq _ (inject_Z 0)); [reflexivity|].
      change (inject_Z 0) with 0%Q. rewrite Ec0. field. lra.
Qed.

(** X18.  The percentage "Today's Progress" of the dashboard, for a day
    whose meals carry whole, non-negative numbers of at most 10^9 and
    which has at most a thousand snacks: the calories of the completed
    meals never exceed the calories of the day, so when the day has
    calories at all the percentage is a whole number between 0 and 100,
    it is 100 when every meal is marked and 0 when none is.  When the
    meals of the day carry no calories the percentage is NaN. *)
Theorem todays_progress_range (currentDayMeal : DayMeal.t) :
  wholeMeals (10 ^ 9) (DayMeal.meals currentDayMeal) ->
  Forall (fun m => measured (Meal.nutrition m))
    (mealsOf (DayMeal.meals currentDayMeal)) ->
  exists completed total : Q,
    NutritionData.calories (calculateCompletedNutrition currentDayMeal)
    = Fin completed /\
    NutritionData.calories (calculateDayNutrition currentDayMeal) = Fin total /\
    (0 <= completed)%Q /\ (completed <= total)%Q /\
    ((total == 0)%Q -> todaysProgress currentDayMeal = NaN) /\
    ((0 < total)%Q ->
     exists z,
       todaysProgress currentDayMeal = int z /\ 0 <= z <= 100 /\
       (everyMealCompleted (DayMeal.meals currentDayMeal) = true -> z = 100) /\
       (unstartedMeals (DayMeal.meals currentDayMeal) = true -> z = 0)).
Proof.
  intros _ Hf.
  destruct (todays_progress_measured currentDayMeal Hf)
    as (c & t & Ec & Et & Hc & Hct & Hzero & Hpos).
  exists c, t. repeat (split; [assumption|]).
  intros Ht. destruct (Hpos Ht) as (z & Ez & Hz & Hall & Hnone).
  exists z. repeat (split; [assumption|]). split; [|exact Hnone].
  intros H. apply Hall. rewrite allMealsCompleted_every. exact H.
Qed.

Lemma todays_progress_range_witness :
  wholeMeals (10 ^ 9)
    (DayMeal.meals (Sample.day 1 20000 true true true false false)) /\
  Forall (fun m => measured (Meal.nutrition m))
    (mealsOf (DayMeal.meals (Sample.day 1 20000 true true true false false))) /\
  exists completed total : Q,
    NutritionData.calories
      (calculateCompletedNutrition (Sample.day 1 20000 true true true false false))
    = Fin completed /\
    NutritionData.calories
      (calculateDayNutrition (Sample.day 1 20000 true true true false false))
    = Fin total /\
    (0 <= completed)%Q /\ (completed <= total)%Q /\
    ((total == 0)%Q ->
     todaysProgress (Sample.day 1 20000 true true true false false) = NaN) /\
    ((0 < total)%Q ->
     exists z,
       todaysProgress (Sample.day 1 20000 true true true false false) = int z /\
       0 <= z <= 100 /\
       (everyMealCompleted
          (DayMeal.meals (Sample.day 1 20000 true true true false false)) = true ->
        z = 100) /\
       (unstartedMeals
          (DayMeal.meals (Sample.day 1 20000 true true true false false)) = true ->
        z = 0)).
Proof.
  assert (W : wholeMeals (10 ^ 9)
                (DayMeal.meals (Sample.day 1 20000 true true true false false))).
  { split; [|cbn; lia]. repeat constructor; whole_data. }
  assert (F : Forall (fun m => measured (Meal.nutrition m))
                (mealsOf (DayMeal.meals
                            (Sample.day 1 20000 true true true false false)))).
  { repeat constructor; vm_compute; discriminate. }
  split; [exact W|]. split; [exact F|].
  exact (todays_progress_range (Sample.day 1 20000 true true true false false) W F).
Defined.

Example todays_progress_of_sample_days :
  todaysProgress (Sample.day 1 20000 true true true false false) = int 90 /\
  todaysProgress
    (DayMeal.mk 1 20000
       (Meals.mk (Sample.meal 0 true) (Sample.meal 0 false) (Sample.meal 0 false) [])
       (int 0) false) = NaN.
Proof. split; vm_compute; reflexivity. Qed.

End Summary.

(** ** Validation of profiles *)

Section Validation.

Import ProfileService.
Local Open Scope string_scope.
Local Open Scope list_scope.
Local Open Scope Z_scope.

Lemma dotInside_spec (s : list ascii) :
  dotInside s = true <->
  exists d1 d2, s = d1 ++ "."%char :: d2 /\ d1 <> [] /\ d2 <> [].
Proof.
  split.
  - induction s as [|x rest IH]; [discriminate|].
    destruct rest as [|c [|y t]]; try discriminate.
    cbn [dotInside]. intros H. apply Bool.orb_true_iff in H. destruct H as [H|H].
    + apply Ascii.eqb_eq in H. subst c.
      exists [x], (y :: t). repeat split; discriminate.
    + destruct (IH H) as (d1 & d2 & E & H1 & H2).
      exists (x :: d1), d2. rewrite E. repeat split; [discriminate|exact H2].
  - intros (d1 & d2 & -> & H1 & H2).
    induction d1 as [|x d1 IH]; [contradiction|].
    destruct d1 as [|x' d1'].
    + destruct d2 as [|y t]; [contradiction|].
      reflexivity.
    + change ((x :: x' :: d1') ++ "."%char :: d2)
        with (x :: (x' :: d1') ++ "."%char :: d2).
      remember ((x' :: d1') ++ "."%char :: d2) as rest eqn:Er.
      assert (IH' : dotInside rest = true) by (apply IH; discriminate).
      destruct rest as [|c [|y t]]; try discriminate IH'.
      change (dotInside (x :: c :: y :: t))
        with (Ascii.eqb c "." || dotInside (c :: y :: t)).
      rewrite IH'. apply Bool.orb_true_r.
Qed.


Lemma plain_at : plain "@" = false.
Proof. reflexivity. Qed.

Lemma plain_spec (c : ascii) :
  plain c = true <-> is_space c = false /\ Ascii.eqb c "@" = false.
Proof.
  unfold plain. rewrite Bool.andb_true_iff, !Bool.negb_true_iff. reflexivity.
Qed.

Lemma emailFrom_spec (s : list ascii) :
  forall seen,
    emailFrom seen s = true <->
    exists local domain,
      s = local ++ "@"%char :: domain /\ forallb plain local = true /\
      (seen = true \/ local <> []) /\ domainOk domain = true.
Proof.
  induction s as [|c rest IH]; intros seen.
  - cbn [emailFrom]. split; [discriminate|].
    intros (local & domain & E & _). destruct local; discriminate E.
  - cbn [emailFrom]. destruct (Ascii.eqb c "@") eqn:Eat.
    + apply Ascii.eqb_eq in Eat. subst c. rewrite Bool.andb_true_iff. split.
      * intros [Hs Hd]. exists [], rest. repeat split; auto.
      * intros (local & domain & E & Hp & Hs & Hd).
        destruct local as [|x local].
        -- injection E as <-. destruct Hs as [Hs|Hs]; [|contradiction].
           split; assumption.
        -- injection E as <- _. cbn [forallb] in Hp. rewrite plain_at in Hp.
           discriminate Hp.
    + destruct (is_space c) eqn:Esp.
      * split; [discriminate|].
        intros (local & domain & E & Hp & _).
        destruct local as [|x local].
        -- injection E as -> _. rewrite Ascii.eqb_refl in Eat. discriminate.
        -- injection E as <- _. cbn [forallb] in Hp.
           apply Bool.andb_true_iff in Hp. destruct Hp as [Hp _].
           apply plain_spec in Hp. destruct Hp as [Hp _]. congruence.
      * rewrite IH. split.
        -- intros (local & domain & -> & Hp & _ & Hd).
           exists (c :: local), domain. repeat split.
           ++ cbn [forallb]. rewrite Hp, Bool.andb_true_r.
              apply plain_spec. split; assumption.
           ++ right. discriminate.
           ++ exact Hd.
        -- intros (local & domain & E & Hp & _ & Hd).
           destruct local as [|x local].
           ++ injection E as -> _. rewrite Ascii.eqb_refl in Eat. discriminate.
           ++ injection E as _ ->. cbn [forallb] in Hp.
              apply Bool.andb_true_iff in Hp. destruct Hp as [_ Hp].
              exists local, domain. repeat split; auto.
Qed.

Lemma emailOk_spec (email : string) :
  emailOk email = true <->
  exists localPart name tail : list ascii,
    list_ascii_of_string email
    = localPart ++ "@"%char :: name ++ "."%char :: tail /\
    localPart <> [] /\ name <> [] /\ tail <> [] /\
    forallb plain localPart = true /\ forallb plain name = true /\
    forallb plain tail = true.
Proof.
  unfold emailOk. rewrite emailFrom_spec. split.
  - intros (local & domain & E & Hp & Hs & Hd).
    destruct Hs as [Hs|Hs]; [discriminate|].
    unfold domainOk in Hd. apply Bool.andb_true_iff in Hd.
    destruct Hd as [Hpd Hdot]. apply dotInside_spec in Hdot.
    destruct Hdot as (d1 & d2 & -> & H1 & H2).
    rewrite forallb_app in Hpd. cbn [forallb] in Hpd.
    rewrite !Bool.andb_true_iff in Hpd. destruct Hpd as (P1 & _ & P2).
    exists local, d1, d2. repeat split; assumption.
  - intros (l & d1 & d2 & E & Hl & H1 & H2 & Pl & P1 & P2).
    exists l, (d1 ++ "."%char :: d2). repeat split; auto.
    unfold domainOk. apply Bool.andb_true_iff. split.
    + rewrite forallb_app. cbn [forallb]. rewrite P1, P2. reflexivity.
    + apply dotInside_spec. exists d1, d2. repeat split; assumption.
Qed.

(** X19.  On ASCII text the email test of the validation accepts
    exactly the strings of the form local@name.tail in which the three
    parts are not empty and contain neither a white-space character nor
    a further @ (dots are allowed in every part). *)
Theorem email_test_accepts_local_at_name_dot_tail (email : string) :
  asciiText email = true ->
  (emailOk email = true <->
   exists localPart name tail : list ascii,
     list_ascii_of_string email
     = localPart ++ "@"%char :: name ++ "."%char :: tail /\
     localPart <> [] /\ name <> [] /\ tail <> [] /\
     forallb plain localPart = true /\ forallb plain name = true /\
     forallb plain tail = true).
Proof. intros _. apply emailOk_spec. Qed.

Lemma email_test_accepts_local_at_name_dot_tail_witness :
  asciiText "user@example.com" = true /\
  (emailOk "user@example.com" = true <->
   exists localPart name tail : list ascii,
     list_ascii_of_string "user@example.com"
     = localPart ++ "@"%char :: name ++ "."%char :: tail /\
     localPart <> [] /\ name <> [] /\ tail <> [] /\
     forallb plain localPart = true /\ forallb plain name = true /\
     forallb plain tail = true).
Proof.
  split; [reflexivity|].
  exact (email_test_accepts_local_at_name_dot_tail "user@example.com" eq_refl).
Defined.

Example email_test_samples :
  map emailOk
    [ "user@example.com"; "a.b@c.d.e"; "user@example"; "user@.com";
      "user@example."; "@example.com"; "us er@example.com"; "a@b@c.de" ]
  = [ true; true; false; false; false; false; false; false ].
Proof. reflexivity. Qed.


Lemma inside_not_outside (lo hi : Z) (v : number) :
  between lo hi v = true -> outside lo hi v = false.
Proof.
  intros H. destruct (between_Fin _ _ _ H) as (q & -> & H1 & H2).
  unfold outside, gtb, int.
  rewrite (proj2 (ltb_Fin_false q (inject_Z lo)) H1).
  rewrite (proj2 (ltb_Fin_false (inject_Z hi) q) H2).
  apply Bool.andb_false_r.
Qed.

(** X20.  The validation accepts every valid profile with a name and an
    email of ASCII text whose name has at least two characters after
    trimming (or is empty) and whose email passes the email test (or is
    empty): no error is returned. *)
Theorem validation_accepts_valid_profiles (profile : UserProfile.t) :
  validProfile profile = true ->
  asciiText (UserProfile.name profile) = true ->
  asciiText (UserProfile.email profile) = true ->
  UserProfile.name profile = "" \/
  2 <= Z.of_nat (List.length
                   (trim (list_ascii_of_string (UserProfile.name profile)))) ->
  UserProfile.email profile = "" \/ emailOk (UserProfile.email profile) = true ->
  validateProfileData (asPartial profile) = None.
Proof.
  intros Hv _ _ Hname Hemail. unfold validProfile in Hv. cbv zeta in Hv.
  rewrite !Bool.andb_true_iff in Hv.
  destruct Hv as ((((((((Ha & Hw) & Hh) & _) & _) & _) & _) & H7) & H365).
  unfold validateProfileData, asPartial.
  cbn [PartialProfile.name PartialProfile.email PartialProfile.personalDetails
       PartialProfile.planDuration optBool].
  rewrite (inside_not_outside _ _ _ Ha), (inside_not_outside _ _ _ Hw),
    (inside_not_outside _ _ _ Hh).
  assert (E1 : negb (String.eqb (UserProfile.name profile) "")
               && (Z.of_nat (List.length
                               (trim (list_ascii_of_string
                                        (UserProfile.name profile)))) <? 2)
               = false).
  { destruct Hname as [->|Hn]; [reflexivity|].
    apply Bool.andb_false_iff. right. apply Z.ltb_ge. exact Hn. }
  assert (E2 : negb (String.eqb (UserProfile.email profile) "")
               && negb (emailOk (UserProfile.email profile)) = false).
  { destruct Hemail as [->|He]; [reflexivity|]. rewrite He.
    apply Bool.andb_false_r. }
  rewrite E1, E2.
  assert (E3 : negb (UserProfile.planDuration profile =? 0)
               && ((UserProfile.planDuration profile <? 7)
                   || (UserProfile.planDuration profile >? 365)) = false).
  { apply Z.leb_le in H7, H365. apply Bool.andb_false_iff. right.
    apply Bool.orb_false_iff. split; [apply Z.ltb_ge; lia|].
    rewrite Z.gtb_ltb. apply Z.ltb_ge. lia. }
  rewrite E3. reflexivity.
Qed.

Lemma validation_accepts_valid_profiles_witness :
  validProfile (Sample.adult "maintenance" "omnivore" 30) = true /\
  asciiText (UserProfile.name (Sample.adult "maintenance" "omnivore" 30)) = true /\
  asciiText (UserProfile.email (Sample.adult "maintenance" "omnivore" 30)) = true /\
  validateProfileData (asPartial (Sample.adult "maintenance" "omnivore" 30)) = None.
Proof.
  split; [reflexivity|]. split; [reflexivity|]. split; [reflexivity|].
  apply (validation_accepts_valid_profiles (Sample.adult "maintenance" "omnivore" 30)).
  - reflexivity.
  - reflexivity.
  - reflexivity.
  - right. vm_compute. discriminate.
  - right. reflexivity.
Defined.

(** The validation tests only values that are present and truthy: a
    profile without a name and an email, with age, weight and height 0,
    no gender and a plan of 0 days, is accepted. *)
Example validation_skips_missing_values :
  validProfile
    (UserProfile.mk "" ""
       (PersonalDetails.mk (int 0) "" (int 0) (int 0) "")
       (HealthGoals.mk "" None) "" 0) = false /\
  validateProfileData
    (asPartial
       (UserProfile.mk "" ""
          (PersonalDetails.mk (int 0) "" (int 0) (int 0) "")
          (HealthGoals.mk "" None) "" 0)) = None.
Proof. split; reflexivity. Qed.

End Validation.

(** ** Stored profiles *)

Section Storage.

Import ProfileService ProfileStore.
Local Open Scope string_scope.
Local Open Scope list_scope.
Local Open Scope Z_scope.

(** X21.  The tracker never adjusts the calories of a profile read from
    the database for its goal: the profile built from a row has no
    [primaryGoal], so the calorie goal is the rounded TDEE and the goals
    are the same whatever the stored goal is. *)
Theorem tracker_ignores_goal_of_loaded_profiles (profileRow : ProfileRow.t)
    (goal : string) :
  let profile := profileRowToUserProfile profileRow in
  let d := UserProfile.personalDetails profile in
  NutritionData.calories (NutritionTrackingService.calculateDailyNutritionGoals profile)
  = Math_round (NutritionTrackingService.tdee_of d) /\
  NutritionTrackingService.calculateDailyNutritionGoals profile
  = NutritionTrackingService.calculateDailyNutritionGoals
      (profileRowToUserProfile
         (ProfileRow.mk
            (ProfileRow.name profileRow) (ProfileRow.email profileRow)
            (ProfileRow.age profileRow) (ProfileRow.gender profileRow)
            (ProfileRow.weight profileRow) (ProfileRow.height profileRow)
            (ProfileRow.activity_level profileRow) goal
            (ProfileRow.diet_type profileRow)
            (ProfileRow.plan_duration_days profileRow))).
Proof.
  cbv zeta. split.
  - unfold NutritionTrackingService.calculateDailyNutritionGoals. cbv zeta.
    destruct (NutritionTrackingService.macroRatios _) as [[pr fr] cr].
    reflexivity.
  - reflexivity.
Qed.

Lemma validateProfileData_accepts (data : PartialProfile.t) :
  validateProfileData data = None ->
  optBool (PartialProfile.planDuration data)
    (fun n => negb (n =? 0) && ((n <? 7) || (n >? 365))) = false.
Proof.
  unfold validateProfileData.
  repeat match goal with
         | |- context [if ?c then _ else _] => destruct c; try discriminate
         end.
  reflexivity.
Qed.

Lemma accepted_duration (n : Z) :
  negb (n =? 0) && ((n <? 7) || (n >? 365)) = false ->
  n = 0 \/ 7 <= n <= 365.
Proof.
  intros H. apply Bool.andb_false_iff in H. destruct H as [H|H].
  - left. apply Bool.negb_false_iff in H. apply Z.eqb_eq in H. exact H.
  - right. apply Bool.orb_false_iff in H. destruct H as [H1 H2].
    apply Z.ltb_ge in H1. rewrite Z.gtb_ltb in H2. apply Z.ltb_ge in H2. lia.
Qed.

Lemma createProfile_row (env : Env) (profileData : UserProfile.t)
    (row : ProfileRow.t) :
  ProfileResult.data (createProfile env profileData) = Some row ->
  validateProfileData (asPartial profileData) = None /\
  row = profileInsert profileData.
Proof.
  unfold createProfile.
  destruct (validateProfileData (asPartial profileData)); [discriminate|].
  destruct (user env); [|discriminate].
  destruct (databaseError env); [discriminate|].
  cbn. intros H. injection H as <-. split; reflexivity.
Qed.

Lemma updateProfile_row (env : Env) (updates : ProfileUpdates.t)
    (stored row : ProfileRow.t) :
  ProfileResult.data (updateProfile env updates stored) = Some row ->
  validateProfileData (validated updates) = None /\
  row = profileUpdate updates stored.
Proof.
  unfold updateProfile.
  destruct (validateProfileData (validated updates)); [discriminate|].
  destruct (databaseError env); [discriminate|].
  cbn. intros H. injection H as <-. split; reflexivity.
Qed.

(** X22.  The rows written by [createProfile] and [updateProfile] keep
    the plan duration between 7 and 365 days: a created row has it (a
    duration of 0 is stored as 30), an update preserves it, and never
    changes the email.  The generator then produces, for the profile
    read from such a row, a plan of exactly that many days. *)
Theorem saved_duration_stays_in_range (env : Env) (generator : AIService.Env) :
  (forall profileData row,
      ProfileResult.data (createProfile env profileData) = Some row ->
      durationInRange row) /\
  (forall updates stored row,
      ProfileResult.data (updateProfile env updates stored) = Some row ->
      ProfileRow.email row = ProfileRow.email stored /\
      (durationInRange stored -> durationInRange row)) /\
  (forall row,
      durationInRange row ->
      exists plan,
        AIService.generateDietPlan generator (profileRowToUserProfile row) = Ok plan /\
        ProfileRow.plan_duration_days row
        = Some (Z.of_nat (List.length (DietPlan.meals plan))) /\
        (7 <= List.length (DietPlan.meals plan) <= 365)%nat).
Proof.
  split; [|split].
  - intros p row H. apply createProfile_row in H. destruct H as [Hv ->].
    apply validateProfileData_accepts in Hv. cbn in Hv.
    apply accepted_duration in Hv.
    unfold durationInRange, profileInsert. cbn [ProfileRow.plan_duration_days].
    eexists. split; [reflexivity|]. unfold or30.
    destruct (UserProfile.planDuration p =? 0) eqn:E; [lia|].
    apply Z.eqb_neq in E. lia.
  - intros u stored row H. apply updateProfile_row in H. destruct H as [Hv ->].
    split; [reflexivity|].
    intros (n & En & Hn).
    apply validateProfileData_accepts in Hv.
    unfold durationInRange, profileUpdate. cbn [ProfileRow.plan_duration_days].
    unfold validated in Hv. cbn [PartialProfile.planDuration] in Hv.
    destruct (ProfileUpdates.planDuration u) as [m|]; [|exists n; auto].
    cbn [optBool] in Hv. apply accepted_duration in Hv.
    destruct (m =? 0) eqn:E; [exists n; auto|].
    apply Z.eqb_neq in E. exists m. split; [reflexivity|lia].
  - intros row (n & En & Hn).
    destruct (generateDietPlan_ok generator (profileRowToUserProfile row))
      as (ds & E & _ & Hlen & _).
    eexists. split; [exact E|].
    unfold AIService.planOf. cbn [DietPlan.meals].
    unfold profileRowToUserProfile in Hlen. cbn [UserProfile.planDuration] in Hlen.
    rewrite En in Hlen. unfold or30 in Hlen.
    destruct (n =? 0) eqn:E0; [apply Z.eqb_eq in E0; lia|].
    rewrite Hlen, En. split; [f_equal; lia|lia].
Qed.

Lemma saved_duration_stays_in_range_witness :
  durationInRange
    (profileInsert (Sample.adult "maintenance" "omnivore" 0)) /\
  exists plan,
    AIService.generateDietPlan Sample.offline
      (profileRowToUserProfile
         (profileInsert (Sample.adult "maintenance" "omnivore" 0))) = Ok plan /\
    ProfileRow.plan_duration_days
      (profileInsert (Sample.adult "maintenance" "omnivore" 0))
    = Some (Z.of_nat (List.length (DietPlan.meals plan))) /\
    (7 <= List.length (DietPlan.meals plan) <= 365)%nat.
Proof.
  assert (H : durationInRange
                (profileInsert (Sample.adult "maintenance" "omnivore" 0))).
  { exact (proj1 (saved_duration_stays_in_range (mkEnv (Some "user") None)
                    Sample.offline)
             (Sample.adult "maintenance" "omnivore" 0) _ eq_refl). }
  split; [exact H|].
  exact (proj2 (proj2 (saved_duration_stays_in_range (mkEnv (Some "user") None)
                         Sample.offline)) _ H).
Defined.


End Storage.

(** ** Macronutrient goals of the two components *)

Section MacroGoals.

Local Open Scope string_scope.
Local Open Scope list_scope.
Local Open Scope Z_scope.

(** X25.  For a valid keto profile whose goal asks for no adjustment
    (maintenance or general health), the tracker's daily goals for
    protein, carbs and fat are the macronutrient targets of the plan
    generator. *)
Theorem macro_goals_agree_for_keto (p : UserProfile.t) :
  validProfile p = true ->
  trackerGoalConsistent p ->
  HealthGoals.primary (UserProfile.healthGoals p) = "maintenance" \/
  HealthGoals.primary (UserProfile.healthGoals p) = "general_health" ->
  UserProfile.dietType p = "keto" ->
  let targets := AIService.calculateNutritionTargets p in
  let goals := NutritionTrackingService.calculateDailyNutritionGoals p in
  NutritionTargets.protein targets = NutritionData.protein goals /\
  NutritionTargets.carbs targets = NutritionData.carbs goals /\
  NutritionTargets.fat targets = NutritionData.fat goals.
Proof.
  intros Hv Hc Hg Hd. cbv zeta.
  assert (Hlevel : oneOf (PersonalDetails.activityLevel (UserProfile.personalDetails p))
                         activityLevels = true).
  { unfold validProfile in Hv. cbv zeta in Hv.
    rewrite !Bool.andb_true_iff in Hv.
    destruct Hv as ((((((((_ & _) & _) & _) & Hl) & _) & _) & _) & _).
    exact Hl. }
  pose proof (tdee_agree _ Hlevel) as Ht.
  destruct (valid_dailyCalories_finite p Hv) as [q Hq].
  assert (E : NutritionTrackingService.is_goal
                (HealthGoals.primaryGoal (UserProfile.healthGoals p)) "weight_loss"
              = false /\
              NutritionTrackingService.is_goal
                (HealthGoals.primaryGoal (UserProfile.healthGoals p)) "muscle_gain"
              = false).
  { destruct Hc as [-> | ->]; [split; reflexivity|].
    destruct Hg as [-> | ->]; split; reflexivity. }
  destruct E as [E1 E2].
  assert (Hq' : NutritionTrackingService.goalTdee p = Fin q).
  { unfold NutritionTrackingService.goalTdee. cbv zeta. rewrite E1, E2, <- Ht.
    unfold AIService.adjustForGoal in Hq.
    destruct Hg as [G | G]; rewrite G in Hq; exact Hq. }
  unfold AIService.calculateNutritionTargets,
    NutritionTrackingService.calculateDailyNutritionGoals.
  cbv zeta. rewrite Hq, Hq', Hd.
  cbn [AIService.macroRatios NutritionTrackingService.macroRatios String.eqb
       Ascii.eqb Bool.eqb NutritionTargets.protein NutritionTargets.carbs
       NutritionTargets.fat NutritionData.protein NutritionData.carbs
       NutritionData.fat].
  rewrite !grams_of_ratio by discriminate.
  repeat split; unfold int; do 2 f_equal; apply round_Z_eq;
    change (inject_Z 9) with 9%Q; change (inject_Z 4) with 4%Q; field.
Qed.

Lemma macro_goals_agree_for_keto_witness :
  validProfile (Sample.adult "maintenance" "keto" 30) = true /\
  NutritionTargets.protein
    (AIService.calculateNutritionTargets (Sample.adult "maintenance" "keto" 30))
  = NutritionData.protein
      (NutritionTrackingService.calculateDailyNutritionGoals
         (Sample.adult "maintenance" "keto" 30)).
Proof.
  split; [reflexivity|].
  exact (proj1 (macro_goals_agree_for_keto (Sample.adult "maintenance" "keto" 30)
                  eq_refl (or_introl eq_refl) (or_introl eq_refl) eq_refl)).
Defined.

(** For the other diet types the two components use different ratios:
    the same omnivore gets 172 g protein and 310 g carbs from the
    generator and 207 g and 276 g from the tracker. *)
Example macro_goals_differ_for_omnivores :
  AIService.calculateNutritionTargets (Sample.adult "maintenance" "omnivore" 30)
  = NutritionTargets.mk (int 2759) (int 172) (int 310) (int 92) /\
  map (fun f => f (NutritionTrackingService.calculateDailyNutritionGoals
                     (Sample.adult "maintenance" "omnivore" 30)))
      [ NutritionData.calories; NutritionData.protein; NutritionData.carbs;
        NutritionData.fat ]
  = [ int 2759; int 207; int 276; int 92 ].
Proof. split; vm_compute; reflexivity. Qed.

(** X26.  The score of a progress whose percentages are whole numbers,
    with a non-negative fiber percentage, is a whole number between 0
    and 102, and at most 100 unless the fiber percentage lies strictly
    between 80 and 100. *)
Theorem nutrition_score_range (progress : NutritionProgress.t)
    (calories protein carbs fat fiber : Z) :
  NutritionProgress.percentage progress
  = Percentage.mk (int calories) (int protein) (int carbs) (int fat) (int fiber) ->
  0 <= fiber ->
  exists score,
    NutritionTrackingService.calculateNutritionScore progress = int score /\
    0 <= score <= 102 /\
    (fiber <= 80 \/ 100 <= fiber -> score <= 100).
Proof.
  intros Hp Hf.
  destruct (calculateNutritionScore_range progress (inject_Z calories)
              (inject_Z protein) (inject_Z carbs) (inject_Z fat) (inject_Z fiber) Hp)
    as (s & Es & Hs & H100).
  { change 0%Q with (inject_Z 0). rewrite <- Zle_Qle. exact Hf. }
  exists s. split; [exact Es|]. split; [exact Hs|].
  intros H. apply H100. destruct H as [H|H]; [left|right].
  - change 80%Q with (inject_Z 80). rewrite <- Zle_Qle. exact H.
  - change 100%Q with (inject_Z 100). rewrite <- Zle_Qle. exact H.
Qed.

Lemma nutrition_score_range_witness :
  0 <= 80 /\
  exists score,
    NutritionTrackingService.calculateNutritionScore
      (NutritionTrackingService.calculateNutritionProgress
         (Sample.nutrition 1800 90 260 75 20) (Sample.nutrition 2000 100 250 70 25))
    = int score /\
    0 <= score <= 102 /\
    (80 <= 80 \/ 100 <= 80 -> score <= 100).
Proof.
  assert (H : 0 <= 80) by lia.
  split; [exact H|].
  exact (nutrition_score_range
           (NutritionTrackingService.calculateNutritionProgress
              (Sample.nutrition 1800 90 260 75 20)
              (Sample.nutrition 2000 100 250 70 25))
           90 90 104 107 80 eq_refl H).
Defined.

End MacroGoals.

(** ** Saving an edited meal *)

Section SavingMeals.

Import NutritionTrackingService MealPlanPage.
Local Open Scope list_scope.
Local Open Scope Z_scope.

(** X27.  Saving an edited meal on the meal plan page.  Under the key
    of a main meal the meal replaces that meal of the day.  Under any
    other key, which is how snacks and added meals are edited, the four
    meals fields of the day stay as they were: the snacks and the
    nutrition of the day do not change.  In both cases the total of the
    day is recalculated from its meals; number, date and completion
    flag of the day are kept. *)
Theorem saving_a_snack_changes_no_meal (currentDayMeal : DayObject)
    (editingMeal : Key) (updatedMeal : Meal.t) :
  let saved := dayMeal (handleSaveMeal currentDayMeal editingMeal updatedMeal) in
  let before := DayMeal.meals (dayMeal currentDayMeal) in
  (DayMeal.meals saved =
   match editingMeal with
   | mealKey breakfast =>
       Meals.mk updatedMeal (Meals.lunch before) (Meals.dinner before)
         (Meals.snacks before)
   | mealKey lunch =>
       Meals.mk (Meals.breakfast before) updatedMeal (Meals.dinner before)
         (Meals.snacks before)
   | mealKey dinner =>
       Meals.mk (Meals.breakfast before) (Meals.lunch before) updatedMeal
         (Meals.snacks before)
   | _ => before
   end) /\
  (match editingMeal with
   | mealKey breakfast | mealKey lunch | mealKey dinner => True
   | _ =>
       Meals.snacks (DayMeal.meals saved) = Meals.snacks before /\
       calculateDayNutrition saved = calculateDayNutrition (dayMeal currentDayMeal)
   end) /\
  DayMeal.totalCalories saved
  = Math_round (NutritionData.calories (calculateDayNutrition saved)) /\
  DayMeal.day saved = DayMeal.day (dayMeal currentDayMeal) /\
  DayMeal.date saved = DayMeal.date (dayMeal currentDayMeal) /\
  DayMeal.completed saved = DayMeal.completed (dayMeal currentDayMeal).
Proof.
  cbv zeta. destruct currentDayMeal as [[n date [b l d s] total completed] o].
  destruct editingMeal as [[| | |]|idx|]; cbn; repeat split.
Qed.

(** A snack edited to 999 kcal: the snack of the day still has its
    200 kcal and the total of the day stays 2000. *)
Example edited_snack_is_not_saved :
  let saved :=
    dayMeal (handleSaveMeal
               (mkDay (Sample.day 1 20000 false false false false false) [])
               (snackKey 0) (Sample.meal 999 false)) in
  map (fun m => NutritionData.calories (Meal.nutrition m))
      (Meals.snacks (DayMeal.meals saved)) = [int 200] /\
  DayMeal.totalCalories saved = int 2000.
Proof. split; vm_compute; reflexivity. Qed.

End SavingMeals.
